(** * Fridge meal generator: inventory store, add form, prompt and plan request

    A shallow embedding of [main.py] (the Streamlit script
    [fridge_recipe_generator.py]) and the properties of its inventory
    persistence, its add form, its prompt text and its call of the
    generation service.

    Python [str] values and the bytes of the backing file are both
    modelled as Rocq [string]s holding the UTF-8 encoding of the text, so
    [write_text(..., encoding="utf-8")] and [read_text(encoding="utf-8")]
    are the identity on well-formed text.

    The semantics is that of CPython 3.11.  Its limit on the conversion
    between [int] and decimal text is part of the model; its recursion
    limit and the memory of the machine are not.  Of the table editor of
    lines 90-119 the loop over the rows that it returns is modelled; the
    table, its sorting and its widget, which go through pandas and
    Streamlit, are not. *)

From Stdlib Require Import ZArith List String Ascii Bool Lia.
From Stdlib Require Import DecimalString DecimalZ DecimalFacts DecimalPos.
Import ListNotations.
Open Scope string_scope.
Open Scope Z_scope.

(** ** Outcomes of Python calls: a value or a raised exception *)

Inductive exn : Type :=
  | JSONDecodeError
  | UnicodeDecodeError
  | UnicodeEncodeError
  | AttributeError (msg : string)
  | TypeError (msg : string)
  | KeyError (key : string)
  | IndexError (msg : string)
  | ValueError (msg : string)
  | NotImplementedError (msg : string)
  | FileNotFoundError (msg : string)
  | ServiceError (msg : string).

Inductive result (A : Type) : Type :=
  | Return (a : A)
  | Raise (e : exn).
Arguments Return {A} a.
Arguments Raise {A} e.

Definition bind {A B : Type} (r : result A) (k : A -> result B) : result B :=
  match r with
  | Return a => k a
  | Raise e => Raise e
  end.

Notation "'let*' x ':=' r 'in' k" := (bind r (fun x => k))
  (at level 10, x pattern, r at level 100, k at level 200).

(** [for x in xs: ...] with a body that may raise: the first exception
    aborts the loop. *)
Fixpoint for_each {A B : Type} (body : A -> result B) (xs : list A)
  : result (list B) :=
  match xs with
  | [] => Return []
  | x :: rest =>
      let* y := body x in
      let* ys := for_each body rest in
      Return (y :: ys)
  end.

(** ** Text *)

Module Str.

Definition nl : ascii := "010"%char.
Definition dquote : ascii := "034"%char.
Definition backslash : ascii := "092"%char.
Definition NL : string := String nl EmptyString.

Definition code (c : ascii) : N := N_of_ascii c.

Definition is_digit (c : ascii) : bool :=
  (48 <=? code c)%N && (code c <=? 57)%N.

Definition digit_value (c : ascii) : Z := Z.of_N (code c) - 48.

Definition digit_char (d : Z) : ascii := ascii_of_N (Z.to_N (48 + d)).

(** [len(s) == 0], [not s] *)
Definition is_empty (s : string) : bool :=
  match s with EmptyString => true | _ => false end.

(** [sep.join(parts)] *)
Fixpoint join (sep : string) (parts : list string) : string :=
  match parts with
  | [] => EmptyString
  | [p] => p
  | p :: rest => p ++ sep ++ join sep rest
  end.

(** [x in s]: [x] occurs in [s] as a contiguous piece. *)
Definition occurs (x s : string) : Prop :=
  exists l r, s = l ++ x ++ r.

(** [s.startswith(p)] *)
Fixpoint starts (p s : string) : bool :=
  match p, s with
  | EmptyString, _ => true
  | String a p', String b s' => Ascii.eqb a b && starts p' s'
  | String _ _, EmptyString => false
  end.

Fixpoint contains (x s : string) : bool :=
  starts x s ||
  match s with
  | EmptyString => false
  | String _ s' => contains x s'
  end.

Fixpoint rev_onto (s acc : string) : string :=
  match s with
  | EmptyString => acc
  | String c s' => rev_onto s' (String c acc)
  end.

Definition rev (s : string) : string := rev_onto s EmptyString.

Fixpoint all_chars (p : ascii -> bool) (s : string) : bool :=
  match s with
  | EmptyString => true
  | String c s' => p c && all_chars p s'
  end.

Fixpoint has_char (c : ascii) (s : string) : bool :=
  match s with
  | EmptyString => false
  | String c' s' => Ascii.eqb c c' || has_char c s'
  end.

(** [s.split("\n")]: the lines of [s], the pieces between its line
    feeds. *)
Fixpoint lines (s : string) : list string :=
  match s with
  | EmptyString => [EmptyString]
  | String c s' =>
      if Ascii.eqb nl c then EmptyString :: lines s'
      else match lines s' with
           | l :: ls => String c l :: ls
           | [] => [String c EmptyString]
           end
  end.

Definition in_range (lo hi : N) (c : ascii) : bool :=
  (lo <=? code c)%N && (code c <=? hi)%N.

(** White space as [str.strip()] and [str.isspace()] see it, on the UTF-8
    bytes: U+0009..U+000D, U+001C..U+0020; U+0085 and U+00A0; U+1680,
    U+2000..U+200A, U+2028, U+2029, U+202F, U+205F and U+3000. *)
Definition space1 (b1 : ascii) : bool :=
  in_range 9 13 b1 || in_range 28 32 b1.

Definition space2 (b1 b2 : ascii) : bool :=
  (code b1 =? 194)%N && ((code b2 =? 133)%N || (code b2 =? 160)%N).

Definition space3 (b1 b2 b3 : ascii) : bool :=
  ((code b1 =? 225)%N && (code b2 =? 154)%N && (code b3 =? 128)%N)
  || ((code b1 =? 226)%N && (code b2 =? 128)%N
      && (in_range 128 138 b3 || in_range 168 169 b3 || (code b3 =? 175)%N))
  || ((code b1 =? 226)%N && (code b2 =? 129)%N && (code b3 =? 159)%N)
  || ((code b1 =? 227)%N && (code b2 =? 128)%N && (code b3 =? 128)%N).

(** [s.lstrip()] *)
Fixpoint lstrip (s : string) : string :=
  match s with
  | String b1 r1 =>
      if space1 b1 then lstrip r1
      else
        match r1 with
        | String b2 r2 =>
            if space2 b1 b2 then lstrip r2
            else
              match r2 with
              | String b3 r3 => if space3 b1 b2 b3 then lstrip r3 else s
              | EmptyString => s
              end
        | EmptyString => s
        end
  | EmptyString => s
  end.

(** [lstrip] on the reversed text: the bytes of a character come last
    byte first. *)
Fixpoint lstrip_reversed (s : string) : string :=
  match s with
  | String b1 r1 =>
      if space1 b1 then lstrip_reversed r1
      else
        match r1 with
        | String b2 r2 =>
            if space2 b2 b1 then lstrip_reversed r2
            else
              match r2 with
              | String b3 r3 =>
                  if space3 b3 b2 b1 then lstrip_reversed r3 else s
              | EmptyString => s
              end
        | EmptyString => s
        end
  | EmptyString => s
  end.

(** [s.rstrip()] *)
Definition rstrip (s : string) : string := rev (lstrip_reversed (rev s)).

(** [s.strip()] *)
Definition strip (s : string) : string := rstrip (lstrip s).

Definition is_ascii (c : ascii) : bool := (code c <? 128)%N.

(** The text before the first line feed and the text after it. *)
Fixpoint cut (s : string) : string * option string :=
  match s with
  | EmptyString => (EmptyString, None)
  | String c s' =>
      if Ascii.eqb c nl then (EmptyString, Some s')
      else let (p, r) := cut s' in (String c p, r)
  end.

Definition after_cut (s : string) : string :=
  match snd (cut s) with
  | Some r => r
  | None => EmptyString
  end.

End Str.

(** ** UTF-8 *)

Module Utf8.

Definition continuation (b : ascii) : bool := Str.in_range 128 191 b.

(** Well-formed UTF-8, as the strict [utf-8] codec accepts it: shortest
    forms only, no surrogates, nothing above U+10FFFF. *)
Fixpoint valid (s : string) : bool :=
  match s with
  | EmptyString => true
  | String b1 r1 =>
      if (Str.code b1 <? 128)%N then valid r1
      else
        match r1 with
        | EmptyString => false
        | String b2 r2 =>
            if Str.in_range 194 223 b1 then continuation b2 && valid r2
            else
              match r2 with
              | EmptyString => false
              | String b3 r3 =>
                  if Str.in_range 224 239 b1 then
                    (if (Str.code b1 =? 224)%N then Str.in_range 160 191 b2
                     else if (Str.code b1 =? 237)%N then Str.in_range 128 159 b2
                     else continuation b2)
                    && continuation b3 && valid r3
                  else
                    match r3 with
                    | EmptyString => false
                    | String b4 r4 =>
                        Str.in_range 240 244 b1
                        && (if (Str.code b1 =? 240)%N then Str.in_range 144 191 b2
                            else if (Str.code b1 =? 244)%N
                                 then Str.in_range 128 143 b2
                                 else continuation b2)
                        && continuation b3 && continuation b4 && valid r4
                    end
              end
        end
  end.

Definition byte (n : N) : string := String (ascii_of_N n) EmptyString.

(** The bytes of code point [c]; a lone surrogate, which a [str] may hold,
    gets the three bytes the same scheme gives it. *)
Definition encode (c : N) : string :=
  (if c <? 128 then byte c
   else if c <? 2048 then
     byte (192 + c / 64) ++ byte (128 + c mod 64)
   else if c <? 65536 then
     byte (224 + c / 4096) ++ byte (128 + (c / 64) mod 64)
     ++ byte (128 + c mod 64)
   else
     byte (240 + c / 262144) ++ byte (128 + (c / 4096) mod 64)
     ++ byte (128 + (c / 64) mod 64) ++ byte (128 + c mod 64))%N.

End Utf8.

(** ** [datetime.date] *)

Module Date.

Record date : Type := mkdate { year : Z; month : Z; day : Z }.

Definition MINYEAR : Z := 1.
Definition MAXYEAR : Z := 9999.

Definition is_leap (y : Z) : bool :=
  (y mod 4 =? 0) && (negb (y mod 100 =? 0) || (y mod 400 =? 0)).

Definition days_in_month_table (m : Z) : Z :=
  match m with
  | 1 => 31 | 2 => 28 | 3 => 31 | 4 => 30 | 5 => 31 | 6 => 30
  | 7 => 31 | 8 => 31 | 9 => 30 | 10 => 31 | 11 => 30 | 12 => 31
  | _ => 0
  end.

Definition days_before_month_table (m : Z) : Z :=
  match m with
  | 1 => 0 | 2 => 31 | 3 => 59 | 4 => 90 | 5 => 120 | 6 => 151
  | 7 => 181 | 8 => 212 | 9 => 243 | 10 => 273 | 11 => 304 | 12 => 334
  | _ => 0
  end.

Definition days_in_month (y m : Z) : Z :=
  if (m =? 2) && is_leap y then 29 else days_in_month_table m.

Definition days_before_month (y m : Z) : Z :=
  days_before_month_table m + (if (2 <? m) && is_leap y then 1 else 0).

Definition days_before_year (y : Z) : Z :=
  let p := y - 1 in p * 365 + p / 4 - p / 100 + p / 400.

Definition ymd_to_ord (y m d : Z) : Z :=
  days_before_year y + days_before_month y m + d.

Definition DI4Y : Z := 1461.
Definition DI100Y : Z := 36524.
Definition DI400Y : Z := 146097.

(** The proleptic Gregorian date of an ordinal ([1] is 0001-01-01). *)
Definition ord_to_ymd (ordinal : Z) : Z * Z * Z :=
  let o := ordinal - 1 in
  let n400 := o / DI400Y in
  let n := o mod DI400Y in
  let n100 := n / DI100Y in
  let n := n mod DI100Y in
  let n4 := n / DI4Y in
  let n := n mod DI4Y in
  let n1 := n / 365 in
  let n := n mod 365 in
  let y := n400 * 400 + 1 + n100 * 100 + n4 * 4 + n1 in
  if (n1 =? 4) || (n100 =? 4) then (y - 1, 12, 31)
  else
    let leapyear := (n1 =? 3) && (negb (n4 =? 24) || (n100 =? 3)) in
    let m := Z.shiftr (n + 50) 5 in
    let preceding :=
      days_before_month_table m + (if (2 <? m) && leapyear then 1 else 0) in
    if n <? preceding
    then (y, m - 1, n - (preceding - days_in_month y (m - 1)) + 1)
    else (y, m, n - preceding + 1).

Definition iso_week1_monday (y : Z) : Z :=
  let first_day := ymd_to_ord y 1 1 in
  let first_weekday := (first_day + 6) mod 7 in
  let week1_monday := first_day - first_weekday in
  if 3 <? first_weekday then week1_monday + 7 else week1_monday.

(** ISO year, week and weekday to year, month and day; [None] where the
    interpreter reports a week or a weekday out of range. *)
Definition iso_to_ymd (iso_year iso_week iso_day : Z) : option (Z * Z * Z) :=
  if (iso_year <? MINYEAR) || (MAXYEAR <? iso_year) then None
  else
    let week_ok :=
      if (iso_week <=? 0) || (53 <=? iso_week) then
        (iso_week =? 53) &&
        (let first_weekday := (ymd_to_ord iso_year 1 1 + 6) mod 7 in
         (first_weekday =? 3) || ((first_weekday =? 2) && is_leap iso_year))
      else true in
    if negb week_ok then None
    else if (iso_day <=? 0) || (8 <=? iso_day) then None
    else
      Some (ord_to_ymd (iso_week1_monday iso_year
                        + ((iso_week - 1) * 7 + iso_day - 1))).

(** [date(y, m, d)]: the constructor's range checks. *)
Definition valid (d : date) : bool :=
  (MINYEAR <=? year d) && (year d <=? MAXYEAR) &&
  (1 <=? month d) && (month d <=? 12) &&
  (1 <=? day d) && (day d <=? days_in_month (year d) (month d)).

Definition new_date (y m d : Z) : option date :=
  let r := mkdate y m d in
  if valid r then Some r else None.

(** Exactly [n] decimal digits at the head of [s]. *)
Fixpoint parse_digits (n : nat) (s : string) (acc : Z) : option (Z * string) :=
  match n with
  | O => Some (acc, s)
  | S n' =>
      match s with
      | String c s' =>
          if Str.is_digit c
          then parse_digits n' s' (acc * 10 + Str.digit_value c)
          else None
      | EmptyString => None
      end
  end.

Definition starts_with (c : ascii) (s : string) : bool :=
  match s with
  | String c' _ => Ascii.eqb c c'
  | EmptyString => false
  end.

Definition tail (s : string) : string :=
  match s with
  | String _ s' => s'
  | EmptyString => EmptyString
  end.

(** The date part of an ISO 8601 text, as [date.fromisoformat] reads it:
    [YYYY-MM-DD], [YYYYMMDD], [YYYY-Www], [YYYYWww], [YYYY-Www-D],
    [YYYYWwwD]. *)
Definition parse_isoformat_date (s : string) : option (Z * Z * Z) :=
  match parse_digits 4 s 0 with
  | None => None
  | Some (y, p) =>
      let uses_separator := starts_with "-" p in
      let p := if uses_separator then tail p else p in
      if starts_with "W" p then
        match parse_digits 2 (tail p) 0 with
        | None => None
        | Some (iso_week, p) =>
            if Str.is_empty p then iso_to_ymd y iso_week 1
            else if uses_separator && negb (starts_with "-" p) then None
            else
              let p := if uses_separator then tail p else p in
              match parse_digits 1 p 0 with
              | None => None
              | Some (iso_day, _) => iso_to_ymd y iso_week iso_day
              end
        end
      else
        match parse_digits 2 p 0 with
        | None => None
        | Some (m, p) =>
            if uses_separator && negb (starts_with "-" p) then None
            else
              let p := if uses_separator then tail p else p in
              match parse_digits 2 p 0 with
              | None => None
              | Some (d, _) => Some (y, m, d)
              end
        end
  end.

(** [date.fromisoformat(s)]; [None] stands for its [ValueError]. *)
Definition fromisoformat (s : string) : option date :=
  let len := String.length s in
  if (len =? 7)%nat || (len =? 8)%nat || (len =? 10)%nat then
    match parse_isoformat_date s with
    | Some (y, m, d) => new_date y m d
    | None => None
    end
  else None.

(** [n] as [width] decimal digits, zero padded ([%04d], [%02d]). *)
Fixpoint zero_padded (width : nat) (n : Z) : string :=
  match width with
  | O => EmptyString
  | S w => zero_padded w (n / 10) ++ String (Str.digit_char (n mod 10)) EmptyString
  end.

(** [d.isoformat()], which is also [str(d)]. *)
Definition isoformat (d : date) : string :=
  zero_padded 4 (year d) ++ "-" ++ zero_padded 2 (month d) ++ "-"
  ++ zero_padded 2 (day d).

End Date.

(** ** The program, over the parts of its libraries that are taken as given *)

Section Program.

(** Binary floating point is not represented: [float] stands for the
    finite values of the interpreter's [float], [float_repr] for
    [float.__repr__] on them and [float_of_literal] for [float(text)] on a
    JSON number that has a fraction or an exponent. *)
Variable float : Type.
Variable float_repr : float -> string.

Inductive pyfloat : Type :=
  | Finite (f : float)
  | Inf
  | NegInf
  | NaN.

Variable float_of_literal : string -> pyfloat.

(** [repr(s)] of a [str], whose choice of quotes and escapes follows the
    Unicode tables of the interpreter. *)
Variable str_repr : string -> string.

(** *** Values *)

(** A [pandas.Timestamp] without time zone: a calendar date and the
    nanoseconds elapsed since midnight. *)
Record Timestamp : Type := mkTimestamp { ts_date : Date.date; ts_ns : Z }.

(** The Python values the program handles.  A [dict] keeps its keys in
    insertion order, and all keys met here are [str]. *)
Unset Elimination Schemes.
Inductive pyval : Type :=
  | PNone
  | PBool (b : bool)
  | PInt (z : Z)
  | PFloat (f : pyfloat)
  | PStr (s : string)
  | PDate (d : Date.date)
  | PTimestamp (t : Timestamp)
  | PNaT
  | PList (items : list pyval)
  | PDict (entries : list (string * pyval)).
Set Elimination Schemes.

Definition dict : Type := list (string * pyval).

(** [d.get(key)] *)
Fixpoint dict_get (key : string) (d : dict) : option pyval :=
  match d with
  | [] => None
  | (k, v) :: rest => if String.eqb k key then Some v else dict_get key rest
  end.

(** [d[key] = v]: a key already present keeps its place. *)
Fixpoint dict_set (key : string) (v : pyval) (d : dict) : dict :=
  match d with
  | [] => [(key, v)]
  | (k, v0) :: rest =>
      if String.eqb k key then (k, v) :: rest
      else (k, v0) :: dict_set key v rest
  end.

(** [dict(pairs)] *)
Definition dict_of_pairs (pairs : list (string * pyval)) : dict :=
  fold_left (fun d kv => dict_set (fst kv) (snd kv) d) pairs [].

(** *** [str()] and [repr()] *)

Definition int_str (z : Z) : string := NilZero.string_of_int (Z.to_int z).

Definition pyfloat_str (f : pyfloat) : string :=
  match f with
  | Finite x => float_repr x
  | Inf => "inf"
  | NegInf => "-inf"
  | NaN => "nan"
  end.

Definition bool_str (b : bool) : string := if b then "True" else "False".

Definition time_str (ns : Z) : string :=
  let secs := ns / 1000000000 in
  let frac := ns mod 1000000000 in
  Date.zero_padded 2 (secs / 3600) ++ ":"
  ++ Date.zero_padded 2 ((secs / 60) mod 60) ++ ":"
  ++ Date.zero_padded 2 (secs mod 60)
  ++ (if frac =? 0 then EmptyString
      else if frac mod 1000 =? 0 then "." ++ Date.zero_padded 6 (frac / 1000)
      else "." ++ Date.zero_padded 9 frac).

Definition Timestamp_str (t : Timestamp) : string :=
  Date.isoformat (ts_date t) ++ " " ++ time_str (ts_ns t).

Definition date_repr (d : Date.date) : string :=
  "datetime.date(" ++ int_str (Date.year d) ++ ", " ++ int_str (Date.month d)
  ++ ", " ++ int_str (Date.day d) ++ ")".

Fixpoint py_repr (v : pyval) : string :=
  match v with
  | PNone => "None"
  | PBool b => bool_str b
  | PInt z => int_str z
  | PFloat f => pyfloat_str f
  | PStr s => str_repr s
  | PDate d => date_repr d
  | PTimestamp t => "Timestamp('" ++ Timestamp_str t ++ "')"
  | PNaT => "NaT"
  | PList items => "[" ++ Str.join ", " (map py_repr items) ++ "]"
  | PDict entries =>
      "{" ++ Str.join ", "
               (map (fun kv => str_repr (fst kv) ++ ": " ++ py_repr (snd kv))
                    entries)
      ++ "}"
  end.

(** The text of [str(v)]. *)
Definition py_text (v : pyval) : string :=
  match v with
  | PStr s => s
  | PDate d => Date.isoformat d
  | PTimestamp t => Timestamp_str t
  | _ => py_repr v
  end.

(** *** The limit on the conversion between [int] and text *)

(** The interpreter refuses, with a [ValueError], to write an [int] of more
    than 4300 digits as decimal text, and to read one from such a text. *)
Definition MAX_STR_DIGITS : nat := 4300.

Definition limit_advice : string :=
  "; use sys.set_int_max_str_digits() to increase the limit".

(** The error of writing an [int] as text. *)
Definition conversion_limit : exn :=
  ValueError ("Exceeds the limit (4300 digits) for integer string conversion"
              ++ limit_advice).

(** The digits of a decimal text, without its sign. *)
Definition digits_of (text : string) : string :=
  match text with
  | String c r => if Ascii.eqb c "-" then r else text
  | EmptyString => text
  end.

Definition within_limit (text : string) : bool :=
  (String.length (digits_of text) <=? MAX_STR_DIGITS)%nat.

(** The error of reading an [int] from [text]. *)
Definition literal_limit (text : string) : exn :=
  ValueError ("Exceeds the limit (4300 digits) for integer string conversion"
              ++ ": value has "
              ++ NilZero.string_of_uint
                   (Nat.to_uint (String.length (digits_of text)))
              ++ " digits" ++ limit_advice).

(** The values whose text holds no [int] beyond the limit. *)
Fixpoint convertible (v : pyval) : bool :=
  match v with
  | PInt z => within_limit (int_str z)
  | PList items => forallb convertible items
  | PDict entries => forallb (fun kv => convertible (snd kv)) entries
  | _ => true
  end.

(** [str(v)], which is also what an f-string field [{v}] renders. *)
Definition py_str (v : pyval) : result string :=
  if convertible v then Return (py_text v) else Raise conversion_limit.

(** [v[key]] for a [str] key. *)
Definition subscript (v : pyval) (key : string) : result pyval :=
  match v with
  | PDict d =>
      match dict_get key d with
      | Some x => Return x
      | None => Raise (KeyError key)
      end
  | _ => Raise (TypeError "indices must be integers or slices, not str")
  end.

(** *** [json.dumps(v, ensure_ascii=False, default=str, indent=2)] *)

Definition hex_digit (n : N) : ascii :=
  if (n <? 10)%N then ascii_of_N (48 + n) else ascii_of_N (87 + n).

(** One character inside a JSON string; with [ensure_ascii=False] only the
    quote, the backslash and the control characters are escaped. *)
Definition escape_char (c : ascii) : string :=
  let n := Str.code c in
  if Ascii.eqb c Str.dquote then String Str.backslash (String Str.dquote EmptyString)
  else if Ascii.eqb c Str.backslash
       then String Str.backslash (String Str.backslash EmptyString)
  else if (n =? 10)%N then String Str.backslash "n"
  else if (n =? 13)%N then String Str.backslash "r"
  else if (n =? 9)%N then String Str.backslash "t"
  else if (n =? 8)%N then String Str.backslash "b"
  else if (n =? 12)%N then String Str.backslash "f"
  else if (n <? 32)%N
       then String Str.backslash
              ("u00" ++ String (hex_digit (n / 16)) (String (hex_digit (n mod 16)) EmptyString))
  else String c EmptyString.

Fixpoint escape (s : string) : string :=
  match s with
  | EmptyString => EmptyString
  | String c s' => escape_char c ++ escape s'
  end.

Definition encode_basestring (s : string) : string :=
  String Str.dquote (escape s ++ String Str.dquote EmptyString).

Definition floatstr (f : pyfloat) : string :=
  match f with
  | NaN => "NaN"
  | Inf => "Infinity"
  | NegInf => "-Infinity"
  | Finite x => float_repr x
  end.

Fixpoint indentation (level : nat) : string :=
  match level with
  | O => EmptyString
  | S l => "  " ++ indentation l
  end.

Definition newline_indent (level : nat) : string :=
  Str.NL ++ indentation level.

Fixpoint iterencode (level : nat) (v : pyval) : string :=
  match v with
  | PStr s => encode_basestring s
  | PNone => "null"
  | PBool true => "true"
  | PBool false => "false"
  | PInt z => int_str z
  | PFloat f => floatstr f
  | PList [] => "[]"
  | PList items =>
      "[" ++ newline_indent (S level)
      ++ Str.join ("," ++ newline_indent (S level))
                  (map (iterencode (S level)) items)
      ++ newline_indent level ++ "]"
  | PDict [] => "{}"
  | PDict entries =>
      "{" ++ newline_indent (S level)
      ++ Str.join ("," ++ newline_indent (S level))
                  (map (fun kv => encode_basestring (fst kv) ++ ": "
                                  ++ iterencode (S level) (snd kv))
                       entries)
      ++ newline_indent level ++ "}"
  (* anything else goes through [default=str] and is written as text *)
  | PDate d => encode_basestring (py_text (PDate d))
  | PTimestamp t => encode_basestring (py_text (PTimestamp t))
  | PNaT => encode_basestring (py_text PNaT)
  end.

Definition json_dumps (v : pyval) : result string :=
  if convertible v then Return (iterencode 0 v) else Raise conversion_limit.

(** *** [json.loads(text)] *)

Definition is_ws (c : ascii) : bool :=
  let n := Str.code c in
  (n =? 32)%N || (n =? 9)%N || (n =? 10)%N || (n =? 13)%N.

Fixpoint skip_ws (s : string) : string :=
  match s with
  | String c s' => if is_ws c then skip_ws s' else s
  | EmptyString => s
  end.

Definition hex_value (c : ascii) : option N :=
  let n := Str.code c in
  if Str.in_range 48 57 c then Some (n - 48)%N
  else if Str.in_range 97 102 c then Some (n - 87)%N
  else if Str.in_range 65 70 c then Some (n - 55)%N
  else None.

(** Four hexadecimal digits. *)
Definition hex4 (s : string) : option (N * string) :=
  match s with
  | String a (String b (String c (String d r))) =>
      match hex_value a, hex_value b, hex_value c, hex_value d with
      | Some x3, Some x2, Some x1, Some x0 =>
          Some (((x3 * 16 + x2) * 16 + x1) * 16 + x0, r)%N
      | _, _, _, _ => None
      end
  | _ => None
  end.

Definition is_high_surrogate (u : N) : bool := (55296 <=? u)%N && (u <=? 56319)%N.
Definition is_low_surrogate (u : N) : bool := (56320 <=? u)%N && (u <=? 57343)%N.
Definition join_surrogates (hi lo : N) : N :=
  (65536 + ((hi mod 1024) * 1024 + lo mod 1024))%N.

(** A backslash escape other than [\u]. *)
Definition simple_escape (c : ascii) : option ascii :=
  if Ascii.eqb c Str.dquote then Some Str.dquote
  else if Ascii.eqb c Str.backslash then Some Str.backslash
  else if Ascii.eqb c "/" then Some "/"%char
  else if Ascii.eqb c "b" then Some "008"%char
  else if Ascii.eqb c "f" then Some "012"%char
  else if Ascii.eqb c "n" then Some "010"%char
  else if Ascii.eqb c "r" then Some "013"%char
  else if Ascii.eqb c "t" then Some "009"%char
  else None.

(** The code point of a [\uXXXX] escape whose digits were just read, with
    the text that follows it: a high surrogate takes a low one that
    follows it as a second escape. *)
Definition surrogate_pair (u : N) (r : string) : option (N * string) :=
  if is_high_surrogate u && (6 <? String.length r)%nat then
    match r with
    | String b (String c r') =>
        if Ascii.eqb b Str.backslash && Ascii.eqb c "u" then
          match hex4 r' with
          | None => None
          | Some (u2, r'') =>
              if is_low_surrogate u2 then Some (join_surrogates u u2, r'')
              else Some (u, r)
          end
        else Some (u, r)
    | _ => Some (u, r)
    end
  else Some (u, r).

(** The text of a JSON string whose opening quote was just read, and
    what follows its closing quote. *)
Fixpoint scanstring (fuel : nat) (s : string) : option (string * string) :=
  match fuel with
  | O => None
  | S fuel' =>
      match s with
      | EmptyString => None
      | String c r =>
          if Ascii.eqb c Str.dquote then Some (EmptyString, r)
          else if Ascii.eqb c Str.backslash then
            match r with
            | EmptyString => None
            | String e r1 =>
                if Ascii.eqb e "u" then
                  match hex4 r1 with
                  | None => None
                  | Some (u, r2) =>
                      match surrogate_pair u r2 with
                      | None => None
                      | Some (cp, r3) =>
                          match scanstring fuel' r3 with
                          | Some (t, r4) => Some (Utf8.encode cp ++ t, r4)
                          | None => None
                          end
                      end
                  end
                else
                  match simple_escape e with
                  | None => None
                  | Some x =>
                      match scanstring fuel' r1 with
                      | Some (t, r2) => Some (String x t, r2)
                      | None => None
                      end
                  end
            end
          else if (Str.code c <? 32)%N then None
          else
            match scanstring fuel' r with
            | Some (t, r') => Some (String c t, r')
            | None => None
            end
      end
  end.

(** The longest run of decimal digits at the head of [s], and the rest. *)
Fixpoint span_digits (s : string) : string * string :=
  match s with
  | String c s' =>
      if Str.is_digit c
      then let (ds, r) := span_digits s' in (String c ds, r)
      else (EmptyString, s)
  | EmptyString => (EmptyString, s)
  end.

(** The four parts of a JSON number, each read at the head of the text
    that the part before it left: the text of the part and the rest. *)
Definition scan_sign (s : string) : string * string :=
  match s with
  | String c r => if Ascii.eqb c "-" then ("-", r) else (EmptyString, s)
  | EmptyString => (EmptyString, s)
  end.

Definition scan_int (s : string) : option (string * string) :=
  match s with
  | String c r =>
      if Str.in_range 49 57 c
      then let (ds, r') := span_digits r in Some (String c ds, r')
      else if Ascii.eqb c "0" then Some ("0", r)
      else None
  | EmptyString => None
  end.

Definition scan_frac (s : string) : string * string :=
  match s with
  | String p (String d r) =>
      if Ascii.eqb p "." && Str.is_digit d
      then let (ds, r') := span_digits r in (String p (String d ds), r')
      else (EmptyString, s)
  | _ => (EmptyString, s)
  end.

(** An exponent needs a digit: without one the [e] is left unread. *)
Definition scan_exp (s : string) : string * string :=
  match s with
  | String e r =>
      if Ascii.eqb e "e" || Ascii.eqb e "E" then
        let (esign, r1) :=
          match r with
          | String g r1 =>
              if Ascii.eqb g "-" || Ascii.eqb g "+"
              then (String g EmptyString, r1)
              else (EmptyString, r)
          | EmptyString => (EmptyString, r)
          end in
        let (ds, r2) := span_digits r1 in
        if Str.is_empty ds then (EmptyString, s)
        else (String e (esign ++ ds), r2)
      else (EmptyString, s)
  | EmptyString => (EmptyString, s)
  end.

(** A JSON number at the head of [s]: its text, whether it has a fraction
    or an exponent, and the rest of [s]. *)
Definition scan_number (s : string) : option (string * bool * string) :=
  let (sign, s1) := scan_sign s in
  match scan_int s1 with
  | None => None
  | Some (digits, s2) =>
      let (frac, s3) := scan_frac s2 in
      let (exp, s4) := scan_exp s3 in
      Some (sign ++ digits ++ frac ++ exp,
            negb (Str.is_empty frac && Str.is_empty exp), s4)
  end.

(** [int(text)] on the decimal digits of a JSON number. *)
Definition int_of_literal (s : string) : Z :=
  match NilZero.int_of_string s with
  | Some d => Z.of_int d
  | None => 0
  end.

Fixpoint drop (n : nat) (s : string) : string :=
  match n, s with
  | S n', String _ s' => drop n' s'
  | _, _ => s
  end.

Definition scan_constant (s : string) : result (pyval * string) :=
  if Str.starts "null" s then Return (PNone, drop 4 s)
  else if Str.starts "true" s then Return (PBool true, drop 4 s)
  else if Str.starts "false" s then Return (PBool false, drop 5 s)
  else if Str.starts "NaN" s then Return (PFloat NaN, drop 3 s)
  else if Str.starts "Infinity" s then Return (PFloat Inf, drop 8 s)
  else if Str.starts "-Infinity" s then Return (PFloat NegInf, drop 9 s)
  else
    match scan_number s with
    | Some (text, true, r) => Return (PFloat (float_of_literal text), r)
    | Some (text, false, r) =>
        if within_limit text then Return (PInt (int_of_literal text), r)
        else Raise (literal_limit text)
    | None => Raise JSONDecodeError
    end.

(** One JSON value at the head of [s].  Every call that recurses has read
    at least one character, so the length of the text is fuel enough. *)
Fixpoint scan_once (fuel : nat) (s : string) {struct fuel}
  : result (pyval * string) :=
  match fuel with
  | O => Raise JSONDecodeError
  | S fuel' =>
      match s with
      | EmptyString => Raise JSONDecodeError
      | String c r =>
          if Ascii.eqb c Str.dquote then
            match scanstring (String.length s) r with
            | Some (t, r') => Return (PStr t, r')
            | None => Raise JSONDecodeError
            end
          else if Ascii.eqb c "{" then
            match skip_ws r with
            | String c1 r1 =>
                if Ascii.eqb c1 "}" then Return (PDict [], r1)
                else
                  match parse_members fuel' (skip_ws r) with
                  | Return (pairs, r') => Return (PDict (dict_of_pairs pairs), r')
                  | Raise e => Raise e
                  end
            | EmptyString => Raise JSONDecodeError
            end
          else if Ascii.eqb c "[" then
            match skip_ws r with
            | String c1 r1 =>
                if Ascii.eqb c1 "]" then Return (PList [], r1)
                else
                  match parse_elements fuel' (skip_ws r) with
                  | Return (items, r') => Return (PList items, r')
                  | Raise e => Raise e
                  end
            | EmptyString => Raise JSONDecodeError
            end
          else scan_constant s
      end
  end

(** The elements of an array from its first value to its closing bracket. *)
with parse_elements (fuel : nat) (s : string) {struct fuel}
  : result (list pyval * string) :=
  match fuel with
  | O => Raise JSONDecodeError
  | S fuel' =>
      match scan_once fuel' s with
      | Raise e => Raise e
      | Return (v, r) =>
          match skip_ws r with
          | String c r1 =>
              if Ascii.eqb c "]" then Return ([v], r1)
              else if Ascii.eqb c "," then
                match parse_elements fuel' (skip_ws r1) with
                | Return (vs, r') => Return (v :: vs, r')
                | Raise e => Raise e
                end
              else Raise JSONDecodeError
          | EmptyString => Raise JSONDecodeError
          end
      end
  end

(** The members of an object from its first key to its closing brace. *)
with parse_members (fuel : nat) (s : string) {struct fuel}
  : result (list (string * pyval) * string) :=
  match fuel with
  | O => Raise JSONDecodeError
  | S fuel' =>
      match s with
      | String q r0 =>
          if Ascii.eqb q Str.dquote then
            match scanstring (String.length s) r0 with
            | None => Raise JSONDecodeError
            | Some (key, r) =>
                match skip_ws r with
                | String c r1 =>
                    if Ascii.eqb c ":" then
                      match scan_once fuel' (skip_ws r1) with
                      | Raise e => Raise e
                      | Return (v, r2) =>
                          match skip_ws r2 with
                          | String c2 r3 =>
                              if Ascii.eqb c2 "}" then Return ([(key, v)], r3)
                              else if Ascii.eqb c2 "," then
                                match parse_members fuel' (skip_ws r3) with
                                | Return (kvs, r') => Return ((key, v) :: kvs, r')
                                | Raise e => Raise e
                                end
                              else Raise JSONDecodeError
                          | EmptyString => Raise JSONDecodeError
                          end
                      end
                    else Raise JSONDecodeError
                | EmptyString => Raise JSONDecodeError
                end
            end
          else Raise JSONDecodeError
      | EmptyString => Raise JSONDecodeError
      end
  end.

(** [json.loads(s)]: white space, one value, white space. *)
Definition json_loads (s : string) : result pyval :=
  match scan_once (S (String.length s)) (skip_ws s) with
  | Return (v, r) =>
      if Str.is_empty (skip_ws r) then Return v else Raise JSONDecodeError
  | Raise e => Raise e
  end.

(** *** pandas *)

(** What [pd.to_datetime] gives for a text: a [Timestamp], or [NaT] for a
    text it reads as a missing value. *)
Inductive datetime_like : Type :=
  | Stamp (t : Timestamp)
  | NaT.

(** [pd.to_datetime(text)], the best-effort parser of dates, or the
    exception it raises. *)
Variable to_datetime : string -> result datetime_like.

(** [t.date()] of a [Timestamp]: the day as a [datetime.date], which
    holds the years 1 to 9999 only; a [Timestamp] of another year has no
    such day and the call raises. *)
Definition Timestamp_date (t : Timestamp) : result pyval :=
  if Date.valid (ts_date t) then Return (PDate (ts_date t))
  else Raise (NotImplementedError
                "date not yet supported on Timestamps which are outside the range of Python's standard library.").

(** [x.date()]; the [date()] of [NaT] is [NaT]. *)
Definition date_of (x : datetime_like) : result pyval :=
  match x with
  | Stamp t => Timestamp_date t
  | NaT => Return PNaT
  end.

(** *** The backing file [DATA_PATH] *)

(** The bytes of [inventory.json], or [None] while it does not exist. *)
Definition file : Type := option string.

(** [DATA_PATH.write_text(text, encoding="utf-8")]: the file is opened,
    which empties it, before the text is encoded. *)
Definition write_text (text : string) (f : file) : file * result unit :=
  if Utf8.valid text then (Some text, Return tt)
  else (Some EmptyString, Raise UnicodeEncodeError).

(** [DATA_PATH.read_text(encoding="utf-8")] of an existing file.  The
    translation of carriage returns into line feeds that reading in text
    mode adds is left out: both are white space to [json.loads] and both
    are refused inside a JSON string. *)
Definition read_text (bytes : string) : result string :=
  if Utf8.valid bytes then Return bytes else Raise UnicodeDecodeError.

Definition save_inventory (inv : pyval) (f : file) : file * result unit :=
  match json_dumps inv with
  | Return text => write_text text f
  | Raise e => (f, Raise e)
  end.

(** [item.get(key)] *)
Definition get (item : pyval) (key : string) : result pyval :=
  match item with
  | PDict d =>
      Return (match dict_get key d with Some v => v | None => PNone end)
  | _ => Raise (AttributeError "object has no attribute 'get'")
  end.

(** [item[key] = v] on a [dict] *)
Definition setitem (item : pyval) (key : string) (v : pyval) : pyval :=
  match item with
  | PDict d => PDict (dict_set key v d)
  | _ => item
  end.

(** The [try] of lines 49-52: the ISO reading first, the best-effort one
    when that raises [ValueError]. *)
Definition parse_expiry (exp : string) : result pyval :=
  match Date.fromisoformat exp with
  | Some d => Return (PDate d)
  | None => let* t := to_datetime exp in date_of t
  end.

(** The body of the loop of [load_inventory] (lines 47-54). *)
Definition normalize_item (item : pyval) : result pyval :=
  let* exp := get item "expiry" in
  match exp with
  | PStr s => let* d := parse_expiry s in Return (setitem item "expiry" d)
  | PTimestamp t =>
      let* d := Timestamp_date t in Return (setitem item "expiry" d)
  | _ => Return item
  end.

(** [for item in raw: ...] followed by [return raw]: a list gives its
    items; a [dict] gives its keys and a [str] its characters, which have
    no [get]; nothing else can be iterated. *)
Definition normalize_all (raw : pyval) : result pyval :=
  match raw with
  | PList items =>
      let* items' := for_each normalize_item items in Return (PList items')
  | PDict [] => Return raw
  | PDict _ => Raise (AttributeError "object has no attribute 'get'")
  | PStr s =>
      if Str.is_empty s then Return raw
      else Raise (AttributeError "object has no attribute 'get'")
  | _ => Raise (TypeError "object is not iterable")
  end.

Definition load_inventory (f : file) : result pyval :=
  match f with
  | None => Return (PList [])
  | Some bytes =>
      if (String.length bytes =? 0)%nat then Return (PList [])
      else
        let* text := read_text bytes in
        let* raw := json_loads text in
        normalize_all raw
  end.

(** *** Session state and the add form *)

(** [st.session_state] together with the backing file. *)
Record world : Type := mkworld {
  inventory : pyval;
  api_key : option string;
  data_file : file
}.

Definition UNITS : list string :=
  ["g"; "kg"; "lb"; "oz"; "ml"; "L"; "个"; "片"; "杯"; "勺"; "份"].

Definition CATEGORIES : list string :=
  ["肉"; "菜"; "主食"; "水果"; "酱料"; "饮料"].

(** The widgets of the form [add_ingredient] when the script runs:
    [submitted] is the value of [form_submit_button], the other fields
    are the script's [name], [qty], [unit], [expiry] and [category]. *)
Record add_form : Type := mkform {
  submitted : bool;
  form_name : string;
  form_qty : float;
  form_unit : string;
  form_expiry : Date.date;
  form_category : string
}.

(** How a run of the script goes on after a step. *)
Inductive flow : Type :=
  | Continue
  | Rerun
  | Stop.

Definition new_record (form : add_form) : pyval :=
  PDict [ ("name", PStr (Str.strip (form_name form)));
          ("quantity", PFloat (Finite (form_qty form)));
          ("unit", PStr (form_unit form));
          ("expiry", PDate (form_expiry form));
          ("category", PStr (form_category form)) ].

(** Lines 77-88. *)
Definition add_ingredient (form : add_form) (w : world) : world * result flow :=
  if submitted form && negb (Str.is_empty (form_name form)) then
    match inventory w with
    | PList items =>
        let inv := PList (items ++ [new_record form]) in
        let (f, saved) := save_inventory inv (data_file w) in
        (mkworld inv (api_key w) f, let* _ := saved in Return Rerun)
    | _ => (w, Raise (AttributeError "object has no attribute 'append'"))
    end
  else (w, Return Continue).

(** *** The rows of the table editor (lines 98-111) *)

(** The body of the loop over [edited_df.to_dict("records")]: the expiry
    of the row is read with [row["expiry"]], brought to a date as in
    [load_inventory], and written back into the row in every case. *)
Definition normalize_row (row : pyval) : result pyval :=
  let* exp := subscript row "expiry" in
  let* exp' :=
    match exp with
    | PStr s => parse_expiry s
    | PTimestamp t => Timestamp_date t
    | _ => Return exp
    end in
  Return (setitem row "expiry" exp').

(** Lines 98-111 for the rows that the editor returned: the inventory of
    the session is replaced, and saved, once every row went through the
    loop. *)
Definition reconcile (rows : list pyval) (w : world) : world * result unit :=
  match for_each normalize_row rows with
  | Raise e => (w, Raise e)
  | Return updated_inv =>
      let (f, saved) := save_inventory (PList updated_inv) (data_file w) in
      (mkworld (PList updated_inv) (api_key w) f, saved)
  end.

(** *** A session that starts (lines 58-61) *)

(** With nothing in [st.session_state] yet, the inventory is loaded from
    the backing file and the key is [None]. *)
Definition new_session (f : file) : result world :=
  let* inv := load_inventory f in Return (mkworld inv None f).

(** *** The key of the generation service *)

(** The first value that is not empty, as a chain of [or] picks it. *)
Definition or_else (a b : option string) : option string :=
  match a with
  | Some (String _ _) => a
  | _ => b
  end.

Definition truthy (k : option string) : bool :=
  match k with
  | Some (String _ _) => true
  | _ => false
  end.

(** The secrets of the app as far as the script reads them, for a secrets
    file whose keys are texts: [secret_key] is the entry [OPENAI_API_KEY]
    at the top of the file, [secret_api] the section [api] with its entry
    [OPENAI_API_KEY]; [None] where the file has no such entry or
    section. *)
Record secrets_file : Type := mksecrets {
  secret_key : option string;
  secret_api : option (option string)
}.

(** [(st.secrets.get("api") or {}).get("OPENAI_API_KEY")] *)
Definition api_secret (s : secrets_file) : option string :=
  match secret_api s with
  | Some section => section
  | None => None
  end.

(** [getenv] is [os.getenv("OPENAI_API_KEY")].  [secrets] is what reading
    [st.secrets] gives: the secrets, or the exception that [st.secrets.get]
    raises when the app has no secrets file or the file cannot be parsed.
    The chain of [or] reads the secrets only when the environment variable
    is absent or empty. *)
Definition load_api_key (getenv : option string) (secrets : result secrets_file)
  : result (option string) :=
  if truthy getenv then Return getenv
  else
    let* s := secrets in
    Return (or_else (secret_key s) (api_secret s)).

(** Lines 25-33; [typed] is what the side bar's text input holds.  An
    exception of [load_api_key] leaves the function before the input is
    drawn. *)
Definition ensure_key (getenv : option string) (secrets : result secrets_file)
           (typed : string) (w : world) : world * result flow :=
  match load_api_key getenv secrets with
  | Raise e => (w, Raise e)
  | Return key =>
      let key := if truthy key then key else Some typed in
      if truthy key
      then (mkworld (inventory w) key (data_file w), Return Continue)
      else (w, Return Stop)
  end.

(** *** The prompt (lines 126-161) *)

Definition NL : string := Str.NL.

(** One item of the listing: each field is looked up and rendered before
    the next one is looked up. *)
Definition item_line (i : pyval) : result string :=
  let* n := bind (subscript i "name") py_str in
  let* q := bind (subscript i "quantity") py_str in
  let* u := bind (subscript i "unit") py_str in
  let* c := bind (subscript i "category") py_str in
  let* e := bind (subscript i "expiry") py_str in
  Return ("- " ++ n ++ " (" ++ q ++ u ++ ", " ++ c ++ ", expiring " ++ e ++ ")").

(** The items of [st.session_state.inventory] as the generator visits
    them. *)
Definition iterate (v : pyval) : result (list pyval) :=
  match v with
  | PList items => Return items
  | PDict entries => Return (map (fun kv => PStr (fst kv)) entries)
  | PStr EmptyString => Return []
  | PStr _ => Raise (TypeError "string indices must be integers, not 'str'")
  | _ => Raise (TypeError "object is not iterable")
  end.

Definition inv_text (inv : pyval) : result string :=
  let* items := iterate inv in
  let* lines := for_each item_line items in
  Return (Str.join NL lines).

(** The two instructions that [strict] chooses between, and the line of
    the prompt that each makes. *)
Definition strict_instruction : string :=
  "不得超出任何食材库存；如有超出请调整菜品使总用量不超库存。".

Definition lenient_instruction : string :=
  "若所需量超出库存，请在文末新增章节 **需购买的额外食材**，列出不足食材及数量。".

Definition strict_rule : string := "  - " ++ strict_instruction ++ NL.

Definition lenient_rule : string := "  - " ++ lenient_instruction ++ NL.

(** The fixed text of the prompt, cut where the f-strings take a value: up
    to the number of days, from there to the rule that [strict] chooses,
    and from the rule to the listing. *)
Definition greeting : string :=
  "You are a registered dietitian and creative home‑cook." ++ NL ++
  "Design a ".

Definition requirements : string :=
  "-day meal plan for one male and one female in their 20s." ++ NL ++ NL ++
  "【总体要求】" ++ NL ++
  "1. 每天必须包含 早餐、午餐、晚餐。" ++ NL ++
  "2. 餐食需营养均衡：足量蛋白质、复合碳水、蔬菜与健康脂肪；晚餐更轻盈、易消化。" ++ NL ++
  "3. 可使用空气炸锅（首选）、榨汁机、豆浆机；尽量采用低油方式减少油烟。" ++ NL ++
  "4. **避免把所有蔬菜都切成丝**，可根据需要切块、切片、切丁。" ++ NL ++
  "5. 用中文输出，采用 Markdown 格式：天次标题和菜名加粗，条目用列表符号。" ++ NL ++ NL ++
  "【菜品格式（Markdown 示范）】" ++ NL ++
  "**菜名**" ++ NL ++
  "  - 食材（g/ml）" ++ NL ++
  "  - 做法：步骤 1…步骤 3–5" ++ NL ++ NL ++
  "【配料与库存】" ++ NL ++
  "下方是冰箱库存清单，请先对比再编排菜单，遵守以下规则：" ++ NL.

Definition closing : string :=
  NL ++
  "【每日总结】" ++ NL ++
  "每天菜单后，用 1–2 句话说明该日如何满足营养需求。" ++ NL ++ NL ++
  "⚠️ 不要在每道菜后输出类似“【冰箱库存：米饭1000 g，使用后剩 600 g】”的提示。" ++ NL ++ NL ++
  "=== 冰箱库存 ===" ++ NL.

Definition prompt (days : Z) (strict : bool) (inv_text : string) : string :=
  greeting ++ int_str days ++ requirements
  ++ (if strict then strict_rule else lenient_rule)
  ++ closing ++ inv_text.

(** The listing is made first; the number of days is rendered when the
    prompt is put together. *)
Definition build_prompt (inv : pyval) (days : Z) (strict : bool)
  : result string :=
  let* listing := inv_text inv in
  if within_limit (int_str days) then Return (prompt days strict listing)
  else Raise conversion_limit.

(** *** The request to the generation service (lines 164-177) *)

Record chat_request : Type := mkrequest {
  model : string;
  messages : list (string * string);
  max_completion_tokens : Z
}.

(** Of a response the program reads [choices[0].message.content] only:
    one entry per choice, [None] for a choice without content. *)
Record chat_response : Type := mkresponse {
  choices : list (option string)
}.

(** [client.chat.completions.create(...)] of a client made with the given
    key: the response of the service, or the exception raised on a
    transport, authentication or service failure. *)
Variable chat_completions_create : string -> chat_request -> result chat_response.

(** What the page shows. *)
Inductive display : Type :=
  | Markdown (text : string)
  | Error (text : string).

(** [str(e)] *)
Definition exn_str (e : exn) : string :=
  match e with
  | JSONDecodeError => "Expecting value"
  | UnicodeDecodeError => "'utf-8' codec can't decode byte"
  | UnicodeEncodeError => "'utf-8' codec can't encode character"
  | AttributeError msg => msg
  | TypeError msg => msg
  | KeyError key => str_repr key
  | IndexError msg => msg
  | ValueError msg => msg
  | NotImplementedError msg => msg
  | FileNotFoundError msg => msg
  | ServiceError msg => msg
  end.

Definition first_choice (resp : chat_response) : result (option string) :=
  match choices resp with
  | c :: _ => Return c
  | [] => Raise (IndexError "list index out of range")
  end.

Definition content_strip (content : option string) : result string :=
  match content with
  | Some text => Return (Str.strip text)
  | None => Raise (AttributeError "'NoneType' object has no attribute 'strip'")
  end.

(** The request: the fixed system instruction, the prompt as the user's
    message, the model and the bound on the size of the answer. *)
Definition plan_request (prompt_text : string) : chat_request :=
  mkrequest "o3-mini"
    [ ("system", "You are a helpful culinary assistant.");
      ("user", prompt_text) ]
    15000.

(** The body of the [try]: the call, and the text of the first choice of
    the response, stripped. *)
Definition completion (key : string) (prompt_text : string) : result string :=
  let* resp := chat_completions_create key (plan_request prompt_text) in
  let* content := first_choice resp in
  content_strip content.

(** The [try] block and its [except Exception]. *)
Definition request_plan (key : string) (prompt_text : string) : display :=
  match completion key prompt_text with
  | Return text => Markdown text
  | Raise e => Error ("OpenAI 调用失败：" ++ exn_str e)
  end.

(** [OpenAI(api_key=...)]: without a key in the session the client falls
    back on the environment and raises when that has none either. *)
Definition client_key (getenv : option string) (w : world) : result string :=
  match api_key w with
  | Some k => Return k
  | None =>
      match getenv with
      | Some k => Return k
      | None => Raise (ServiceError "The api_key client option must be set")
      end
  end.

(** A click on the button that asks for a plan: what is shown, and the
    state the click leaves. *)
Definition generate (getenv : option string) (days : Z) (strict : bool)
           (w : world) : world * result display :=
  (w,
   let* text := build_prompt (inventory w) days strict in
   let* key := client_key getenv w in
   Return (request_plan key text)).

(** *** Predicates used to state the properties *)

(** No key occurs twice, as in every [dict]. *)
Fixpoint keys_unique (d : dict) : bool :=
  match d with
  | [] => true
  | (k, _) :: rest =>
      negb (existsb (fun kv => String.eqb (fst kv) k) rest) && keys_unique rest
  end.

(** The values JSON has a form for ([None], [bool], [int], [float], [str],
    [list] and [dict] of such), with well-formed text and no [int] beyond
    the conversion limit. *)
Fixpoint json_native (v : pyval) : bool :=
  match v with
  | PNone | PBool _ | PFloat _ => true
  | PInt z => within_limit (int_str z)
  | PStr s => Utf8.valid s
  | PDate _ | PTimestamp _ | PNaT => false
  | PList items => forallb json_native items
  | PDict entries =>
      keys_unique entries
      && forallb (fun kv => Utf8.valid (fst kv) && json_native (snd kv)) entries
  end.

(** A number that can be written: an [int] within the conversion limit
    or a finite [float]. *)
Definition numeric (v : pyval) : bool :=
  match v with
  | PInt z => within_limit (int_str z)
  | PFloat (Finite _) => true
  | _ => false
  end.

Definition member (s : string) (l : list string) : bool :=
  existsb (String.eqb s) l.

(** A record that has the five fields the listing reads. *)
Definition has_fields (i : pyval) : bool :=
  match i with
  | PDict d =>
      forallb (fun key => match dict_get key d with Some _ => true | None => false end)
              ["name"; "quantity"; "unit"; "category"; "expiry"]
  | _ => false
  end.

(** What a field of an ingredient record may hold: a name that is not
    empty, a number as quantity, a unit and a category of the two lists,
    a date as expiry; there is no other field. *)
Definition field_ok (kv : string * pyval) : bool :=
  let (k, v) := kv in
  if String.eqb k "name" then
    match v with
    | PStr n => negb (Str.is_empty n) && Utf8.valid n
    | _ => false
    end
  else if String.eqb k "quantity" then numeric v
  else if String.eqb k "unit" then
    match v with
    | PStr u => member u UNITS
    | _ => false
    end
  else if String.eqb k "expiry" then
    match v with
    | PDate day => Date.valid day
    | _ => false
    end
  else if String.eqb k "category" then
    match v with
    | PStr c => member c CATEGORIES
    | _ => false
    end
  else false.

(** An ingredient record: exactly the five fields, in any order. *)
Definition valid_record (r : pyval) : bool :=
  match r with
  | PDict d => keys_unique d && forallb field_ok d && has_fields r
  | _ => false
  end.

Definition valid_inventory (inv : pyval) : bool :=
  match inv with
  | PList items => forallb valid_record items
  | _ => false
  end.

(** A record that the listing can render: it has the five fields, and
    none of them holds an [int] beyond the conversion limit. *)
Definition listable (i : pyval) : bool :=
  match i with
  | PDict d =>
      forallb (fun key => match dict_get key d with
                          | Some v => convertible v
                          | None => false
                          end)
              ["name"; "quantity"; "unit"; "category"; "expiry"]
  | _ => false
  end.

(** [line] is the line of the listing for the record [i]. *)
Definition rendered (i : pyval) (line : string) : Prop :=
  exists n q u c e,
    subscript i "name" = Return n /\ subscript i "quantity" = Return q
    /\ subscript i "unit" = Return u /\ subscript i "category" = Return c
    /\ subscript i "expiry" = Return e
    /\ line = "- " ++ py_text n ++ " (" ++ py_text q ++ py_text u ++ ", "
              ++ py_text c ++ ", expiring " ++ py_text e ++ ")".

(** A record none of whose five fields renders with a line feed in it. *)
Definition plain (i : pyval) : bool :=
  match i with
  | PDict d =>
      forallb (fun key => match dict_get key d with
                          | Some v => negb (Str.has_char Str.nl (py_text v))
                          | None => false
                          end)
              ["name"; "quantity"; "unit"; "category"; "expiry"]
  | _ => false
  end.

(** The inventory of the scenario: 300 g of chicken breast, of the
    category meat, that expires on 2025-06-01. *)
Definition scenario : pyval :=
  PList [ PDict [ ("name", PStr "鸡胸肉"); ("quantity", PInt 300);
                  ("unit", PStr "g"); ("category", PStr "肉");
                  ("expiry", PDate (Date.mkdate 2025 6 1)) ] ].

(** What [json.loads] reads back for a field that was saved: a date comes
    back as its ISO text. *)
Definition stored_value (v : pyval) : pyval :=
  match v with
  | PDate d => PStr (Date.isoformat d)
  | _ => v
  end.

Definition stored_record (r : pyval) : pyval :=
  match r with
  | PDict d => PDict (map (fun kv => (fst kv, stored_value (snd kv))) d)
  | _ => r
  end.

(** A record whose expiry is absent, [None], or of a type other than text
    and [Timestamp]. *)
Definition other_expiry (item : pyval) : bool :=
  match item with
  | PDict d =>
      match dict_get "expiry" d with
      | Some (PStr _) | Some (PTimestamp _) => false
      | _ => true
      end
  | _ => false
  end.

(** A value as [json.loads] builds it: no [date], [Timestamp] or [NaT]
    in it, and no key twice in a [dict]. *)
Fixpoint plain_json (v : pyval) : bool :=
  match v with
  | PDate _ | PTimestamp _ | PNaT => false
  | PList items => forallb plain_json items
  | PDict entries =>
      keys_unique entries && forallb (fun kv => plain_json (snd kv)) entries
  | _ => true
  end.

(** A field that comes back from the file as it was saved: an expiry that
    is a date, or a value that JSON has a form for and that, as expiry, is
    not text. *)
Definition field_storable (kv : string * pyval) : bool :=
  Utf8.valid (fst kv)
  && (if String.eqb (fst kv) "expiry" then
        match snd kv with
        | PDate day => Date.valid day
        | PStr _ => false
        | v => json_native v
        end
      else json_native (snd kv)).

(** A record of such fields, whatever their names and their number. *)
Definition storable_record (r : pyval) : bool :=
  match r with
  | PDict d => keys_unique d && forallb field_storable d
  | _ => false
  end.

(** A value all of whose texts and keys are well-formed. *)
Fixpoint well_formed (v : pyval) : bool :=
  match v with
  | PStr s => Utf8.valid s
  | PList items => forallb well_formed items
  | PDict entries =>
      forallb (fun kv => Utf8.valid (fst kv) && well_formed (snd kv)) entries
  | _ => true
  end.

(** A text that JSON writes between quotes as it is: no quote, no
    backslash and no control character in it. *)
Definition verbatim (s : string) : bool :=
  Str.all_chars
    (fun c => negb (Ascii.eqb c Str.dquote || Ascii.eqb c Str.backslash
                    || (Str.code c <? 32)%N))
    s.

Definition in_quotes (s : string) : string :=
  String Str.dquote (s ++ String Str.dquote EmptyString).

(** What one expects to find in the file for a text or a date. *)
Definition written (v : pyval) : option string :=
  match v with
  | PStr s => if verbatim s then Some (in_quotes s) else None
  | PDate day => Some (in_quotes (Date.isoformat day))
  | _ => None
  end.

(** A text made of white space alone: each of its characters is one that
    [str.strip] removes, of one, two or three bytes. *)
Inductive blank : string -> Prop :=
  | blank_empty : blank EmptyString
  | blank_one (b1 : ascii) (r : string) :
      Str.space1 b1 = true -> blank r -> blank (String b1 r)
  | blank_two (b1 b2 : ascii) (r : string) :
      Str.space2 b1 b2 = true -> blank r -> blank (String b1 (String b2 r))
  | blank_three (b1 b2 b3 : ascii) (r : string) :
      Str.space3 b1 b2 b3 = true -> blank r ->
      blank (String b1 (String b2 (String b3 r))).

(** The first of the candidates that is a text and not empty. *)
Fixpoint first_nonempty (candidates : list (option string)) : option string :=
  match candidates with
  | [] => None
  | Some (String c r) :: _ => Some (String c r)
  | _ :: rest => first_nonempty rest
  end.

(** *** Notions used to state the lemmas on JSON text *)

(** What may follow a number without being read as part of it. *)
Definition number_stop (rest : string) : bool :=
  match rest with
  | EmptyString => true
  | String c _ =>
      negb (Str.is_digit c || Ascii.eqb c "." || Ascii.eqb c "e"
            || Ascii.eqb c "E" || Ascii.eqb c "+" || Ascii.eqb c "-")
  end.

(** What follows a value in the text that [json.dumps] writes. *)
Definition terminated (rest : string) : bool :=
  match rest with
  | EmptyString => true
  | String c _ => Ascii.eqb c "," || Ascii.eqb c Str.nl
  end.

(** The first character of a value: not white space and not a closing
    bracket or brace. *)
Definition opens_value (c : ascii) : bool :=
  negb (is_ws c) && negb (Ascii.eqb c "]") && negb (Ascii.eqb c "}").

(** The fuel that reading a value takes. *)
Fixpoint weight (v : pyval) : nat :=
  match v with
  | PList items => S (list_sum (map (fun x => S (weight x)) items))
  | PDict entries => S (list_sum (map (fun kv => S (weight (snd kv))) entries))
  | _ => 1
  end.

(** One member of a dictionary as [json.dumps] writes it inside a
    dictionary of the given level. *)
Definition encode_entry (level : nat) (kv : string * pyval) : string :=
  encode_basestring (fst kv) ++ ": " ++ iterencode (S level) (snd kv).

(** A field as [json.loads] reads it back. *)
Definition store_entry (kv : string * pyval) : string * pyval :=
  (fst kv, stored_value (snd kv)).

(** *** The interpreter's floats *)

(** The two facts about the interpreter's floats that the round trip
    rests on: [repr] of a finite float is a JSON number with a fraction or
    an exponent, and [float] reads it back as the same float. *)
Hypothesis float_repr_number :
  forall f, scan_number (float_repr f) = Some (float_repr f, true, EmptyString).
Hypothesis float_of_repr :
  forall f, float_of_literal (float_repr f) = Finite f.

(** ** Properties *)

(** *** Decimal digits and ISO dates *)

Lemma digit_char_is_digit (k : Z) :
  0 <= k < 10 ->
  Str.is_digit (Str.digit_char k) = true /\ Str.digit_value (Str.digit_char k) = k.
Proof.
  intros Hk.
  assert (k = 0 \/ k = 1 \/ k = 2 \/ k = 3 \/ k = 4 \/ k = 5 \/ k = 6
          \/ k = 7 \/ k = 8 \/ k = 9) as Hc by lia.
  repeat (destruct Hc as [-> | Hc]; [split; reflexivity |]).
  subst k; split; reflexivity.
Qed.

Lemma parse_digits_app (n m : nat) (s : string) (acc : Z) :
  Date.parse_digits (n + m) s acc =
  match Date.parse_digits n s acc with
  | Some (acc', r) => Date.parse_digits m r acc'
  | None => None
  end.
Proof.
  revert s acc; induction n as [| n IH]; intros s acc; simpl; [reflexivity |].
  destruct s as [| c s']; [reflexivity |].
  destruct (Str.is_digit c); [apply IH | reflexivity].
Qed.

Lemma append_assoc (a b c : string) : (a ++ b) ++ c = a ++ b ++ c.
Proof. induction a as [| x a IH]; simpl; [reflexivity | now rewrite IH]. Qed.

Lemma append_nil_r (a : string) : a ++ EmptyString = a.
Proof. induction a as [| x a IH]; simpl; [reflexivity | now rewrite IH]. Qed.

Lemma length_append (a b : string) :
  String.length (a ++ b) = (String.length a + String.length b)%nat.
Proof. induction a as [| x a IH]; simpl; [reflexivity | now rewrite IH]. Qed.

Lemma parse_zero_padded (w : nat) :
  forall v acc rest,
    0 <= v < 10 ^ Z.of_nat w ->
    Date.parse_digits w (Date.zero_padded w v ++ rest) acc
    = Some (acc * 10 ^ Z.of_nat w + v, rest).
Proof.
  induction w as [| w IH]; intros v acc rest Hv.
  - simpl in *. f_equal. f_equal. lia.
  - replace (S w) with (w + 1)%nat by lia.
    rewrite parse_digits_app.
    replace (Date.zero_padded (w + 1) v)
      with (Date.zero_padded w (v / 10)
            ++ String (Str.digit_char (v mod 10)) EmptyString)
      by (replace (w + 1)%nat with (S w) by lia; reflexivity).
    rewrite append_assoc.
    assert (10 ^ Z.of_nat (w + 1) = 10 * 10 ^ Z.of_nat w) as Hp.
    { rewrite Nat2Z.inj_add, Z.pow_add_r by lia. simpl (10 ^ Z.of_nat 1). lia. }
    rewrite Hp.
    rewrite Nat2Z.inj_succ, Z.pow_succ_r in Hv by lia.
    assert (0 < 10 ^ Z.of_nat w) by (apply Z.pow_pos_nonneg; lia).
    rewrite IH.
    2:{ split; [apply Z.div_pos; lia |].
        apply Z.div_lt_upper_bound; lia. }
    assert (0 <= v mod 10 < 10) as Hm by (apply Z.mod_pos_bound; lia).
    destruct (digit_char_is_digit _ Hm) as [Hd Hv'].
    cbn [Date.parse_digits append]. rewrite Hd, Hv'. f_equal. f_equal.
    pose proof (Z.div_mod v 10). nia.
Qed.

Lemma length_zero_padded (w : nat) (v : Z) :
  String.length (Date.zero_padded w v) = w.
Proof.
  revert v; induction w as [| w IH]; intros v; simpl; [reflexivity |].
  rewrite length_append, IH. simpl. lia.
Qed.

Lemma zero_padded_head (w : nat) (v : Z) (rest : string) :
  exists c r, Date.zero_padded (S w) v ++ rest = String c r /\ Str.is_digit c = true.
Proof.
  revert v rest; induction w as [| w IH]; intros v rest.
  - simpl. eexists; eexists; split; [reflexivity |].
    apply digit_char_is_digit. apply Z.mod_pos_bound; lia.
  - change (Date.zero_padded (S (S w)) v)
      with (Date.zero_padded (S w) (v / 10)
            ++ String (Str.digit_char (v mod 10)) EmptyString).
    rewrite append_assoc. apply IH.
Qed.

Lemma digit_not_letter (c x : ascii) :
  Str.is_digit c = true -> Str.is_digit x = false -> Ascii.eqb x c = false.
Proof.
  intros Hc Hx. destruct (Ascii.eqb x c) eqn:E; [| reflexivity].
  apply Ascii.eqb_eq in E. subst. congruence.
Qed.

Opaque Date.zero_padded.

(** [date.fromisoformat] reads back what [date.isoformat] writes. *)
Lemma fromisoformat_isoformat (d : Date.date) :
  Date.valid d = true -> Date.fromisoformat (Date.isoformat d) = Some d.
Proof.
  intros Hvalid. destruct d as [y m dd].
  pose proof Hvalid as Hv.
  unfold Date.valid, Date.MINYEAR, Date.MAXYEAR in Hv. simpl in Hv.
  repeat rewrite andb_true_iff in Hv.
  destruct Hv as [[[[[Hy1 Hy2] Hm1] Hm2] Hd1] Hd2].
  apply Z.leb_le in Hy1, Hy2, Hm1, Hm2, Hd1, Hd2.
  assert (dd <= 31) as Hd3.
  { unfold Date.days_in_month, Date.days_in_month_table in Hd2.
    destruct ((m =? 2) && Date.is_leap y); [lia |].
    assert (m = 1 \/ m = 2 \/ m = 3 \/ m = 4 \/ m = 5 \/ m = 6 \/ m = 7
            \/ m = 8 \/ m = 9 \/ m = 10 \/ m = 11 \/ m = 12) as Hc by lia.
    repeat (destruct Hc as [-> | Hc]; [lia |]). subst; lia. }
  unfold Date.fromisoformat, Date.isoformat. simpl Date.year; simpl Date.month; simpl Date.day.
  repeat rewrite length_append. repeat rewrite length_zero_padded.
  simpl (String.length "-"). simpl (_ =? _)%nat. simpl (_ || _).
  cbv iota.
  unfold Date.parse_isoformat_date.
  rewrite (parse_zero_padded 4) by (simpl; lia).
  simpl (Date.starts_with "-" _). cbv iota. simpl (Date.tail _).
  destruct (zero_padded_head 1 m (String "-" (Date.zero_padded 2 dd)))
    as (c & r & Hh & Hc).
  rewrite Hh. cbn [Date.starts_with].
  rewrite (digit_not_letter c "W" Hc eq_refl). rewrite <- Hh.
  rewrite (parse_zero_padded 2) by (simpl; lia).
  simpl (Date.starts_with "-" _). simpl (Date.tail _). cbv iota. simpl (_ && _).
  cbv iota.
  rewrite <- (append_nil_r (Date.zero_padded 2 dd)).
  rewrite (parse_zero_padded 2) by (simpl; lia).
  replace (0 * 10 ^ Z.of_nat 4 + y) with y by lia.
  replace (0 * 10 ^ Z.of_nat 2 + m) with m by lia.
  replace (0 * 10 ^ Z.of_nat 2 + dd) with dd by lia.
  unfold Date.new_date. rewrite Hvalid. reflexivity.
Qed.

Transparent Date.zero_padded.

(** *** Dictionaries and loops *)

Lemma dict_get_set (key : string) (v : pyval) (d : dict) :
  dict_get key (dict_set key v d) = Some v.
Proof.
  induction d as [| [k v0] rest IH]; simpl.
  - now rewrite String.eqb_refl.
  - destruct (String.eqb k key) eqn:E; simpl; rewrite E; [reflexivity | exact IH].
Qed.




Lemma for_each_identity {A : Type} (body : A -> result A) (xs : list A) :
  (forall x, In x xs -> body x = Return x) -> for_each body xs = Return xs.
Proof.
  induction xs as [| x xs IH]; intros H; simpl; [reflexivity |].
  rewrite (H x (or_introl eq_refl)). simpl.
  rewrite IH by (intros y Hy; apply H; now right). reflexivity.
Qed.

Lemma for_each_nth {A B : Type} (body : A -> result B) (xs : list A)
      (ys : list B) (i : nat) (x : A) :
  for_each body xs = Return ys -> nth_error xs i = Some x ->
  exists y, nth_error ys i = Some y /\ body x = Return y.
Proof.
  revert ys i; induction xs as [| a xs IH]; intros ys i Hall Hi.
  - destruct i; discriminate.
  - simpl in Hall. destruct (body a) as [b |] eqn:Ea; [| discriminate].
    simpl in Hall. destruct (for_each body xs) as [bs |] eqn:Eb; [| discriminate].
    simpl in Hall. injection Hall as <-.
    destruct i as [| i]; simpl in *.
    + injection Hi as <-. now exists b.
    + now apply IH.
Qed.

(** *** Loading *)

Lemma load_inventory_decoded (bytes : string) (raw : pyval) :
  bytes <> EmptyString -> Utf8.valid bytes = true ->
  json_loads bytes = Return raw ->
  load_inventory (Some bytes) = normalize_all raw.
Proof.
  intros Hne Hutf Hraw. unfold load_inventory, read_text.
  destruct bytes as [| c r]; [congruence |].
  simpl (String.length _ =? 0)%nat. cbv iota.
  rewrite Hutf. simpl. rewrite Hraw. reflexivity.
Qed.

Lemma normalize_item_other (item : pyval) :
  other_expiry item = true -> normalize_item item = Return item.
Proof.
  destruct item; simpl; try discriminate.
  unfold normalize_item. simpl.
  destruct (dict_get "expiry" entries) as [[] |]; intros H;
    try discriminate; reflexivity.
Qed.



(** C8: when the backing file is absent, or exists but is empty,
    [load_inventory] returns the empty inventory and raises nothing. *)
Theorem load_inventory_absent_or_empty :
  load_inventory None = Return (PList [])
  /\ load_inventory (Some EmptyString) = Return (PList []).
Proof. split; reflexivity. Qed.



(** C10: a record whose expiry is absent, [None], or neither text nor a
    [Timestamp] goes through the loop of [load_inventory] unchanged and
    raises nothing; a file of such records loads as it is, and in any file
    that loads such a record is returned as it was stored, so the loaded
    inventory can hold an expiry that is not a date. *)
Theorem load_keeps_other_expiry :
  forall (bytes : string) (items : list pyval),
    bytes <> EmptyString ->
    Utf8.valid bytes = true ->
    json_loads bytes = Return (PList items) ->
    (forall item, In item items -> other_expiry item = true ->
                  normalize_item item = Return item)
    /\ (forallb other_expiry items = true ->
        load_inventory (Some bytes) = Return (PList items))
    /\ (forall loaded i item,
           load_inventory (Some bytes) = Return (PList loaded) ->
           nth_error items i = Some item ->
           other_expiry item = true ->
           nth_error loaded i = Some item).
Proof.
  intros bytes items Hne Hutf Hraw.
  rewrite (load_inventory_decoded bytes _ Hne Hutf Hraw).
  repeat split.
  - intros item _ Hother. now apply normalize_item_other.
  - intros Hall. simpl. rewrite for_each_identity; [reflexivity |].
    intros x Hx. apply normalize_item_other.
    rewrite forallb_forall in Hall. now apply Hall.
  - intros loaded i item Hload Hi Hother. simpl in Hload.
    destruct (for_each normalize_item items) as [ys |] eqn:Eys; [| discriminate].
    simpl in Hload. injection Hload as <-.
    destruct (for_each_nth _ _ _ _ _ Eys Hi) as (y & Hy & Hbody).
    rewrite (normalize_item_other item Hother) in Hbody.
    injection Hbody as <-. exact Hy.
Qed.

(** *** The add form *)

Lemma add_ingredient_empty_name (form : add_form) (w : world) :
  form_name form = EmptyString ->
  add_ingredient form w = (w, Return Continue).
Proof.
  intros H. unfold add_ingredient. rewrite H. simpl.
  now rewrite andb_false_r.
Qed.

Lemma add_ingredient_not_submitted (form : add_form) (w : world) :
  submitted form = false ->
  add_ingredient form w = (w, Return Continue).
Proof. intros H. unfold add_ingredient. now rewrite H. Qed.

(** C4, at the name of three spaces: the form is submitted, the name is
    not the empty text, so the record is appended, with the empty name
    that [strip] leaves, and the inventory is saved. *)
Theorem add_ingredient_blank_name_appends :
  forall (q : float) (u c : string) (e : Date.date) (items : list pyval)
         (key : option string) (f : file),
    let form := mkform true "   " q u e c in
    let w := mkworld (PList items) key f in
    let added :=
      PDict [ ("name", PStr EmptyString); ("quantity", PFloat (Finite q));
              ("unit", PStr u); ("expiry", PDate e); ("category", PStr c) ] in
    inventory (fst (add_ingredient form w)) = PList (items ++ [added])
    /\ inventory (fst (add_ingredient form w)) <> inventory w.
Proof.
  intros q u c e items key f form w added.
  assert (inventory (fst (add_ingredient form w)) = PList (items ++ [added])) as H.
  { unfold add_ingredient, form, w. simpl.
    destruct (save_inventory _ f). reflexivity. }
  split; [exact H |].
  rewrite H. simpl. intros Heq. injection Heq as Heq.
  apply (f_equal (@List.length pyval)) in Heq.
  rewrite length_app in Heq. simpl in Heq. lia.
Qed.

(** *** The prompt and the request *)

(** C7: the prompt is a function of the inventory, the number of days and
    the strictness flag alone: two runs that agree on the three build the
    same text, whatever the key and the backing file of each are. *)
Theorem build_prompt_deterministic :
  forall (w1 w2 : world) (days1 days2 : Z) (strict1 strict2 : bool),
    inventory w1 = inventory w2 ->
    days1 = days2 ->
    strict1 = strict2 ->
    build_prompt (inventory w1) days1 strict1
    = build_prompt (inventory w2) days2 strict2.
Proof. intros w1 w2 d1 d2 s1 s2 Hinv Hd Hs. now rewrite Hinv, Hd, Hs. Qed.

(** An exception of the service is an exception of the [try] body. *)
Lemma completion_service_failure (key text : string) (e : exn) :
  chat_completions_create key (plan_request text) = Raise e ->
  completion key text = Raise e.
Proof. intros H. unfold completion. now rewrite H. Qed.

(** A response without choices, or whose first choice has no content, is
    a failure of the [try] body as well. *)
Lemma completion_malformed_response (key text : string) (resp : chat_response) :
  chat_completions_create key (plan_request text) = Return resp ->
  (choices resp = [] \/ exists rest, choices resp = None :: rest) ->
  exists e, completion key text = Raise e.
Proof.
  intros H Hbad. unfold completion, first_choice. rewrite H. cbn [bind].
  destruct Hbad as [-> | [rest ->]]; cbn [bind content_strip]; eauto.
Qed.

Lemma request_plan_failure (key text : string) (e : exn) :
  completion key text = Raise e ->
  request_plan key text = Error ("OpenAI 调用失败：" ++ exn_str e).
Proof. intros H. unfold request_plan. now rewrite H. Qed.

(** The request shows the answer or an error, and raises nothing. *)
Lemma request_plan_two_outcomes (key text : string) :
  (exists answer, completion key text = Return answer
                  /\ request_plan key text = Markdown answer)
  \/ (exists e, completion key text = Raise e
                /\ request_plan key text
                   = Error ("OpenAI 调用失败：" ++ exn_str e)).
Proof.
  unfold request_plan. destruct (completion key text) as [answer | e].
  - left. now exists answer.
  - right. now exists e.
Qed.

(** C9: when the request raises inside the [try], because the service
    refuses the key, because of any other failure of the call, or because
    the response cannot be read, the click ends normally with an error
    message that carries the text of the exception, and it leaves the
    inventory, the key and the backing file as they were. *)
Theorem generate_failure_is_reported :
  forall (getenv : option string) (days : Z) (strict : bool) (w : world)
         (text key : string) (e : exn),
    build_prompt (inventory w) days strict = Return text ->
    client_key getenv w = Return key ->
    completion key text = Raise e ->
    snd (generate getenv days strict w)
    = Return (Error ("OpenAI 调用失败：" ++ exn_str e))
    /\ fst (generate getenv days strict w) = w
    /\ inventory (fst (generate getenv days strict w)) = inventory w.
Proof.
  intros getenv days strict w text key e Hprompt Hkey Hfail.
  unfold generate. simpl. rewrite Hprompt, Hkey. simpl.
  now rewrite (request_plan_failure key text e Hfail).
Qed.

(** *** Occurrences of a text in another *)

Lemma starts_spec (x s : string) :
  Str.starts x s = true <-> exists r, s = x ++ r.
Proof.
  revert s; induction x as [| c x IH]; intros s.
  - split; [intros _; now exists s | intros _; destruct s; reflexivity].
  - destruct s as [| c' s']; simpl.
    + split; [discriminate | intros [r Hr]; discriminate].
    + rewrite andb_true_iff, Ascii.eqb_eq, IH. split.
      * intros [-> [r ->]]. now exists r.
      * intros [r Hr]. injection Hr as -> ->. split; [reflexivity | now exists r].
Qed.

Lemma contains_spec (x s : string) :
  Str.contains x s = true <-> Str.occurs x s.
Proof.
  unfold Str.occurs. induction s as [| c s IH]; cbn [Str.contains].
  - rewrite orb_false_r, starts_spec. split.
    + intros [r Hr]. now exists EmptyString, r.
    + intros (l & r & H). destruct l; [now exists r | discriminate].
  - rewrite orb_true_iff, starts_spec, IH. split.
    + intros [[r Hr] | (l & r & H)].
      * now exists EmptyString, r.
      * exists (String c l), r. simpl. now rewrite H.
    + intros (l & r & H). destruct l as [| c' l]; simpl in H.
      * left. now exists r.
      * right. injection H as _ H. now exists l, r.
Qed.

Lemma contains_false (x s : string) :
  Str.contains x s = false -> ~ Str.occurs x s.
Proof. intros H Ho. apply contains_spec in Ho. congruence. Qed.

Lemma append_eq_append (a b c d : string) :
  a ++ b = c ++ d ->
  (exists t, c = a ++ t /\ b = t ++ d) \/ (exists t, a = c ++ t /\ d = t ++ b).
Proof.
  revert c; induction a as [| x a IH]; intros c H; simpl in H.
  - left. now exists c.
  - destruct c as [| y c]; simpl in H.
    + right. now exists (String x a).
    + injection H as -> H. destruct (IH c H) as [(t & -> & ->) | (t & -> & ->)].
      * left. now exists t.
      * right. now exists t.
Qed.

Lemma has_char_append (c : ascii) (a b : string) :
  Str.has_char c (a ++ b) = Str.has_char c a || Str.has_char c b.
Proof.
  induction a as [| x a IH]; simpl; [reflexivity |].
  now rewrite IH, orb_assoc.
Qed.

Lemma all_chars_append (p : ascii -> bool) (a b : string) :
  Str.all_chars p (a ++ b) = Str.all_chars p a && Str.all_chars p b.
Proof.
  induction a as [| x a IH]; simpl; [reflexivity |].
  now rewrite IH, andb_assoc.
Qed.

Lemma occurs_empty (s : string) : Str.occurs EmptyString s.
Proof. now exists EmptyString, s. Qed.

Lemma occurs_append_l (x a b : string) : Str.occurs x a -> Str.occurs x (a ++ b).
Proof.
  intros (l & r & ->). exists l, (r ++ b). now rewrite !append_assoc.
Qed.

Lemma occurs_append_r (x a b : string) : Str.occurs x b -> Str.occurs x (a ++ b).
Proof.
  intros (l & r & ->). exists (a ++ l), r. now rewrite !append_assoc.
Qed.

(** A text without line feed occurs in two lines only if it occurs in one
    of them. *)
Lemma occurs_lines (x a b : string) :
  Str.has_char Str.nl x = false ->
  Str.occurs x (a ++ String Str.nl b) <-> Str.occurs x a \/ Str.occurs x b.
Proof.
  intros Hx. split.
  - intros (l & r & H). symmetry in H.
    destruct (append_eq_append _ _ _ _ H) as [(t & Ha & Hxr) | (t & Hl & Hnb)].
    + destruct (append_eq_append _ _ _ _ Hxr) as [(u & Ht & Hr) | (u & Hx' & Hnb)].
      * left. exists l, u. now rewrite Ha, Ht.
      * destruct u as [| c u].
        -- left. exists l, EmptyString. rewrite append_nil_r in *. now rewrite Ha, Hx'.
        -- simpl in Hnb. injection Hnb as <- _.
           rewrite Hx', has_char_append in Hx. simpl in Hx.
           unfold Str.nl in Hx. simpl in Hx. rewrite orb_true_r in Hx. discriminate.
    + destruct t as [| c t]; simpl in Hnb.
      * destruct x as [| c x]; [left; apply occurs_empty |].
        simpl in Hnb. injection Hnb as <- _.
        simpl in Hx. discriminate.
      * injection Hnb as _ ->. right. now exists t, r.
  - intros [H | H]; [now apply occurs_append_l |].
    apply occurs_append_r. destruct H as (l & r & ->).
    now exists (String Str.nl l), r.
Qed.

Lemma occurs_join (x : string) (lines : list string) :
  Str.has_char Str.nl x = false ->
  lines <> [] ->
  Str.occurs x (Str.join Str.NL lines) <-> exists l, In l lines /\ Str.occurs x l.
Proof.
  intros Hx. induction lines as [| a rest IH]; intros Hne; [congruence |].
  destruct rest as [| b rest].
  - simpl. split.
    + intros H. exists a. auto.
    + intros (l & [<- | []] & H). exact H.
  - change (Str.join Str.NL (a :: b :: rest))
      with (a ++ String Str.nl (Str.join Str.NL (b :: rest))).
    rewrite occurs_lines by exact Hx. rewrite IH by discriminate. split.
    + intros [H | (l & Hl & H)].
      * exists a. split; [now left | exact H].
      * exists l. split; [now right | exact H].
    + intros (l & [<- | Hl] & H); [now left |].
      right. now exists l.
Qed.

Lemma not_occurs_by_chars (p : ascii -> bool) (x s : string) :
  Str.all_chars p s = true -> Str.all_chars p x = false -> ~ Str.occurs x s.
Proof.
  intros Hs Hx (l & r & ->).
  rewrite !all_chars_append in Hs.
  apply andb_true_iff in Hs as [_ Hs]. apply andb_true_iff in Hs as [Hs _].
  congruence.
Qed.

(** *** Where a text can occur in the prompt *)

Lemma string_of_uint_ascii (d : Decimal.uint) :
  Str.all_chars Str.is_ascii (NilEmpty.string_of_uint d) = true.
Proof. induction d; simpl; auto. Qed.

Lemma int_str_ascii (z : Z) : Str.all_chars Str.is_ascii (int_str z) = true.
Proof.
  assert (forall d, Str.all_chars Str.is_ascii (NilZero.string_of_uint d) = true)
    as Hu.
  { intros d. unfold NilZero.string_of_uint.
    destruct d; try reflexivity; apply string_of_uint_ascii. }
  unfold int_str, NilZero.string_of_int.
  destruct (Z.to_int z) as [d | d]; [apply Hu |].
  cbn [Str.all_chars]. now rewrite Hu.
Qed.

(** The prompt as four runs of lines: the line before the one that names
    the days, that line, the lines from there to the listing, and the
    listing. *)
Lemma prompt_split :
  exists (first before_days after_days : string) (rest : bool -> string),
    Str.all_chars Str.is_ascii before_days = true
    /\ Str.all_chars Str.is_ascii after_days = true
    /\ forall days strict listing,
        prompt days strict listing
        = first ++ String Str.nl
            ((before_days ++ int_str days ++ after_days)
             ++ String Str.nl (rest strict ++ String Str.nl listing)).
Proof.
  set (first := fst (Str.cut greeting)).
  set (before_days := Str.after_cut greeting).
  set (after_days := fst (Str.cut requirements)).
  set (middle := Str.after_cut requirements).
  set (last := Str.rev (Str.after_cut (Str.rev closing))).
  assert (greeting = first ++ String Str.nl before_days) as Hg
      by (vm_compute; reflexivity).
  assert (requirements = after_days ++ String Str.nl middle) as Hr
      by (vm_compute; reflexivity).
  assert (closing = last ++ String Str.nl EmptyString) as Hc
      by (vm_compute; reflexivity).
  assert (Str.all_chars Str.is_ascii before_days = true) as H1
      by (vm_compute; reflexivity).
  assert (Str.all_chars Str.is_ascii after_days = true) as H2
      by (vm_compute; reflexivity).
  exists first, before_days, after_days,
    (fun strict : bool =>
       middle
       ++ ("  - " ++ if strict then strict_instruction else lenient_instruction)
       ++ String Str.nl last).
  split; [exact H1 |]. split; [exact H2 |].
  intros days strict listing. unfold prompt, strict_rule, lenient_rule.
  rewrite Hg, Hr, Hc.
  clearbody first before_days after_days middle last.
  assert (forall a b, String Str.nl a ++ b = String Str.nl (a ++ b)) as Hcons
      by reflexivity.
  unfold NL, Str.NL.
  destruct strict;
    repeat (rewrite append_assoc || rewrite Hcons); reflexivity.
Qed.

Lemma occurs_nonempty_in_empty (x : string) :
  x <> EmptyString -> ~ Str.occurs x EmptyString.
Proof.
  intros Hx (l & r & H). destruct l; [| discriminate].
  destruct x; [congruence | discriminate].
Qed.

(** A text of one line that has a character outside ASCII occurs in the
    prompt exactly when it occurs in the fixed text or in the listing: the
    number of days cannot hold it. *)
Lemma occurs_prompt (x : string) (days : Z) (strict : bool) (listing : string) :
  Str.has_char Str.nl x = false ->
  Str.all_chars Str.is_ascii x = false ->
  Str.occurs x (prompt days strict listing)
  <-> Str.occurs x (prompt 0 strict EmptyString) \/ Str.occurs x listing.
Proof.
  intros Hnl Hx.
  destruct prompt_split as (first & b & a & rest & Hb & Ha & Hsplit).
  rewrite !Hsplit. rewrite !occurs_lines by exact Hnl.
  assert (forall d, ~ Str.occurs x (b ++ int_str d ++ a)) as Hdays.
  { intros d. apply (not_occurs_by_chars Str.is_ascii); [| exact Hx].
    now rewrite !all_chars_append, Hb, Ha, int_str_ascii. }
  assert (~ Str.occurs x EmptyString) as Hempty.
  { apply occurs_nonempty_in_empty. intros ->. discriminate. }
  pose proof (Hdays days) as Hd. pose proof (Hdays 0) as H0.
  clear - Hd H0 Hempty. tauto.
Qed.

Lemma prompt_listing (days : Z) (strict : bool) (listing : string) :
  prompt days strict listing = prompt days strict EmptyString ++ listing.
Proof.
  unfold prompt. rewrite !append_assoc. reflexivity.
Qed.

Lemma strict_instruction_fixed (strict : bool) :
  Str.occurs strict_instruction (prompt 0 strict EmptyString) <-> strict = true.
Proof.
  destruct strict; split; intros H; try reflexivity; try discriminate.
  - apply contains_spec. vm_compute. reflexivity.
  - apply contains_spec in H. vm_compute in H. discriminate.
Qed.

Lemma lenient_instruction_fixed (strict : bool) :
  Str.occurs lenient_instruction (prompt 0 strict EmptyString) <-> strict = false.
Proof.
  destruct strict; split; intros H; try reflexivity; try discriminate.
  - apply contains_spec in H. vm_compute in H. discriminate.
  - apply contains_spec. vm_compute. reflexivity.
Qed.

(** C5, amended: in every prompt that is built, the instructions that
    precede the listing hold the rule never to exceed the stock exactly
    when [strict] is true and the rule about the additional ingredients
    exactly when it is false; the same is true of the whole prompt when
    the listing holds the text of neither rule. *)
Theorem strictness_rule_selected :
  forall (inv : pyval) (days : Z) (strict : bool) (text : string),
    build_prompt inv days strict = Return text ->
    exists listing,
      inv_text inv = Return listing
      /\ text = prompt days strict EmptyString ++ listing
      /\ (Str.occurs strict_instruction (prompt days strict EmptyString)
          <-> strict = true)
      /\ (Str.occurs lenient_instruction (prompt days strict EmptyString)
          <-> strict = false)
      /\ (~ Str.occurs strict_instruction listing ->
          ~ Str.occurs lenient_instruction listing ->
          (Str.occurs strict_instruction text <-> strict = true)
          /\ (Str.occurs lenient_instruction text <-> strict = false)).
Proof.
  intros inv days strict text Hbuilt.
  unfold build_prompt in Hbuilt.
  destruct (inv_text inv) as [listing |]; [| discriminate].
  cbn [bind] in Hbuilt.
  destruct (within_limit (int_str days)); [| discriminate].
  injection Hbuilt as <-. exists listing.
  assert (Str.has_char Str.nl strict_instruction = false) as Hs1 by reflexivity.
  assert (Str.all_chars Str.is_ascii strict_instruction = false) as Hs2
      by reflexivity.
  assert (Str.has_char Str.nl lenient_instruction = false) as Hl1 by reflexivity.
  assert (Str.all_chars Str.is_ascii lenient_instruction = false) as Hl2
      by reflexivity.
  assert (~ Str.occurs strict_instruction EmptyString) as He1
      by (apply occurs_nonempty_in_empty; discriminate).
  assert (~ Str.occurs lenient_instruction EmptyString) as He2
      by (apply occurs_nonempty_in_empty; discriminate).
  split; [reflexivity |].
  split; [apply prompt_listing |].
  split.
  { rewrite (occurs_prompt _ days strict EmptyString Hs1 Hs2).
    rewrite strict_instruction_fixed. clear - He1. tauto. }
  split.
  { rewrite (occurs_prompt _ days strict EmptyString Hl1 Hl2).
    rewrite lenient_instruction_fixed. clear - He2. tauto. }
  intros Hn1 Hn2. split.
  - rewrite (occurs_prompt _ days strict listing Hs1 Hs2).
    rewrite strict_instruction_fixed. clear - Hn1. tauto.
  - rewrite (occurs_prompt _ days strict listing Hl1 Hl2).
    rewrite lenient_instruction_fixed. clear - Hn2. tauto.
Qed.

(** *** The listing *)

Lemma item_line_rendered (i : pyval) :
  listable i = true -> exists line, item_line i = Return line /\ rendered i line.
Proof.
  destruct i; try discriminate. unfold listable, item_line, rendered, py_str.
  cbn [forallb subscript].
  destruct (dict_get "name" entries) as [n |]; [| discriminate]. cbn [bind].
  destruct (convertible n); [| discriminate]. cbn [bind andb].
  destruct (dict_get "quantity" entries) as [q |]; [| discriminate]. cbn [bind].
  destruct (convertible q); [| discriminate]. cbn [bind andb].
  destruct (dict_get "unit" entries) as [u |]; [| discriminate]. cbn [bind].
  destruct (convertible u); [| discriminate]. cbn [bind andb].
  destruct (dict_get "category" entries) as [c |]; [| discriminate]. cbn [bind].
  destruct (convertible c); [| discriminate]. cbn [bind andb].
  destruct (dict_get "expiry" entries) as [e |]; [| discriminate]. cbn [bind].
  destruct (convertible e); [| discriminate]. cbn [bind andb].
  intros _. cbn [bind]. eexists. split; [reflexivity |].
  exists n, q, u, c, e. repeat split; reflexivity.
Qed.

Lemma listing_lines (items : list pyval) :
  (forall i, In i items -> listable i = true) ->
  exists lines, for_each item_line items = Return lines
                /\ Forall2 rendered items lines.
Proof.
  induction items as [| i items IH]; intros H.
  - exists []. split; [reflexivity | constructor].
  - destruct (item_line_rendered i (H i (or_introl eq_refl))) as (line & Hl & Hr).
    destruct IH as (lines & Hls & Hrs); [intros j Hj; apply H; now right |].
    exists (line :: lines). split.
    + simpl. rewrite Hl. simpl. rewrite Hls. reflexivity.
    + now constructor.
Qed.

(** The rendering of a record is a single line when the texts of its
    fields are. *)
Lemma rendered_plain (i : pyval) (line : string) :
  rendered i line -> plain i = true -> Str.has_char Str.nl line = false.
Proof.
  intros (n & q & u & c & e & Hn & Hq & Hu & Hc & He & ->) Hplain.
  destruct i; try discriminate. cbn [subscript] in Hn, Hq, Hu, Hc, He.
  cbn [plain forallb] in Hplain.
  destruct (dict_get "name" entries) as [n' |]; [| discriminate].
  destruct (dict_get "quantity" entries) as [q' |]; [| discriminate].
  destruct (dict_get "unit" entries) as [u' |]; [| discriminate].
  destruct (dict_get "category" entries) as [c' |]; [| discriminate].
  destruct (dict_get "expiry" entries) as [e' |]; [| discriminate].
  injection Hn as ->. injection Hq as ->. injection Hu as ->.
  injection Hc as ->. injection He as ->.
  repeat (apply andb_true_iff in Hplain as [?H Hplain]).
  repeat match goal with
         | H : negb _ = true |- _ => apply negb_true_iff in H
         end.
  rewrite !has_char_append.
  repeat match goal with
         | H : Str.has_char Str.nl (py_text _) = false |- _ => rewrite H; clear H
         end.
  reflexivity.
Qed.

(** *** The lines of the prompt *)

Lemma lines_nonempty (s : string) : Str.lines s <> [].
Proof.
  destruct s as [| c s]; cbn [Str.lines]; [discriminate |].
  destruct (Ascii.eqb Str.nl c); [discriminate |].
  destruct (Str.lines s); discriminate.
Qed.

(** A text without line feed is one line. *)
Lemma lines_single (r : string) :
  Str.has_char Str.nl r = false -> Str.lines r = [r].
Proof.
  induction r as [| c r IH]; cbn [Str.has_char Str.lines]; [reflexivity |].
  intros H. apply orb_false_iff in H as [Hc Hr]. now rewrite Hc, (IH Hr).
Qed.

(** A line feed ends the last line of what is before it and starts the
    first line of what follows. *)
Lemma lines_app (a b : string) :
  Str.lines (a ++ Str.NL ++ b) = (Str.lines a ++ Str.lines b)%list.
Proof.
  induction a as [| c a IH]; [reflexivity |].
  change (String c a ++ Str.NL ++ b) with (String c (a ++ Str.NL ++ b)).
  cbn [Str.lines]. rewrite IH.
  destruct (Ascii.eqb Str.nl c); [reflexivity |].
  pose proof (lines_nonempty a) as Ha.
  destruct (Str.lines a) as [| l ls]; [congruence | reflexivity].
Qed.

Lemma lines_join (rows : list string) :
  rows <> [] ->
  Forall (fun row => Str.has_char Str.nl row = false) rows ->
  Str.lines (Str.join Str.NL rows) = rows.
Proof.
  intros Hne Hrows. induction Hrows as [| r rest Hr Hrest IH]; [congruence |].
  destruct rest as [| r' rest'].
  - cbn [Str.join]. now apply lines_single.
  - change (Str.join Str.NL (r :: r' :: rest'))
      with (r ++ Str.NL ++ Str.join Str.NL (r' :: rest')).
    rewrite lines_app, (lines_single r Hr), IH by discriminate. reflexivity.
Qed.

(** The prompt is its fixed part, which ends with the heading of the
    listing on a line of its own, and then the listing from the next line
    on. *)
Lemma prompt_lines (days : Z) (strict : bool) :
  exists head,
    forall listing,
      Str.lines (prompt days strict listing)
      = (head ++ "=== 冰箱库存 ===" :: Str.lines listing)%list.
Proof.
  pose (before :=
                NL ++
                "【每日总结】" ++ NL ++
                "每天菜单后，用 1–2 句话说明该日如何满足营养需求。" ++ NL ++ NL ++
                "⚠️ 不要在每道菜后输出类似“【冰箱库存：米饭1000 g，使用后剩 600 g】”的提示。" ++ NL).
  assert (closing = before ++ Str.NL ++ "=== 冰箱库存 ===" ++ Str.NL) as Hclosing
      by (vm_compute; reflexivity).
  exists (Str.lines (greeting ++ int_str days ++ requirements
                     ++ (if strict then strict_rule else lenient_rule)
                     ++ before)).
  intros listing. unfold prompt. rewrite Hclosing.
  replace (greeting ++ int_str days ++ requirements
           ++ (if strict then strict_rule else lenient_rule)
           ++ (before ++ Str.NL ++ "=== 冰箱库存 ===" ++ Str.NL) ++ listing)
    with ((greeting ++ int_str days ++ requirements
           ++ (if strict then strict_rule else lenient_rule) ++ before)
          ++ Str.NL ++ ("=== 冰箱库存 ===" ++ Str.NL ++ listing))
    by (now rewrite !append_assoc).
  rewrite lines_app, lines_app. reflexivity.
Qed.

Lemma rendered_rows_plain (items : list pyval) (rows : list string) :
  Forall2 rendered items rows ->
  (forall i, In i items -> plain i = true) ->
  Forall (fun row => Str.has_char Str.nl row = false) rows.
Proof.
  induction 1 as [| i row items rows Hr _ IH]; intros Hplain; constructor.
  - apply (rendered_plain i row Hr). apply Hplain. now left.
  - apply IH. intros j Hj. apply Hplain. now right.
Qed.

(** C6, amended: for the inventory of the scenario, one day and
    [strict] true, the prompt ends with the heading of the listing and,
    under it, the one line [- 鸡胸肉 (300g, 肉, expiring 2025-06-01)].  For
    every inventory whose records have the five fields, none of which
    renders with a line feed in it, the lines of the prompt are those of
    its fixed part, which ends with the heading of the listing, and then
    exactly one line per record, in the order of the inventory, each of
    the form [- name (quantity unit, category, expiring date)]; under an
    empty inventory the heading is followed by one empty line.  A line is
    a piece of the text between two line feeds. *)
Theorem listing_one_line_per_item :
  (exists head,
      build_prompt scenario 1 true
      = Return (prompt 1 true "- 鸡胸肉 (300g, 肉, expiring 2025-06-01)")
      /\ Str.lines (prompt 1 true "- 鸡胸肉 (300g, 肉, expiring 2025-06-01)")
         = (head ++ [ "=== 冰箱库存 ===";
                      "- 鸡胸肉 (300g, 肉, expiring 2025-06-01)" ])%list
      /\ Str.occurs "鸡胸肉 (300g, 肉, expiring 2025-06-01)"
                    "- 鸡胸肉 (300g, 肉, expiring 2025-06-01)")
  /\ forall (items : list pyval) (days : Z) (strict : bool),
      (forall i, In i items -> listable i = true) ->
      (forall i, In i items -> plain i = true) ->
      within_limit (int_str days) = true ->
      exists (text : string) (head rows : list string),
        build_prompt (PList items) days strict = Return text
        /\ Forall2 rendered items rows
        /\ Forall (fun row => Str.has_char Str.nl row = false) rows
        /\ Str.lines (prompt days strict EmptyString)
           = (head ++ ["=== 冰箱库存 ==="; EmptyString])%list
        /\ Str.lines text
           = (head ++ "=== 冰箱库存 ==="
                   :: match items with
                      | [] => [EmptyString]
                      | _ :: _ => rows
                      end)%list.
Proof.
  split.
  - destruct (prompt_lines 1 true) as [head Hhead]. exists head.
    split; [vm_compute; reflexivity |]. split.
    + rewrite Hhead. now rewrite lines_single by reflexivity.
    + apply contains_spec. vm_compute. reflexivity.
  - intros items days strict Hl Hp Hdays.
    destruct (listing_lines items Hl) as (rows & Hls & Hrs).
    destruct (prompt_lines days strict) as [head Hhead].
    exists (prompt days strict (Str.join NL rows)), head, rows.
    pose proof (rendered_rows_plain items rows Hrs Hp) as Hrows.
    split; [| split; [exact Hrs | split; [exact Hrows | split]]].
    + unfold build_prompt, inv_text. cbn [iterate bind]. rewrite Hls. cbn [bind].
      now rewrite Hdays.
    + now rewrite Hhead.
    + rewrite Hhead. destruct items as [| i items].
      * inversion Hrs. reflexivity.
      * f_equal. f_equal. apply lines_join; [| exact Hrows].
        inversion Hrs. discriminate.
Qed.

(** *** Numbers in JSON text *)

Lemma number_stop_not_digit (c : ascii) (r : string) :
  number_stop (String c r) = true ->
  Str.is_digit c = false /\ Ascii.eqb c "." = false /\ Ascii.eqb c "e" = false
  /\ Ascii.eqb c "E" = false /\ Ascii.eqb c "+" = false /\ Ascii.eqb c "-" = false.
Proof.
  unfold number_stop. rewrite negb_true_iff, !orb_false_iff.
  intros [[[[[H1 H2] H3] H4] H5] H6]. repeat split; assumption.
Qed.

Lemma span_digits_app (s rest : string) :
  number_stop rest = true ->
  span_digits (s ++ rest) = let (ds, r) := span_digits s in (ds, r ++ rest).
Proof.
  intros Hstop. induction s as [| c s IH]; simpl.
  - destruct rest as [| c r]; [reflexivity |].
    apply number_stop_not_digit in Hstop as [Hd _]. simpl. now rewrite Hd.
  - destruct (Str.is_digit c); [| reflexivity].
    rewrite IH. now destruct (span_digits s).
Qed.

Lemma scan_sign_app (s rest : string) :
  number_stop rest = true ->
  scan_sign (s ++ rest) = let (sg, r) := scan_sign s in (sg, r ++ rest).
Proof.
  intros Hstop. destruct s as [| c s]; simpl.
  - destruct rest as [| c r]; [reflexivity |].
    apply number_stop_not_digit in Hstop as (_ & _ & _ & _ & _ & Hm).
    simpl. now rewrite Hm.
  - now destruct (Ascii.eqb c "-").
Qed.

Lemma in_range_digit (c : ascii) :
  Str.in_range 49 57 c = true -> Str.is_digit c = true.
Proof.
  unfold Str.in_range, Str.is_digit. rewrite !andb_true_iff, !N.leb_le. lia.
Qed.

Lemma zero_is_digit (c : ascii) : Ascii.eqb c "0" = true -> Str.is_digit c = true.
Proof. intros H. apply Ascii.eqb_eq in H. now subst. Qed.

Lemma scan_int_app (s rest : string) :
  number_stop rest = true ->
  scan_int (s ++ rest)
  = match scan_int s with
    | Some (ds, r) => Some (ds, r ++ rest)
    | None => None
    end.
Proof.
  intros Hstop. destruct s as [| c s]; simpl.
  - destruct rest as [| c r]; [reflexivity |].
    apply number_stop_not_digit in Hstop as [Hd _]. simpl.
    destruct (Str.in_range 49 57 c) eqn:E1.
    { apply in_range_digit in E1. congruence. }
    destruct (Ascii.eqb c "0") eqn:E2; [| reflexivity].
    apply zero_is_digit in E2. congruence.
  - destruct (Str.in_range 49 57 c).
    + rewrite (span_digits_app s rest Hstop). now destruct (span_digits s).
    + now destruct (Ascii.eqb c "0").
Qed.

Lemma scan_frac_app (s rest : string) :
  number_stop rest = true ->
  scan_frac (s ++ rest) = let (f, r) := scan_frac s in (f, r ++ rest).
Proof.
  intros Hstop. destruct s as [| p [| d s]]; simpl.
  - destruct rest as [| c [| c' r]]; try reflexivity.
    apply number_stop_not_digit in Hstop as (_ & Hp & _). simpl. now rewrite Hp.
  - destruct rest as [| c r]; [reflexivity |].
    apply number_stop_not_digit in Hstop as [Hd _]. simpl.
    rewrite Hd. now rewrite andb_false_r.
  - destruct (Ascii.eqb p "." && Str.is_digit d); [| reflexivity].
    rewrite (span_digits_app s rest Hstop). now destruct (span_digits s).
Qed.

Lemma span_digits_stop (rest : string) :
  number_stop rest = true -> span_digits rest = (EmptyString, rest).
Proof.
  intros Hstop. destruct rest as [| c r]; [reflexivity |].
  apply number_stop_not_digit in Hstop as [Hd _]. simpl. now rewrite Hd.
Qed.

Lemma scan_exp_app (s rest : string) :
  number_stop rest = true ->
  scan_exp (s ++ rest) = let (x, r) := scan_exp s in (x, r ++ rest).
Proof.
  intros Hstop. destruct s as [| e s].
  - simpl. destruct rest as [| c r]; [reflexivity |].
    apply number_stop_not_digit in Hstop as (_ & _ & He & HE & _).
    simpl. now rewrite He, HE.
  - cbn [append scan_exp].
    destruct (Ascii.eqb e "e" || Ascii.eqb e "E"); [| reflexivity].
    destruct s as [| g s].
    + cbn [append].
      destruct rest as [| c r]; [reflexivity |].
      apply number_stop_not_digit in Hstop as (Hd & _ & _ & _ & Hp & Hm).
      rewrite Hm, Hp. cbn [orb span_digits]. rewrite Hd. reflexivity.
    + cbn [append].
      destruct (Ascii.eqb g "-" || Ascii.eqb g "+").
      * rewrite (span_digits_app s rest Hstop).
        destruct (span_digits s) as [ds r]. now destruct ds.
      * change (String g (s ++ rest)) with (String g s ++ rest).
        rewrite (span_digits_app (String g s) rest Hstop).
        destruct (span_digits (String g s)) as [ds r]. now destruct ds.
Qed.

(** Reading a number is not disturbed by what follows it, when that cannot
    be part of a number. *)
Lemma scan_number_app (s rest : string) :
  number_stop rest = true ->
  scan_number (s ++ rest)
  = match scan_number s with
    | Some (t, b, r) => Some (t, b, r ++ rest)
    | None => None
    end.
Proof.
  intros Hstop. unfold scan_number.
  rewrite (scan_sign_app s rest Hstop). destruct (scan_sign s) as [sg s1].
  rewrite (scan_int_app s1 rest Hstop). destruct (scan_int s1) as [[ds s2] |];
    [| reflexivity].
  rewrite (scan_frac_app s2 rest Hstop). destruct (scan_frac s2) as [f s3].
  rewrite (scan_exp_app s3 rest Hstop). destruct (scan_exp s3) as [x s4].
  reflexivity.
Qed.

Lemma eqb_false_by (p : ascii -> bool) (c x : ascii) :
  p c = true -> p x = false -> Ascii.eqb c x = false /\ Ascii.eqb x c = false.
Proof.
  intros Hc Hx. split.
  - destruct (Ascii.eqb c x) eqn:E; [| reflexivity].
    apply Ascii.eqb_eq in E. subst. congruence.
  - destruct (Ascii.eqb x c) eqn:E; [| reflexivity].
    apply Ascii.eqb_eq in E. subst. congruence.
Qed.

(** A number starts with a digit, or with a minus sign and a digit. *)
Lemma scan_number_head (s : string) (x : string * bool * string) :
  scan_number s = Some x ->
  exists c r,
    s = String c r
    /\ (Str.is_digit c = true
        \/ (c = "-"%char /\ exists d r', r = String d r' /\ Str.is_digit d = true)).
Proof.
  unfold scan_number, scan_sign. destruct s as [| c s]; [discriminate |].
  intros H. exists c, s. split; [reflexivity |].
  destruct (Ascii.eqb c "-") eqn:E.
  - right. apply Ascii.eqb_eq in E. split; [exact E |].
    destruct s as [| d s']; [discriminate |]. exists d, s'. split; [reflexivity |].
    simpl in H. destruct (Str.in_range 49 57 d) eqn:E1;
      [now apply in_range_digit |].
    destruct (Ascii.eqb d "0") eqn:E2; [now apply zero_is_digit | discriminate].
  - left. simpl in H. destruct (Str.in_range 49 57 c) eqn:E1;
      [now apply in_range_digit |].
    destruct (Ascii.eqb c "0") eqn:E2; [now apply zero_is_digit | discriminate].
Qed.

Lemma starts_cons (a c : ascii) (p r : string) :
  Str.starts (String a p) (String c r) = Ascii.eqb a c && Str.starts p r.
Proof. reflexivity. Qed.

Lemma starts_head_false (a c : ascii) (p r : string) :
  Ascii.eqb a c = false -> Str.starts (String a p) (String c r) = false.
Proof. intros H. now rewrite starts_cons, H. Qed.

Lemma scan_constant_number (t rest : string) (b : bool) :
  scan_number t = Some (t, b, EmptyString) ->
  number_stop rest = true ->
  (b = false -> within_limit t = true) ->
  scan_constant (t ++ rest)
  = Return (if b then PFloat (float_of_literal t) else PInt (int_of_literal t), rest).
Proof.
  intros Ht Hstop Hlimit. unfold scan_constant.
  rewrite (scan_number_app t rest Hstop), Ht. cbn [append].
  destruct (scan_number_head t _ Ht) as (c & r & -> & Hhead).
  change (String c r ++ rest) with (String c (r ++ rest)).
  assert (forall x, Str.is_digit x = false -> x <> "-"%char ->
                    Ascii.eqb x c = false) as Hc.
  { intros x Hx Hm. destruct Hhead as [Hd | [-> _]].
    - apply (eqb_false_by Str.is_digit c x Hd Hx).
    - destruct (Ascii.eqb x "-") eqn:E; [| reflexivity].
      apply Ascii.eqb_eq in E. contradiction. }
  rewrite (starts_head_false "n"), (starts_head_false "t"),
    (starts_head_false "f"), (starts_head_false "N"), (starts_head_false "I")
    by (apply Hc; [reflexivity | discriminate]).
  assert (Str.starts "-Infinity" (String c (r ++ rest)) = false) as Hinf.
  { destruct Hhead as [Hd | [-> (d & r' & -> & Hd)]].
    - apply starts_head_false.
      apply (eqb_false_by Str.is_digit c "-" Hd eq_refl).
    - change (String d r' ++ rest) with (String d (r' ++ rest)).
      rewrite starts_cons, starts_head_false; [reflexivity |].
      apply (eqb_false_by Str.is_digit d "I" Hd eq_refl). }
  rewrite Hinf. destruct b; [reflexivity |]. now rewrite Hlimit.
Qed.

Lemma span_digits_ascii (s : string) :
  Str.all_chars Str.is_ascii (fst (span_digits s)) = true.
Proof.
  induction s as [| c s IH]; simpl; [reflexivity |].
  destruct (Str.is_digit c) eqn:E; [| reflexivity].
  destruct (span_digits s) as [ds r]. simpl in *. rewrite IH, andb_true_r.
  unfold Str.is_digit in E. unfold Str.is_ascii.
  apply andb_true_iff in E as [_ E]. apply N.leb_le in E. apply N.ltb_lt. lia.
Qed.

Lemma digit_is_ascii (c : ascii) : Str.is_digit c = true -> Str.is_ascii c = true.
Proof.
  unfold Str.is_digit, Str.is_ascii. rewrite andb_true_iff, !N.leb_le, N.ltb_lt. lia.
Qed.

Lemma eqb_is_ascii (c x : ascii) :
  Ascii.eqb c x = true -> Str.is_ascii x = true -> Str.is_ascii c = true.
Proof. intros H. apply Ascii.eqb_eq in H. now subst. Qed.

(** The text of a number is ASCII. *)
Lemma scan_number_ascii (s t r : string) (b : bool) :
  scan_number s = Some (t, b, r) -> Str.all_chars Str.is_ascii t = true.
Proof.
  unfold scan_number. intros H.
  destruct (scan_sign s) as [sg s1] eqn:Esg.
  destruct (scan_int s1) as [[ds s2] |] eqn:Eint; [| discriminate].
  destruct (scan_frac s2) as [f s3] eqn:Ef.
  destruct (scan_exp s3) as [x s4] eqn:Ex.
  injection H as <- _ _. rewrite !all_chars_append.
  assert (Str.all_chars Str.is_ascii sg = true) as H1.
  { unfold scan_sign in Esg. destruct s as [| c s]; [now injection Esg as <- _ |].
    destruct (Ascii.eqb c "-"); now injection Esg as <- _. }
  assert (Str.all_chars Str.is_ascii ds = true) as H2.
  { unfold scan_int in Eint. destruct s1 as [| c s1]; [discriminate |].
    destruct (Str.in_range 49 57 c) eqn:E1.
    - pose proof (span_digits_ascii s1) as Hs.
      destruct (span_digits s1) as [ds' r']. injection Eint as <- _.
      simpl in *. rewrite Hs, andb_true_r.
      apply digit_is_ascii. now apply in_range_digit.
    - destruct (Ascii.eqb c "0"); [| discriminate]. now injection Eint as <- _. }
  assert (Str.all_chars Str.is_ascii f = true) as H3.
  { unfold scan_frac in Ef. destruct s2 as [| p [| d s2]];
      try (now injection Ef as <- _).
    destruct (Ascii.eqb p ".") eqn:Ep; cbn [andb] in Ef;
      [| now injection Ef as <- _].
    destruct (Str.is_digit d) eqn:Ed; [| now injection Ef as <- _].
    pose proof (span_digits_ascii s2) as Hs.
    destruct (span_digits s2) as [ds' r']. injection Ef as <- _.
    simpl in *. rewrite Hs, (digit_is_ascii d Ed), (eqb_is_ascii p "." Ep eq_refl).
    reflexivity. }
  assert (Str.all_chars Str.is_ascii x = true) as H4.
  { unfold scan_exp in Ex. destruct s3 as [| e s3]; [now injection Ex as <- _ |].
    destruct (Ascii.eqb e "e" || Ascii.eqb e "E") eqn:Ee;
      [| now injection Ex as <- _].
    assert (Str.is_ascii e = true) as He.
    { apply orb_true_iff in Ee as [Ee | Ee];
        [apply (eqb_is_ascii e "e" Ee) | apply (eqb_is_ascii e "E" Ee)];
        reflexivity. }
    destruct s3 as [| g s3].
    - simpl in Ex. now injection Ex as <- _.
    - destruct (Ascii.eqb g "-" || Ascii.eqb g "+") eqn:Eg.
      + assert (Str.is_ascii g = true) as Hg.
        { apply orb_true_iff in Eg as [Eg | Eg];
            [apply (eqb_is_ascii g "-" Eg) | apply (eqb_is_ascii g "+" Eg)];
            reflexivity. }
        pose proof (span_digits_ascii s3) as Hs.
        destruct (span_digits s3) as [ds' r'].
        destruct (Str.is_empty ds'); injection Ex as <- _; [reflexivity |].
        simpl in *. now rewrite He, Hg, Hs.
      + pose proof (span_digits_ascii (String g s3)) as Hs.
        destruct (span_digits (String g s3)) as [ds' r'].
        destruct (Str.is_empty ds'); injection Ex as <- _; [reflexivity |].
        simpl in *. now rewrite He, Hs. }
  now rewrite H1, H2, H3, H4.
Qed.

(** *** Integers as decimal text *)

Lemma span_digits_uint (d : Decimal.uint) :
  span_digits (NilEmpty.string_of_uint d) = (NilEmpty.string_of_uint d, EmptyString).
Proof. induction d; simpl; try rewrite IHd; reflexivity. Qed.

Lemma to_uint_shape (p : positive) :
  Pos.to_uint p <> Decimal.Nil /\ forall d, Pos.to_uint p <> Decimal.D0 d.
Proof.
  split; [apply DecimalPos.Unsigned.to_uint_nonnil |].
  intros d E.
  pose proof (DecimalPos.Unsigned.to_of (Pos.to_uint p)) as H.
  rewrite DecimalPos.Unsigned.of_to in H. simpl in H.
  rewrite E in H. rewrite DecimalFacts.unorm_D0 in H.
  unfold Decimal.unorm in H.
  destruct (Decimal.nzhead d) eqn:En;
    try (now apply (DecimalFacts.nzhead_nonzero d u); rewrite En, <- H).
  injection H as ->. apply (DecimalPos.Unsigned.to_uint_nonzero p). exact E.
Qed.

Lemma scan_int_uint (u : Decimal.uint) :
  u = Decimal.D0 Decimal.Nil \/ (u <> Decimal.Nil /\ forall d, u <> Decimal.D0 d) ->
  scan_int (NilZero.string_of_uint u) = Some (NilZero.string_of_uint u, EmptyString).
Proof.
  intros [-> | [Hn Hz]]; [reflexivity |].
  destruct u; try congruence; try (now exfalso; apply (Hz u));
    simpl; rewrite span_digits_uint; reflexivity.
Qed.

Lemma to_int_shape (z : Z) :
  exists (neg : bool) (u : Decimal.uint),
    Z.to_int z = (if neg then Decimal.Neg u else Decimal.Pos u)
    /\ (u = Decimal.D0 Decimal.Nil
        \/ (u <> Decimal.Nil /\ forall d, u <> Decimal.D0 d)).
Proof.
  destruct z as [| p | p].
  - exists false, (Decimal.D0 Decimal.Nil). split; [reflexivity | now left].
  - exists false, (Pos.to_uint p). split; [reflexivity | right; apply to_uint_shape].
  - exists true, (Pos.to_uint p). split; [reflexivity | right; apply to_uint_shape].
Qed.

Lemma string_of_uint_head (u : Decimal.uint) :
  exists c r, NilZero.string_of_uint u = String c r /\ Str.is_digit c = true.
Proof. destruct u; simpl; eexists; eexists; split; reflexivity. Qed.

(** The decimal text of an integer is a JSON number without fraction and
    exponent, and reads back as the integer. *)
Lemma scan_number_int (z : Z) :
  scan_number (int_str z) = Some (int_str z, false, EmptyString).
Proof.
  destruct (to_int_shape z) as (neg & u & Hz & Hu).
  unfold int_str. rewrite Hz. unfold scan_number.
  destruct (string_of_uint_head u) as (c & r & Hc & Hd).
  destruct neg.
  - cbn [NilZero.string_of_int scan_sign]. change (Ascii.eqb "-" "-") with true.
    cbv iota. rewrite (scan_int_uint u Hu). simpl.
    now rewrite append_nil_r.
  - cbn [NilZero.string_of_int]. rewrite Hc. cbn [scan_sign].
    rewrite (proj1 (eqb_false_by Str.is_digit c "-" Hd eq_refl)).
    rewrite <- Hc. rewrite (scan_int_uint u Hu). simpl.
    now rewrite append_nil_r.
Qed.

Lemma int_of_literal_int_str (z : Z) : int_of_literal (int_str z) = z.
Proof.
  unfold int_of_literal, int_str. rewrite NilZero.isi.
  - apply DecimalZ.of_to.
  - destruct z; simpl; try discriminate.
    intros H. injection H as H. now apply DecimalPos.Unsigned.to_uint_nonnil in H.
  - destruct z; simpl; try discriminate.
    intros H. injection H as H. now apply DecimalPos.Unsigned.to_uint_nonnil in H.
Qed.

(** *** Text in JSON *)

Lemma escape_char_scan (c : ascii) (fuel : nat) (r : string) :
  scanstring (S fuel) (escape_char c ++ r)
  = match scanstring fuel r with
    | Some (t, r') => Some (String c t, r')
    | None => None
    end.
Proof. destruct c as [[|] [|] [|] [|] [|] [|] [|] [|]]; reflexivity. Qed.

Lemma escape_char_length (c : ascii) : (1 <= String.length (escape_char c))%nat.
Proof. destruct c as [[|] [|] [|] [|] [|] [|] [|] [|]]; simpl; lia. Qed.

(** [scanstring] reads back the text that [encode_basestring] wrote. *)
Lemma scanstring_escape (s rest : string) :
  forall fuel,
    (String.length (escape s) < fuel)%nat ->
    scanstring fuel (escape s ++ String Str.dquote rest) = Some (s, rest).
Proof.
  induction s as [| c s IH]; intros fuel Hfuel.
  - destruct fuel as [| fuel]; [simpl in Hfuel; lia | reflexivity].
  - cbn [escape] in *. rewrite length_append in Hfuel.
    pose proof (escape_char_length c).
    destruct fuel as [| fuel]; [lia |].
    rewrite append_assoc, escape_char_scan, IH by lia. reflexivity.
Qed.

Lemma skip_ws_head (c : ascii) (r : string) :
  is_ws c = false -> skip_ws (String c r) = String c r.
Proof. intros H. simpl. now rewrite H. Qed.

Lemma skip_ws_indentation (level : nat) (s : string) :
  skip_ws (indentation level ++ s) = skip_ws s.
Proof. induction level as [| l IH]; simpl; [reflexivity | exact IH]. Qed.

Lemma skip_ws_newline_indent (level : nat) (s : string) :
  skip_ws (newline_indent level ++ s) = skip_ws s.
Proof. unfold newline_indent. simpl. apply skip_ws_indentation. Qed.

(** *** Reading back what [json.dumps] wrote *)

Lemma terminated_number_stop (rest : string) :
  terminated rest = true -> number_stop rest = true.
Proof.
  destruct rest as [| c r]; [reflexivity |]. simpl.
  intros H. apply orb_true_iff in H as [H | H]; apply Ascii.eqb_eq in H; now subst.
Qed.

Lemma number_opens_value (t : string) (x : string * bool * string) :
  scan_number t = Some x ->
  exists c r, t = String c r /\ opens_value c = true
              /\ Ascii.eqb c Str.dquote = false /\ Ascii.eqb c "{" = false
              /\ Ascii.eqb c "[" = false.
Proof.
  intros H. destruct (scan_number_head t x H) as (c & r & -> & Hhead).
  exists c, r. split; [reflexivity |].
  assert (forall y, Str.is_digit y = false -> y <> "-"%char ->
                    Ascii.eqb c y = false) as Hc.
  { intros y Hy Hm. destruct Hhead as [Hd | [-> _]].
    - apply (eqb_false_by Str.is_digit c y Hd Hy).
    - destruct (Ascii.eqb "-" y) eqn:E; [| reflexivity].
      apply Ascii.eqb_eq in E. congruence. }
  repeat split; try (apply Hc; [reflexivity | discriminate]).
  unfold opens_value.
  rewrite (Hc "]"%char), (Hc "}"%char) by (reflexivity || discriminate).
  assert (is_ws c = false) as Hws.
  { unfold is_ws. destruct Hhead as [Hd | [-> _]]; [| reflexivity].
    unfold Str.is_digit in Hd. apply andb_true_iff in Hd as [Hd _].
    apply N.leb_le in Hd.
    rewrite !orb_false_iff. repeat split; apply N.eqb_neq; lia. }
  now rewrite Hws.
Qed.

Lemma iterencode_head (v : pyval) (level : nat) :
  exists c r, iterencode level v = String c r /\ opens_value c = true.
Proof.
  destruct v as [| [|] | z | [f | | |] | s | d | t | | [| x xs] | [| kv kvs]];
    try (eexists; eexists; split; [reflexivity | reflexivity]).
  - destruct (number_opens_value _ _ (scan_number_int z)) as (c & r & E & H & _).
    exists c, r. split; [exact E | exact H].
  - destruct (number_opens_value _ _ (float_repr_number f)) as (c & r & E & H & _).
    exists c, r. split; [exact E | exact H].
Qed.

Lemma scan_once_number (t rest : string) (b : bool) (fuel : nat) :
  scan_number t = Some (t, b, EmptyString) ->
  terminated rest = true ->
  (b = false -> within_limit t = true) ->
  scan_once (S fuel) (t ++ rest)
  = Return (if b then PFloat (float_of_literal t) else PInt (int_of_literal t), rest).
Proof.
  intros Ht Hrest Hlimit.
  rewrite <- (scan_constant_number t rest b Ht (terminated_number_stop _ Hrest)
                Hlimit).
  destruct (number_opens_value t _ Ht) as (c & r & -> & _ & H1 & H2 & H3).
  cbn [scan_once append]. now rewrite H1, H2, H3.
Qed.

Lemma pyval_induction (P : pyval -> Prop) :
  P PNone ->
  (forall b, P (PBool b)) ->
  (forall z, P (PInt z)) ->
  (forall f, P (PFloat f)) ->
  (forall s, P (PStr s)) ->
  (forall d, P (PDate d)) ->
  (forall t, P (PTimestamp t)) ->
  P PNaT ->
  (forall items, Forall P items -> P (PList items)) ->
  (forall entries, Forall (fun kv => P (snd kv)) entries -> P (PDict entries)) ->
  forall v, P v.
Proof.
  intros HNone HBool HInt HFloat HStr HDate HStamp HNaT HList HDict.
  fix F 1. intros v.
  destruct v as [| b | z | f | s | d | t | | items | entries].
  - exact HNone.
  - apply HBool.
  - apply HInt.
  - apply HFloat.
  - apply HStr.
  - apply HDate.
  - apply HStamp.
  - exact HNaT.
  - apply HList. induction items as [| x xs IH]; constructor; [apply F | exact IH].
  - apply HDict. induction entries as [| [k x] xs IH]; constructor;
      [apply F | exact IH].
Qed.

Lemma dict_set_fresh (k : string) (v : pyval) (d : dict) :
  existsb (fun kv => String.eqb (fst kv) k) d = false ->
  dict_set k v d = (d ++ [(k, v)])%list.
Proof.
  induction d as [| [k0 v0] d IH]; simpl; [reflexivity |].
  intros H. apply orb_false_iff in H as [H1 H2].
  rewrite H1. now rewrite IH.
Qed.

Lemma existsb_key_app (k : string) (a b : dict) :
  existsb (fun kv => String.eqb (fst kv) k) (a ++ b)
  = existsb (fun kv => String.eqb (fst kv) k) a
    || existsb (fun kv => String.eqb (fst kv) k) b.
Proof. apply existsb_app. Qed.

Lemma dict_of_pairs_unique_from (pairs acc : dict) :
  keys_unique pairs = true ->
  (forall kv, In kv pairs ->
              existsb (fun kv' => String.eqb (fst kv') (fst kv)) acc = false) ->
  fold_left (fun d kv => dict_set (fst kv) (snd kv) d) pairs acc
  = (acc ++ pairs)%list.
Proof.
  revert acc. induction pairs as [| [k v] pairs IH]; intros acc Hu Hacc; simpl.
  - now rewrite List.app_nil_r.
  - simpl in Hu. apply andb_true_iff in Hu as [Hk Hu].
    apply negb_true_iff in Hk.
    rewrite dict_set_fresh by (apply (Hacc (k, v)); now left).
    rewrite IH; [now rewrite <- List.app_assoc | exact Hu |].
    intros [k' v'] Hin. rewrite existsb_key_app. simpl.
    pose proof (Hacc (k', v') (or_intror Hin)) as Hfresh. simpl in Hfresh.
    rewrite Hfresh. simpl. rewrite orb_false_r.
    destruct (String.eqb k k') eqn:E; [| reflexivity].
    apply String.eqb_eq in E. subst k'.
    rewrite <- Hk. symmetry. apply existsb_exists.
    exists (k, v'). split; [exact Hin | apply String.eqb_refl].
Qed.

(** [dict(pairs)] of pairs with distinct keys is the pairs in their order. *)
Lemma dict_of_pairs_unique (pairs : dict) :
  keys_unique pairs = true -> dict_of_pairs pairs = pairs.
Proof.
  intros H. unfold dict_of_pairs.
  now rewrite (dict_of_pairs_unique_from pairs [] H) by reflexivity.
Qed.

Lemma encode_basestring_app (s rest : string) :
  encode_basestring s ++ rest = String Str.dquote (escape s ++ String Str.dquote rest).
Proof. unfold encode_basestring. simpl. now rewrite append_assoc. Qed.

Lemma scan_once_string (s rest : string) (fuel : nat) :
  scan_once (S fuel) (encode_basestring s ++ rest) = Return (PStr s, rest).
Proof.
  rewrite encode_basestring_app. cbn [scan_once].
  change (Ascii.eqb Str.dquote Str.dquote) with true. cbv iota.
  rewrite scanstring_escape; [reflexivity |].
  cbn [String.length]. rewrite length_append. lia.
Qed.

Lemma terminated_newline_indent (level : nat) (s : string) :
  terminated (newline_indent level ++ s) = true.
Proof. reflexivity. Qed.

Lemma skip_ws_to_value (level : nat) (v : pyval) (l : nat) (s : string) :
  exists c r, skip_ws (newline_indent level ++ iterencode l v ++ s) = String c r
              /\ String c r = iterencode l v ++ s /\ opens_value c = true.
Proof.
  rewrite skip_ws_newline_indent.
  destruct (iterencode_head v l) as (c & r & E & H).
  exists c, (r ++ s). rewrite E. cbn [append].
  unfold opens_value in H. apply andb_true_iff in H as [H H3].
  apply andb_true_iff in H as [H1 H2]. apply negb_true_iff in H1.
  rewrite (skip_ws_head c _ H1). repeat split.
  unfold opens_value. now rewrite H1, H2, H3.
Qed.

Section Elements.

Variable level : nat.
Variable rest : string.

(** The elements of a list, each of which reads back by itself. *)
Lemma parse_elements_join (items : list pyval) :
  items <> [] ->
  Forall (fun v => forall l fuel r,
              (weight v <= fuel)%nat -> terminated r = true ->
              scan_once fuel (iterencode l v ++ r) = Return (v, r)) items ->
  forall fuel,
    (list_sum (map (fun x => S (weight x)) items) <= fuel)%nat ->
    parse_elements fuel
      (Str.join ("," ++ newline_indent (S level))
                (map (iterencode (S level)) items)
       ++ newline_indent level ++ String "]" rest)
    = Return (items, rest).
Proof.
  induction items as [| x xs IH]; intros Hne Hall fuel Hfuel; [congruence |].
  inversion Hall as [| ? ? Hx Hxs]; subst.
  cbn [map list_sum fold_right] in Hfuel.
  destruct fuel as [| fuel]; [lia |].
  destruct xs as [| y ys].
  - cbn [map Str.join parse_elements].
    rewrite Hx by (reflexivity || lia).
    rewrite skip_ws_newline_indent. reflexivity.
  - change (Str.join ("," ++ newline_indent (S level))
                     (map (iterencode (S level)) (x :: y :: ys)))
      with (iterencode (S level) x ++ ("," ++ newline_indent (S level))
            ++ Str.join ("," ++ newline_indent (S level))
                        (map (iterencode (S level)) (y :: ys))).
    rewrite !append_assoc. cbn [parse_elements].
    rewrite Hx by (reflexivity || lia).
    change ("," ++ newline_indent (S level)
            ++ Str.join ("," ++ newline_indent (S level))
                        (map (iterencode (S level)) (y :: ys))
            ++ newline_indent level ++ String "]" rest)
      with (String "," (newline_indent (S level)
            ++ Str.join ("," ++ newline_indent (S level))
                        (map (iterencode (S level)) (y :: ys))
            ++ newline_indent level ++ String "]" rest)).
    rewrite skip_ws_head by reflexivity.
    change (Ascii.eqb "," "]") with false. change (Ascii.eqb "," ",") with true.
    cbv iota.
    rewrite skip_ws_newline_indent.
    assert (exists c r,
               Str.join ("," ++ newline_indent (S level))
                        (map (iterencode (S level)) (y :: ys))
               ++ newline_indent level ++ String "]" rest = String c r
               /\ is_ws c = false) as (c & r & Ehead & Hws).
    { destruct (iterencode_head y (S level)) as (c & r & E & H).
      unfold opens_value in H. apply andb_true_iff in H as [H _].
      apply andb_true_iff in H as [H _]. apply negb_true_iff in H.
      exists c. destruct ys as [| z zs]; cbn [map Str.join]; rewrite E;
        eexists; (split; [reflexivity | exact H]). }
    rewrite Ehead, (skip_ws_head c r Hws), <- Ehead.
    rewrite IH; [reflexivity | discriminate | exact Hxs | unfold list_sum; lia].
Qed.

(** The members of a dictionary, each value of which reads back by itself. *)
Lemma parse_members_join (entries : dict) :
  entries <> [] ->
  Forall (fun kv => forall l fuel r,
              (weight (snd kv) <= fuel)%nat -> terminated r = true ->
              scan_once fuel (iterencode l (snd kv) ++ r) = Return (snd kv, r))
         entries ->
  forall fuel,
    (list_sum (map (fun kv => S (weight (snd kv))) entries) <= fuel)%nat ->
    parse_members fuel
      (Str.join ("," ++ newline_indent (S level)) (map (encode_entry level) entries)
       ++ newline_indent level ++ String "}" rest)
    = Return (entries, rest).
Proof.
  induction entries as [| [k v] xs IH]; intros Hne Hall fuel Hfuel; [congruence |].
  inversion Hall as [| ? ? Hx Hxs]; subst. cbn [snd] in Hx.
  cbn [map list_sum fold_right snd] in Hfuel.
  destruct fuel as [| fuel]; [lia |].
  assert (forall tail,
             terminated tail = true ->
             parse_members (S fuel) (encode_entry level (k, v) ++ tail)
             = match skip_ws tail with
               | String c2 r3 =>
                   if Ascii.eqb c2 "}" then Return ([(k, v)], r3)
                   else if Ascii.eqb c2 "," then
                     match parse_members fuel (skip_ws r3) with
                     | Return (kvs, r') => Return ((k, v) :: kvs, r')
                     | Raise e => Raise e
                     end
                   else Raise JSONDecodeError
               | EmptyString => Raise JSONDecodeError
               end) as Hentry.
  { intros tail Hterm. unfold encode_entry. cbn [fst snd].
    rewrite !append_assoc, encode_basestring_app.
    cbn [parse_members].
    change (Ascii.eqb Str.dquote Str.dquote) with true. cbv iota.
    rewrite scanstring_escape
      by (cbn [String.length]; rewrite length_append; lia).
    change (": " ++ iterencode (S level) v ++ tail)
      with (String ":" (String " " (iterencode (S level) v ++ tail))).
    rewrite skip_ws_head by reflexivity.
    change (Ascii.eqb ":" ":") with true. cbv iota.
    destruct (iterencode_head v (S level)) as (c & r & E & H).
    unfold opens_value in H. apply andb_true_iff in H as [H _].
    apply andb_true_iff in H as [H _]. apply negb_true_iff in H.
    assert (skip_ws (String " " (iterencode (S level) v ++ tail))
            = iterencode (S level) v ++ tail) as Hskip.
    { cbn [skip_ws]. change (is_ws " ") with true. cbv iota.
      rewrite E. cbn [append]. now apply skip_ws_head. }
    rewrite Hskip, Hx by (exact Hterm || lia). reflexivity. }
  destruct xs as [| y ys].
  - cbn [map Str.join]. rewrite Hentry by reflexivity.
    rewrite skip_ws_newline_indent. reflexivity.
  - change (Str.join ("," ++ newline_indent (S level))
                     (map (encode_entry level) ((k, v) :: y :: ys)))
      with (encode_entry level (k, v) ++ ("," ++ newline_indent (S level))
            ++ Str.join ("," ++ newline_indent (S level))
                        (map (encode_entry level) (y :: ys))).
    rewrite !append_assoc. rewrite Hentry by reflexivity.
    change ("," ++ newline_indent (S level)
            ++ Str.join ("," ++ newline_indent (S level))
                        (map (encode_entry level) (y :: ys))
            ++ newline_indent level ++ String "}" rest)
      with (String "," (newline_indent (S level)
            ++ Str.join ("," ++ newline_indent (S level))
                        (map (encode_entry level) (y :: ys))
            ++ newline_indent level ++ String "}" rest)).
    rewrite skip_ws_head by reflexivity.
    change (Ascii.eqb "," "}") with false. change (Ascii.eqb "," ",") with true.
    cbv iota.
    rewrite skip_ws_newline_indent.
    assert (exists r,
               Str.join ("," ++ newline_indent (S level))
                        (map (encode_entry level) (y :: ys))
               ++ newline_indent level ++ String "}" rest
               = String Str.dquote r) as (r & Ehead).
    { destruct y as [k' v']. destruct ys as [| z zs]; cbn [map Str.join];
        unfold encode_entry at 1; cbn [fst snd];
        rewrite !append_assoc, encode_basestring_app; eexists; reflexivity. }
    rewrite Ehead, (skip_ws_head Str.dquote r eq_refl), <- Ehead.
    rewrite IH; [reflexivity | discriminate | exact Hxs | unfold list_sum; lia].
Qed.

End Elements.

(** Every value that JSON has a form for reads back from its text. *)
Lemma scan_once_iterencode (v : pyval) :
  json_native v = true ->
  forall level fuel rest,
    (weight v <= fuel)%nat ->
    terminated rest = true ->
    scan_once fuel (iterencode level v ++ rest) = Return (v, rest).
Proof.
  induction v as [| b | z | f | s | d | t | | items IH | entries IH]
    using pyval_induction;
    intros Hnative level fuel rest Hfuel Hrest;
    try discriminate Hnative;
    (destruct fuel as [| fuel]; [simpl in Hfuel; lia |]).
  - reflexivity.
  - destruct b; reflexivity.
  - cbn [iterencode]. rewrite (scan_once_number _ _ false) by
        (exact Hrest || apply scan_number_int || (intros _; exact Hnative)).
    now rewrite int_of_literal_int_str.
  - destruct f as [x | | |]; try reflexivity.
    cbn [iterencode floatstr].
    rewrite (scan_once_number _ _ true) by
        (exact Hrest || apply float_repr_number || discriminate).
    now rewrite float_of_repr.
  - apply scan_once_string.
  - destruct items as [| x xs]; [reflexivity |].
    cbn [json_native] in Hnative. cbn [weight] in Hfuel.
    change (iterencode level (PList (x :: xs)))
      with ("[" ++ newline_indent (S level)
            ++ Str.join ("," ++ newline_indent (S level))
                        (map (iterencode (S level)) (x :: xs))
            ++ newline_indent level ++ "]").
    rewrite !append_assoc.
    change ("[" ++ newline_indent (S level)
            ++ Str.join ("," ++ newline_indent (S level))
                        (map (iterencode (S level)) (x :: xs))
            ++ newline_indent level ++ "]" ++ rest)
      with (String "[" (newline_indent (S level)
            ++ Str.join ("," ++ newline_indent (S level))
                        (map (iterencode (S level)) (x :: xs))
            ++ newline_indent level ++ String "]" rest)).
    cbn [scan_once].
    change (Ascii.eqb "[" Str.dquote) with false.
    change (Ascii.eqb "[" "{") with false.
    change (Ascii.eqb "[" "[") with true. cbv iota.
    rewrite skip_ws_newline_indent.
    assert (exists c r,
               Str.join ("," ++ newline_indent (S level))
                        (map (iterencode (S level)) (x :: xs))
               ++ newline_indent level ++ String "]" rest = String c r
               /\ opens_value c = true) as (c & r & Ehead & Hopen).
    { destruct (iterencode_head x (S level)) as (c & r & E & H).
      exists c. destruct xs as [| z zs]; cbn [map Str.join]; rewrite E;
        eexists; (split; [reflexivity | exact H]). }
    unfold opens_value in Hopen. apply andb_true_iff in Hopen as [Hopen _].
    apply andb_true_iff in Hopen as [Hws Hclose].
    apply negb_true_iff in Hws, Hclose.
    rewrite Ehead, (skip_ws_head c r Hws), Hclose, <- Ehead.
    rewrite parse_elements_join; [reflexivity | discriminate | | lia].
    rewrite Forall_forall in IH |- *. intros y Hy. apply IH; [exact Hy |].
    rewrite forallb_forall in Hnative. now apply Hnative.
  - destruct entries as [| kv kvs]; [reflexivity |].
    cbn [json_native] in Hnative. apply andb_true_iff in Hnative as [Hkeys Hvals].
    cbn [weight] in Hfuel.
    change (iterencode level (PDict (kv :: kvs)))
      with ("{" ++ newline_indent (S level)
            ++ Str.join ("," ++ newline_indent (S level))
                        (map (encode_entry level) (kv :: kvs))
            ++ newline_indent level ++ "}").
    rewrite !append_assoc.
    change ("{" ++ newline_indent (S level)
            ++ Str.join ("," ++ newline_indent (S level))
                        (map (encode_entry level) (kv :: kvs))
            ++ newline_indent level ++ "}" ++ rest)
      with (String "{" (newline_indent (S level)
            ++ Str.join ("," ++ newline_indent (S level))
                        (map (encode_entry level) (kv :: kvs))
            ++ newline_indent level ++ String "}" rest)).
    cbn [scan_once].
    change (Ascii.eqb "{" Str.dquote) with false.
    change (Ascii.eqb "{" "{") with true. cbv iota.
    rewrite skip_ws_newline_indent.
    assert (exists r,
               Str.join ("," ++ newline_indent (S level))
                        (map (encode_entry level) (kv :: kvs))
               ++ newline_indent level ++ String "}" rest
               = String Str.dquote r) as (r & Ehead).
    { destruct kv as [k' v']. destruct kvs as [| z zs]; cbn [map Str.join];
        unfold encode_entry at 1; cbn [fst snd];
        rewrite !append_assoc, encode_basestring_app; eexists; reflexivity. }
    rewrite Ehead, (skip_ws_head Str.dquote r eq_refl).
    change (Ascii.eqb Str.dquote "}") with false. cbv iota. rewrite <- Ehead.
    rewrite parse_members_join; [| discriminate | | lia].
    + now rewrite dict_of_pairs_unique.
    + rewrite Forall_forall in IH |- *. intros y Hy. apply IH; [exact Hy |].
      rewrite forallb_forall in Hvals. specialize (Hvals y Hy).
      now apply andb_true_iff in Hvals as [_ Hvals].
Qed.

Lemma length_join_weight (f : pyval -> string) (sep : string) (items : list pyval) :
  (1 <= String.length sep)%nat ->
  Forall (fun v => weight v <= String.length (f v))%nat items ->
  (list_sum (map (fun x => S (weight x)) items)
   <= S (String.length (Str.join sep (map f items))))%nat.
Proof.
  intros Hsep Hall. induction Hall as [| x xs Hx Hxs IH]; [simpl; lia |].
  destruct xs as [| y ys].
  - simpl. lia.
  - change (Str.join sep (map f (x :: y :: ys)))
      with (f x ++ sep ++ Str.join sep (map f (y :: ys))).
    rewrite !length_append. cbn [map list_sum fold_right] in *.
    unfold list_sum in IH. lia.
Qed.

Lemma length_join_entries (f : string * pyval -> string) (sep : string)
      (entries : dict) :
  (1 <= String.length sep)%nat ->
  Forall (fun kv => weight (snd kv) <= String.length (f kv))%nat entries ->
  (list_sum (map (fun kv => S (weight (snd kv))) entries)
   <= S (String.length (Str.join sep (map f entries))))%nat.
Proof.
  intros Hsep Hall. induction Hall as [| x xs Hx Hxs IH]; [simpl; lia |].
  destruct xs as [| y ys].
  - simpl. lia.
  - change (Str.join sep (map f (x :: y :: ys)))
      with (f x ++ sep ++ Str.join sep (map f (y :: ys))).
    rewrite !length_append. cbn [map list_sum fold_right] in *.
    unfold list_sum in IH. lia.
Qed.

(** The text of a value is at least as long as the fuel its reading takes. *)
Lemma weight_le_length (v : pyval) :
  forall level, (weight v <= String.length (iterencode level v))%nat.
Proof.
  induction v as [| b | z | f | s | d | t | | items IH | entries IH]
    using pyval_induction; intros level;
    try (cbn [weight iterencode encode_basestring String.length]; lia).
  - destruct b; simpl; lia.
  - destruct (iterencode_head (PInt z) level) as (c & r & E & _).
    rewrite E. simpl. lia.
  - destruct (iterencode_head (PFloat f) level) as (c & r & E & _).
    rewrite E. simpl. lia.
  - destruct items as [| x xs]; [simpl; lia |].
    change (iterencode level (PList (x :: xs)))
      with ("[" ++ newline_indent (S level)
            ++ Str.join ("," ++ newline_indent (S level))
                        (map (iterencode (S level)) (x :: xs))
            ++ newline_indent level ++ "]").
    rewrite !length_append. cbn [weight].
    pose proof (length_join_weight (iterencode (S level))
                  ("," ++ newline_indent (S level)) (x :: xs)) as H.
    cbn [String.length append] in H |- *.
    assert (Forall (fun v => weight v <= String.length (iterencode (S level) v))%nat
                   (x :: xs)) as Hall.
    { rewrite Forall_forall in IH |- *. intros y Hy. now apply IH. }
    specialize (H ltac:(lia) Hall). lia.
  - destruct entries as [| kv kvs]; [simpl; lia |].
    change (iterencode level (PDict (kv :: kvs)))
      with ("{" ++ newline_indent (S level)
            ++ Str.join ("," ++ newline_indent (S level))
                        (map (encode_entry level) (kv :: kvs))
            ++ newline_indent level ++ "}").
    rewrite !length_append. cbn [weight].
    pose proof (length_join_entries (encode_entry level)
                  ("," ++ newline_indent (S level)) (kv :: kvs)) as H.
    cbn [String.length append] in H |- *.
    assert (Forall (fun kv => weight (snd kv)
                              <= String.length (encode_entry level kv))%nat
                   (kv :: kvs)) as Hall.
    { rewrite Forall_forall in IH |- *. intros y Hy.
      unfold encode_entry. rewrite !length_append.
      specialize (IH y Hy (S level)). lia. }
    specialize (H ltac:(lia) Hall). lia.
Qed.

(** A value that JSON has a form for holds no integer over the limit of
    the conversion to text. *)
Lemma native_convertible (v : pyval) :
  json_native v = true -> convertible v = true.
Proof.
  induction v as [| b | z | x | s | d | t | | items IH | entries IH]
    using pyval_induction; cbn [json_native convertible];
    try reflexivity; try discriminate; try (intros H; exact H).
  - rewrite !forallb_forall. intros H x Hx.
    rewrite Forall_forall in IH. apply IH; [exact Hx | now apply H].
  - intros H. apply andb_true_iff in H as [_ H].
    rewrite forallb_forall in *. intros kv Hkv.
    rewrite Forall_forall in IH. apply IH; [exact Hkv |].
    specialize (H kv Hkv). now apply andb_true_iff in H as [_ H].
Qed.

Lemma json_dumps_native (v : pyval) :
  json_native v = true -> json_dumps v = Return (iterencode 0 v).
Proof.
  intros H. unfold json_dumps. now rewrite (native_convertible v H).
Qed.

(** [json.loads] reads back what [json.dumps] wrote of a value that JSON
    has a form for. *)
Lemma json_loads_dumps (v : pyval) :
  json_native v = true -> json_loads (iterencode 0 v) = Return v.
Proof.
  intros Hnative. unfold json_loads.
  destruct (iterencode_head v 0) as (c & r & E & Hopen).
  unfold opens_value in Hopen. apply andb_true_iff in Hopen as [Hopen _].
  apply andb_true_iff in Hopen as [Hws _]. apply negb_true_iff in Hws.
  rewrite E at 2. rewrite (skip_ws_head c r Hws), <- E.
  rewrite <- (append_nil_r (iterencode 0 v)) at 2.
  rewrite (scan_once_iterencode v Hnative 0); [reflexivity | | reflexivity].
  pose proof (weight_le_length v 0). lia.
Qed.

(** *** Well-formed UTF-8 *)

Lemma valid_ascii_cons (c : ascii) (s : string) :
  Str.is_ascii c = true -> Utf8.valid (String c s) = Utf8.valid s.
Proof. intros H. cbn [Utf8.valid]. unfold Str.is_ascii in H. now rewrite H. Qed.

Lemma valid_ascii_app (a s : string) :
  Str.all_chars Str.is_ascii a = true -> Utf8.valid (a ++ s) = Utf8.valid s.
Proof.
  induction a as [| c a IH]; intros H; [reflexivity |].
  cbn [Str.all_chars] in H. apply andb_true_iff in H as [Hc Ha].
  cbn [append]. rewrite (valid_ascii_cons c _ Hc). now apply IH.
Qed.

Lemma valid_ascii (a : string) :
  Str.all_chars Str.is_ascii a = true -> Utf8.valid a = true.
Proof.
  intros H. rewrite <- (append_nil_r a). now rewrite valid_ascii_app.
Qed.

Lemma valid_append_bounded (b : string) :
  Utf8.valid b = true ->
  forall n a, (String.length a <= n)%nat -> Utf8.valid a = true ->
              Utf8.valid (a ++ b) = true.
Proof.
  intros Hb. induction n as [| n IH]; intros a Hlen Ha.
  - destruct a; [exact Hb | simpl in Hlen; lia].
  - destruct a as [| b1 r1]; [exact Hb |].
    cbn [String.length] in Hlen. cbn [Utf8.valid append] in Ha |- *.
    destruct (Str.code b1 <? 128)%N; [apply IH; [lia | exact Ha] |].
    destruct r1 as [| b2 r2]; [discriminate |].
    cbn [String.length append] in Hlen |- *.
    destruct (Str.in_range 194 223 b1).
    { apply andb_true_iff in Ha as [H1 H2]. rewrite H1. apply IH; [lia | exact H2]. }
    destruct r2 as [| b3 r3]; [discriminate |].
    cbn [String.length append] in Hlen |- *.
    destruct (Str.in_range 224 239 b1).
    { apply andb_true_iff in Ha as [H1 H2]. rewrite H1. apply IH; [lia | exact H2]. }
    destruct r3 as [| b4 r4]; [discriminate |].
    cbn [String.length append] in Hlen |- *.
    apply andb_true_iff in Ha as [H1 H2]. rewrite H1. apply IH; [lia | exact H2].
Qed.

Lemma valid_append (a b : string) :
  Utf8.valid a = true -> Utf8.valid b = true -> Utf8.valid (a ++ b) = true.
Proof.
  intros Ha Hb. now apply (valid_append_bounded b Hb (String.length a) a).
Qed.

Lemma escape_char_ascii (c : ascii) :
  Str.all_chars Str.is_ascii (escape_char c) = Str.is_ascii c.
Proof. destruct c as [[|] [|] [|] [|] [|] [|] [|] [|]]; reflexivity. Qed.

Lemma escape_char_high (c : ascii) :
  Str.is_ascii c = false -> escape_char c = String c EmptyString.
Proof.
  destruct c as [[|] [|] [|] [|] [|] [|] [|] [|]]; intros H;
    try discriminate H; reflexivity.
Qed.

Lemma in_range_high (lo hi : N) (c : ascii) :
  (128 <= lo)%N -> Str.in_range lo hi c = true -> Str.is_ascii c = false.
Proof.
  unfold Str.in_range, Str.is_ascii. intros Hlo H.
  apply andb_true_iff in H as [H _]. apply N.leb_le in H. apply N.ltb_ge. lia.
Qed.

Lemma escape_high (c : ascii) (s : string) :
  Str.is_ascii c = false -> escape (String c s) = String c (escape s).
Proof. intros H. cbn [escape]. now rewrite (escape_char_high c H). Qed.

Lemma valid_escape_bounded :
  forall n s, (String.length s <= n)%nat -> Utf8.valid s = true ->
              Utf8.valid (escape s) = true.
Proof.
  induction n as [| n IH]; intros s Hlen Hs.
  - destruct s; [reflexivity | simpl in Hlen; lia].
  - destruct s as [| b1 r1]; [reflexivity |].
    cbn [String.length] in Hlen. cbn [Utf8.valid] in Hs.
    destruct (Str.code b1 <? 128)%N eqn:E1.
    { cbn [escape]. rewrite valid_ascii_app by (now rewrite escape_char_ascii).
      apply IH; [lia | exact Hs]. }
    assert (Str.is_ascii b1 = false) as H1 by exact E1.
    rewrite (escape_high b1 r1 H1).
    destruct r1 as [| b2 r2]; [discriminate |].
    cbn [String.length] in Hlen.
    destruct (Str.in_range 194 223 b1) eqn:E2.
    { apply andb_true_iff in Hs as [Hc Hr].
      rewrite (escape_high b2 r2 (in_range_high 128 191 b2 ltac:(lia) Hc)).
      cbn [Utf8.valid]. rewrite E1, E2, Hc. apply IH; [lia | exact Hr]. }
    destruct r2 as [| b3 r3]; [discriminate |].
    cbn [String.length] in Hlen.
    assert (forall (x : bool) (b : ascii),
               (if (Str.code b1 =? 224)%N then Str.in_range 160 191 b
                else if (Str.code b1 =? 237)%N then Str.in_range 128 159 b
                     else Utf8.continuation b) = true ->
               Str.is_ascii b = false) as Hsecond3.
    { intros _ b H. destruct (Str.code b1 =? 224)%N;
        [apply (in_range_high 160 191 b ltac:(lia) H) |].
      destruct (Str.code b1 =? 237)%N;
        [apply (in_range_high 128 159 b ltac:(lia) H) |].
      apply (in_range_high 128 191 b ltac:(lia) H). }
    destruct (Str.in_range 224 239 b1) eqn:E3.
    { apply andb_true_iff in Hs as [Hs Hr]. apply andb_true_iff in Hs as [Hc2 Hc3].
      rewrite (escape_high b2 _ (Hsecond3 true b2 Hc2)).
      rewrite (escape_high b3 _ (in_range_high 128 191 b3 ltac:(lia) Hc3)).
      cbn [Utf8.valid]. rewrite E1, E2, E3, Hc2, Hc3. apply IH; [lia | exact Hr]. }
    destruct r3 as [| b4 r4]; [discriminate |].
    cbn [String.length] in Hlen.
    apply andb_true_iff in Hs as [Hs Hr]. apply andb_true_iff in Hs as [Hs Hc4].
    apply andb_true_iff in Hs as [Hs Hc3]. apply andb_true_iff in Hs as [Hlead Hc2].
    assert (Str.is_ascii b2 = false) as H2.
    { destruct (Str.code b1 =? 240)%N;
        [apply (in_range_high 144 191 b2 ltac:(lia) Hc2) |].
      destruct (Str.code b1 =? 244)%N;
        [apply (in_range_high 128 143 b2 ltac:(lia) Hc2) |].
      apply (in_range_high 128 191 b2 ltac:(lia) Hc2). }
    rewrite (escape_high b2 _ H2).
    rewrite (escape_high b3 _ (in_range_high 128 191 b3 ltac:(lia) Hc3)).
    rewrite (escape_high b4 _ (in_range_high 128 191 b4 ltac:(lia) Hc4)).
    cbn [Utf8.valid]. rewrite E1, E2, E3, Hlead, Hc2, Hc3, Hc4.
    apply IH; [lia | exact Hr].
Qed.

Lemma valid_encode_basestring (s : string) :
  Utf8.valid s = true -> Utf8.valid (encode_basestring s) = true.
Proof.
  intros H. unfold encode_basestring.
  rewrite valid_ascii_cons by reflexivity.
  apply valid_append; [| reflexivity].
  now apply (valid_escape_bounded (String.length s)).
Qed.

Lemma indentation_ascii (level : nat) :
  Str.all_chars Str.is_ascii (indentation level) = true.
Proof. induction level as [| l IH]; [reflexivity | exact IH]. Qed.

Lemma valid_newline_indent (level : nat) (s : string) :
  Utf8.valid (newline_indent level ++ s) = Utf8.valid s.
Proof.
  apply valid_ascii_app. unfold newline_indent. cbn [append Str.NL Str.all_chars].
  apply indentation_ascii.
Qed.

Lemma valid_join (sep : string) (parts : list string) :
  Utf8.valid sep = true ->
  Forall (fun p => Utf8.valid p = true) parts ->
  Utf8.valid (Str.join sep parts) = true.
Proof.
  intros Hsep Hall. induction Hall as [| p ps Hp Hps IH]; [reflexivity |].
  destruct ps as [| q qs]; [exact Hp |].
  change (Str.join sep (p :: q :: qs)) with (p ++ sep ++ Str.join sep (q :: qs)).
  apply valid_append; [exact Hp |]. apply valid_append; [exact Hsep | exact IH].
Qed.

Lemma valid_separator (level : nat) :
  Utf8.valid ("," ++ newline_indent level) = true.
Proof.
  cbn [append]. rewrite valid_ascii_cons by reflexivity.
  rewrite <- (append_nil_r (newline_indent level)).
  now rewrite valid_newline_indent.
Qed.

(** The text that [json.dumps] writes of a value that JSON has a form for
    is well-formed UTF-8, so [write_text] accepts it. *)
Lemma valid_iterencode (v : pyval) :
  json_native v = true -> forall level, Utf8.valid (iterencode level v) = true.
Proof.
  induction v as [| b | z | f | s | d | t | | items IH | entries IH]
    using pyval_induction; intros Hnative level; try discriminate Hnative.
  - reflexivity.
  - destruct b; reflexivity.
  - apply valid_ascii. apply int_str_ascii.
  - destruct f as [x | | |]; try reflexivity.
    apply valid_ascii. apply (scan_number_ascii _ _ _ _ (float_repr_number x)).
  - now apply valid_encode_basestring.
  - destruct items as [| x xs]; [reflexivity |].
    change (iterencode level (PList (x :: xs)))
      with ("[" ++ newline_indent (S level)
            ++ Str.join ("," ++ newline_indent (S level))
                        (map (iterencode (S level)) (x :: xs))
            ++ newline_indent level ++ "]").
    cbn [json_native] in Hnative. rewrite forallb_forall in Hnative.
    rewrite (valid_ascii_app "[") by reflexivity.
    rewrite valid_newline_indent.
    apply valid_append; [| now rewrite valid_newline_indent].
    apply valid_join; [apply valid_separator |].
    rewrite Forall_forall in IH |- *. intros p Hp.
    apply in_map_iff in Hp as (y & <- & Hy). apply IH; [exact Hy |].
    now apply Hnative.
  - destruct entries as [| kv kvs]; [reflexivity |].
    change (iterencode level (PDict (kv :: kvs)))
      with ("{" ++ newline_indent (S level)
            ++ Str.join ("," ++ newline_indent (S level))
                        (map (encode_entry level) (kv :: kvs))
            ++ newline_indent level ++ "}").
    cbn [json_native] in Hnative. apply andb_true_iff in Hnative as [_ Hnative].
    rewrite forallb_forall in Hnative.
    rewrite (valid_ascii_app "{") by reflexivity.
    rewrite valid_newline_indent.
    apply valid_append; [| now rewrite valid_newline_indent].
    apply valid_join; [apply valid_separator |].
    rewrite Forall_forall in IH |- *. intros p Hp.
    apply in_map_iff in Hp as (y & <- & Hy).
    specialize (Hnative y Hy). apply andb_true_iff in Hnative as [Hk Hv].
    unfold encode_entry.
    apply valid_append; [now apply valid_encode_basestring |].
    rewrite (valid_ascii_app ": ") by reflexivity.
    now apply IH.
Qed.

(** *** Saving and loading an inventory *)

Lemma iterencode_stored_value (v : pyval) (level : nat) :
  iterencode level (stored_value v) = iterencode level v.
Proof. destruct v; reflexivity. Qed.

Lemma iterencode_stored_record (r : pyval) (level : nat) :
  iterencode level (stored_record r) = iterencode level r.
Proof.
  destruct r as [| | | | | | | | | entries]; try reflexivity.
  destruct entries as [| kv kvs]; [reflexivity |].
  cbn [stored_record map].
  change (iterencode level (PDict (kv :: kvs)))
    with ("{" ++ newline_indent (S level)
          ++ Str.join ("," ++ newline_indent (S level))
                      (map (encode_entry level) (kv :: kvs))
          ++ newline_indent level ++ "}").
  change (iterencode level
            (PDict ((fst kv, stored_value (snd kv))
                    :: map (fun kv0 => (fst kv0, stored_value (snd kv0))) kvs)))
    with ("{" ++ newline_indent (S level)
          ++ Str.join ("," ++ newline_indent (S level))
                      (map (encode_entry level)
                           (map (fun kv0 => (fst kv0, stored_value (snd kv0)))
                                (kv :: kvs)))
          ++ newline_indent level ++ "}").
  rewrite map_map. f_equal. f_equal. f_equal. f_equal.
  apply map_ext. intros [k v]. unfold encode_entry. cbn [fst snd].
  now rewrite iterencode_stored_value.
Qed.

Lemma convertible_stored_record (r : pyval) :
  convertible (stored_record r) = convertible r.
Proof.
  destruct r as [| | | | | | | | | entries]; try reflexivity.
  cbn [stored_record convertible].
  induction entries as [| [k v] kvs IH]; [reflexivity |].
  cbn [map forallb fst snd]. rewrite IH. f_equal. now destruct v.
Qed.

Lemma convertible_stored (items : list pyval) :
  convertible (PList (map stored_record items)) = convertible (PList items).
Proof.
  cbn [convertible]. induction items as [| x xs IH]; [reflexivity |].
  cbn [map forallb]. now rewrite IH, convertible_stored_record.
Qed.

Lemma iterencode_stored (items : list pyval) :
  iterencode 0 (PList (map stored_record items)) = iterencode 0 (PList items).
Proof.
  destruct items as [| x xs]; [reflexivity |].
  cbn [map].
  change (iterencode 0 (PList (x :: xs)))
    with ("[" ++ newline_indent 1
          ++ Str.join ("," ++ newline_indent 1) (map (iterencode 1) (x :: xs))
          ++ newline_indent 0 ++ "]").
  change (iterencode 0 (PList (stored_record x :: map stored_record xs)))
    with ("[" ++ newline_indent 1
          ++ Str.join ("," ++ newline_indent 1)
                      (map (iterencode 1) (map stored_record (x :: xs)))
          ++ newline_indent 0 ++ "]").
  rewrite map_map. f_equal. f_equal. f_equal. f_equal.
  apply map_ext. intros r. apply iterencode_stored_record.
Qed.

Lemma member_valid (u : string) (l : list string) :
  member u l = true -> forallb Utf8.valid l = true -> Utf8.valid u = true.
Proof.
  unfold member. intros Hin Hall. apply existsb_exists in Hin as (x & Hx & E).
  apply String.eqb_eq in E. subst x. rewrite forallb_forall in Hall. now apply Hall.
Qed.

Lemma zero_padded_ascii (w : nat) (v : Z) :
  Str.all_chars Str.is_ascii (Date.zero_padded w v) = true.
Proof.
  revert v. induction w as [| w IH]; intros v; [reflexivity |].
  cbn [Date.zero_padded]. rewrite all_chars_append, IH. cbn [Str.all_chars andb].
  rewrite andb_true_r. apply digit_is_ascii.
  apply digit_char_is_digit. apply Z.mod_pos_bound. lia.
Qed.

Lemma isoformat_ascii (d : Date.date) :
  Str.all_chars Str.is_ascii (Date.isoformat d) = true.
Proof.
  unfold Date.isoformat. rewrite !all_chars_append, !zero_padded_ascii. reflexivity.
Qed.

(** What [field_ok] says of a field, key by key. *)
Lemma field_ok_cases (k : string) (v : pyval) :
  field_ok (k, v) = true ->
  Utf8.valid k = true
  /\ json_native (stored_value v) = true
  /\ (String.eqb k "expiry" = true ->
      exists day, v = PDate day /\ Date.valid day = true)
  /\ (String.eqb k "expiry" = false -> stored_value v = v).
Proof.
  unfold field_ok.
  destruct (String.eqb k "name") eqn:E1.
  { apply String.eqb_eq in E1. subst k. destruct v; try discriminate.
    intros H. apply andb_true_iff in H as [_ H].
    repeat split; [exact H | discriminate]. }
  destruct (String.eqb k "quantity") eqn:E2.
  { apply String.eqb_eq in E2. subst k. destruct v as [| | | [| | |] | | | | | |];
      try discriminate; intros H; repeat split; try discriminate; exact H. }
  destruct (String.eqb k "unit") eqn:E3.
  { apply String.eqb_eq in E3. subst k. destruct v; try discriminate.
    intros H. repeat split; [| discriminate].
    apply (member_valid s UNITS H). reflexivity. }
  destruct (String.eqb k "expiry") eqn:E4.
  { apply String.eqb_eq in E4. subst k. destruct v; try discriminate.
    intros H. repeat split.
    - cbn [stored_value json_native]. apply valid_ascii, isoformat_ascii.
    - intros _. now exists d.
    - discriminate. }
  destruct (String.eqb k "category") eqn:E5; [| discriminate].
  apply String.eqb_eq in E5. subst k. destruct v; try discriminate.
  intros H. repeat split; [| discriminate].
  apply (member_valid s CATEGORIES H). reflexivity.
Qed.

Lemma existsb_key_stored (k : string) (d : dict) :
  existsb (fun kv => String.eqb (fst kv) k) (map store_entry d)
  = existsb (fun kv => String.eqb (fst kv) k) d.
Proof.
  induction d as [| [k0 v0] d IH]; [reflexivity |].
  cbn [map existsb store_entry fst]. now rewrite IH.
Qed.

Lemma keys_unique_stored (d : dict) :
  keys_unique (map store_entry d) = keys_unique d.
Proof.
  induction d as [| [k v] d IH]; [reflexivity |].
  cbn [map keys_unique store_entry fst]. now rewrite existsb_key_stored, IH.
Qed.

Lemma stored_record_native (d : dict) :
  keys_unique d = true -> forallb field_ok d = true ->
  json_native (stored_record (PDict d)) = true.
Proof.
  intros Hu Hf. cbn [stored_record json_native].
  change (map (fun kv => (fst kv, stored_value (snd kv))) d) with (map store_entry d).
  rewrite keys_unique_stored, Hu. cbn [andb].
  rewrite forallb_forall in Hf |- *. intros kv Hin.
  apply in_map_iff in Hin as ([k v] & <- & Hin).
  destruct (field_ok_cases k v (Hf _ Hin)) as (Hk & Hv & _).
  cbn [store_entry fst snd]. now rewrite Hk, Hv.
Qed.

Lemma stored_without_expiry (d : dict) :
  forallb field_ok d = true ->
  existsb (fun kv => String.eqb (fst kv) "expiry") d = false ->
  map store_entry d = d.
Proof.
  induction d as [| [k v] d IH]; intros Hf He; [reflexivity |].
  cbn [forallb] in Hf. apply andb_true_iff in Hf as [Hkv Hf].
  cbn [existsb fst] in He. apply orb_false_iff in He as [Hk He].
  destruct (field_ok_cases k v Hkv) as (_ & _ & _ & Hsame).
  change (map store_entry ((k, v) :: d))
    with ((k, stored_value v) :: map store_entry d).
  now rewrite (Hsame Hk), IH.
Qed.

(** The loop of [load_inventory] gives back the record that was saved. *)
Lemma normalize_stored_record (d : dict) :
  keys_unique d = true -> forallb field_ok d = true ->
  has_fields (PDict d) = true ->
  normalize_item (stored_record (PDict d)) = Return (PDict d).
Proof.
  intros Hu Hf Hhas.
  assert (exists e, dict_get "expiry" d = Some e) as [e He].
  { cbn [has_fields forallb] in Hhas.
    destruct (dict_get "expiry" d) as [e |]; [now exists e |].
    rewrite !andb_false_r in Hhas. discriminate. }
  clear Hhas. cbn [stored_record].
  change (map (fun kv => (fst kv, stored_value (snd kv))) d) with (map store_entry d).
  unfold normalize_item, get.
  assert (exists day,
             dict_get "expiry" (map store_entry d) = Some (PStr (Date.isoformat day))
             /\ Date.valid day = true
             /\ dict_set "expiry" (PDate day) (map store_entry d) = d)
    as (day & Hget & Hday & Hset).
  { revert e He. induction d as [| [k v] d IH]; intros e He; [discriminate |].
    cbn [keys_unique] in Hu. apply andb_true_iff in Hu as [Hk Hu].
    apply negb_true_iff in Hk.
    cbn [forallb] in Hf. apply andb_true_iff in Hf as [Hkv Hf].
    destruct (field_ok_cases k v Hkv) as (_ & _ & Hdate & Hsame).
    cbn [map store_entry fst snd dict_get dict_set] in *.
    destruct (String.eqb k "expiry") eqn:E.
    - destruct (Hdate eq_refl) as (day & -> & Hday). exists day.
      cbn [stored_value]. repeat split; [exact Hday |].
      apply String.eqb_eq in E. subst k.
      now rewrite (stored_without_expiry d Hf Hk).
    - destruct (IH Hu Hf e He) as (day & Hget & Hday & Hset). exists day.
      repeat split; [exact Hget | exact Hday |].
      now rewrite (Hsame eq_refl), Hset. }
  rewrite Hget. cbn [bind]. unfold parse_expiry.
  rewrite (fromisoformat_isoformat day Hday). cbn [bind setitem].
  now rewrite Hset.
Qed.

Lemma valid_record_stored (r : pyval) :
  valid_record r = true ->
  json_native (stored_record r) = true
  /\ normalize_item (stored_record r) = Return r.
Proof.
  destruct r as [| | | | | | | | | d]; try discriminate.
  unfold valid_record. intros H.
  apply andb_true_iff in H as [H Hhas]. apply andb_true_iff in H as [Hu Hf].
  split; [now apply stored_record_native | now apply normalize_stored_record].
Qed.

(** C1: saving a valid inventory succeeds, and loading the file that was
    written returns the inventory that was saved: the same records in the
    same order, each with the same fields, the expiry again the date it
    was. *)
Theorem load_save_round_trip :
  forall (inv : pyval) (f : file),
    valid_inventory inv = true ->
    snd (save_inventory inv f) = Return tt
    /\ load_inventory (fst (save_inventory inv f)) = Return inv.
Proof.
  intros inv f Hvalid.
  destruct inv as [| | | | | | | | items |]; try discriminate.
  cbn [valid_inventory] in Hvalid. rewrite forallb_forall in Hvalid.
  assert (json_native (PList (map stored_record items)) = true) as Hnative.
  { cbn [json_native]. apply forallb_forall. intros r Hr.
    apply in_map_iff in Hr as (x & <- & Hx).
    now apply valid_record_stored, Hvalid. }
  assert (json_dumps (PList items) = Return (iterencode 0 (PList items)))
    as Hdumps.
  { unfold json_dumps.
    now rewrite <- convertible_stored, (native_convertible _ Hnative). }
  assert (Utf8.valid (iterencode 0 (PList items)) = true) as Hutf.
  { rewrite <- iterencode_stored. now apply valid_iterencode. }
  unfold save_inventory, write_text. rewrite Hdumps, Hutf. cbn [fst snd].
  split; [reflexivity |].
  rewrite (load_inventory_decoded _ (PList (map stored_record items))).
  - cbn [normalize_all].
    assert (for_each normalize_item (map stored_record items) = Return items) as Hloop.
    { clear Hnative Hutf Hdumps. induction items as [| x xs IH]; [reflexivity |].
      cbn [map for_each].
      rewrite (proj2 (valid_record_stored x (Hvalid x (or_introl eq_refl)))).
      cbn [bind]. rewrite IH by (intros y Hy; apply Hvalid; now right).
      reflexivity. }
    now rewrite Hloop.
  - destruct (iterencode_head (PList items) 0) as (c & r & E & _).
    rewrite E. discriminate.
  - exact Hutf.
  - rewrite <- iterencode_stored. now apply json_loads_dumps.
Qed.

(** ** Further properties of the program *)

(** *** What the loader does with a file that is not an inventory *)

Lemma ws_is_ascii (s : string) :
  Str.all_chars is_ws s = true -> Str.all_chars Str.is_ascii s = true.
Proof.
  induction s as [| c s IH]; [reflexivity |]. cbn [Str.all_chars].
  intros H. apply andb_true_iff in H as [Hc Hs]. rewrite (IH Hs), andb_true_r.
  unfold is_ws in Hc. unfold Str.is_ascii.
  repeat (apply orb_true_iff in Hc as [Hc | Hc]);
    apply N.eqb_eq in Hc; rewrite Hc; reflexivity.
Qed.

Lemma skip_ws_blank (s : string) :
  Str.all_chars is_ws s = true -> skip_ws s = EmptyString.
Proof.
  induction s as [| c s IH]; [reflexivity |]. cbn [Str.all_chars skip_ws].
  intros H. apply andb_true_iff in H as [Hc Hs]. rewrite Hc. now apply IH.
Qed.

(** X4: a backing file that is not empty but holds white space only
    (blanks, tabs, line ends) does not count as empty: [load_inventory]
    raises the decoder's error instead of returning the empty
    inventory. *)
Theorem load_blank_file_raises :
  forall bytes : string,
    bytes <> EmptyString ->
    Str.all_chars is_ws bytes = true ->
    load_inventory (Some bytes) = Raise JSONDecodeError.
Proof.
  intros bytes Hne Hws. unfold load_inventory, read_text.
  destruct bytes as [| c r]; [congruence |].
  simpl (String.length _ =? 0)%nat. cbv iota.
  rewrite (valid_ascii _ (ws_is_ascii _ Hws)). cbn [bind].
  unfold json_loads. rewrite (skip_ws_blank _ Hws). reflexivity.
Qed.

(** *** What the loader returns *)

Lemma normalize_item_post (item item' : pyval) :
  normalize_item item = Return item' -> other_expiry item' = true.
Proof.
  destruct item as [| | | | | | | | | entries]; try discriminate.
  unfold normalize_item, parse_expiry. cbn [get bind setitem].
  destruct (dict_get "expiry" entries) as [exp |] eqn:E.
  - destruct exp as [| b | z | x | s | d | t | | items | kvs];
      try (intros H; injection H as <-; cbn [other_expiry]; now rewrite E).
    + destruct (Date.fromisoformat s) as [d |]; cbn [bind].
      * intros H. injection H as <-. cbn [other_expiry].
        now rewrite dict_get_set.
      * destruct (to_datetime s) as [[t |] | e]; cbn [bind date_of];
          unfold Timestamp_date; try destruct (Date.valid (ts_date t));
          cbn [bind]; try discriminate; intros H; injection H as <-;
          cbn [other_expiry]; now rewrite dict_get_set.
    + unfold Timestamp_date. destruct (Date.valid (ts_date t)); cbn [bind];
        [| discriminate].
      intros H. injection H as <-. cbn [other_expiry]. now rewrite dict_get_set.
  - intros H. injection H as <-. cbn [other_expiry]. now rewrite E.
Qed.

Lemma for_each_post {A B : Type} (body : A -> result B) (P : B -> bool)
      (xs : list A) (ys : list B) :
  (forall x y, body x = Return y -> P y = true) ->
  for_each body xs = Return ys -> forallb P ys = true.
Proof.
  intros Hbody. revert ys. induction xs as [| x xs IH]; intros ys; cbn [for_each].
  - intros H. injection H as <-. reflexivity.
  - destruct (body x) as [y |] eqn:Ey; cbn [bind]; [| discriminate].
    destruct (for_each body xs) as [ys' |]; cbn [bind]; [| discriminate].
    intros H. injection H as <-. cbn [forallb].
    now rewrite (Hbody x y Ey), (IH ys' eq_refl).
Qed.

Lemma for_each_length {A B : Type} (body : A -> result B)
      (xs : list A) (ys : list B) :
  for_each body xs = Return ys -> List.length ys = List.length xs.
Proof.
  revert ys. induction xs as [| x xs IH]; intros ys; cbn [for_each].
  - intros H. now injection H as <-.
  - destruct (body x) as [y |]; cbn [bind]; [| discriminate].
    destruct (for_each body xs) as [ys' |]; cbn [bind]; [| discriminate].
    intros H. injection H as <-. cbn [List.length]. now rewrite (IH ys' eq_refl).
Qed.

Lemma normalize_all_post (raw v : pyval) :
  normalize_all raw = Return v ->
  (exists items, v = PList items /\ forallb other_expiry items = true)
  \/ v = PDict [] \/ v = PStr EmptyString.
Proof.
  destruct raw as [| | | | s | | | | items | entries]; try discriminate;
    cbn [normalize_all].
  - destruct s; cbn [Str.is_empty]; [| discriminate].
    intros H. injection H as <-. now right; right.
  - destruct (for_each normalize_item items) as [items' |] eqn:E; cbn [bind];
      [| discriminate].
    intros H. injection H as <-. left. exists items'. split; [reflexivity |].
    apply (for_each_post normalize_item other_expiry items items'); [| exact E].
    intros x y. apply normalize_item_post.
  - destruct entries; [| discriminate].
    intros H. injection H as <-. now right; left.
Qed.

Lemma load_inventory_cases (f : file) (v : pyval) :
  load_inventory f = Return v ->
  v = PList []
  \/ exists bytes raw,
       f = Some bytes /\ bytes <> EmptyString /\ Utf8.valid bytes = true
       /\ json_loads bytes = Return raw /\ normalize_all raw = Return v.
Proof.
  destruct f as [bytes |]; cbn [load_inventory].
  - destruct bytes as [| c r].
    + intros H. injection H as <-. now left.
    + simpl (String.length _ =? 0)%nat. cbv iota. unfold read_text.
      destruct (Utf8.valid (String c r)) eqn:Hutf; cbn [bind]; [| discriminate].
      destruct (json_loads (String c r)) as [raw |] eqn:Hraw; cbn [bind];
        [| discriminate].
      intros H. right. exists (String c r), raw.
      repeat split; [discriminate | exact Hutf | exact Hraw | exact H].
  - intros H. injection H as <-. now left.
Qed.

(** X5: whatever the backing file holds, what [load_inventory] returns
    is a list of dictionaries none of which has a text or a [Timestamp]
    as expiry, or else the empty dictionary or the empty text (for a file
    that holds the JSON text of one of the two). *)
Theorem load_inventory_postcondition :
  forall (f : file) (v : pyval),
    load_inventory f = Return v ->
    (exists items, v = PList items /\ forallb other_expiry items = true)
    \/ v = PDict [] \/ v = PStr EmptyString.
Proof.
  intros f v H. destruct (load_inventory_cases f v H) as [-> | Hfile].
  - left. now exists [].
  - destruct Hfile as (bytes & raw & _ & _ & _ & _ & Hall).
    now apply normalize_all_post in Hall.
Qed.

(** X7: the loop of [load_inventory] changes nothing in what it has
    already gone through: run on its own result it returns that result. *)
Theorem normalize_all_idempotent :
  forall raw v : pyval,
    normalize_all raw = Return v -> normalize_all v = Return v.
Proof.
  intros raw v H.
  destruct (normalize_all_post raw v H) as [(items & -> & Hother) | [-> | ->]];
    try reflexivity.
  cbn [normalize_all]. rewrite for_each_identity; [reflexivity |].
  intros x Hx. apply normalize_item_other.
  rewrite forallb_forall in Hother. now apply Hother.
Qed.

Lemma dict_set_keys (key : string) (v v0 : pyval) (d : dict) :
  dict_get key d = Some v0 -> map fst (dict_set key v d) = map fst d.
Proof.
  induction d as [| [k x] rest IH]; cbn [dict_get dict_set]; [discriminate |].
  destruct (String.eqb k key); [reflexivity |].
  intros H. cbn [map fst]. now rewrite (IH H).
Qed.

Lemma dict_get_set_other (key key' : string) (v : pyval) (d : dict) :
  key' <> key -> dict_get key' (dict_set key v d) = dict_get key' d.
Proof.
  intros Hne. induction d as [| [k x] rest IH]; cbn [dict_get dict_set].
  - destruct (String.eqb key key') eqn:E; [| reflexivity].
    apply String.eqb_eq in E. congruence.
  - destruct (String.eqb k key) eqn:E; cbn [dict_get].
    + apply String.eqb_eq in E. subst k.
      destruct (String.eqb key key') eqn:E'; [| reflexivity].
      apply String.eqb_eq in E'. congruence.
    + now rewrite IH.
Qed.

(** The loop body touches the expiry alone, and only where there is
    one. *)
Lemma normalize_item_frame (item item' : pyval) :
  normalize_item item = Return item' ->
  exists d d',
    item = PDict d /\ item' = PDict d'
    /\ map fst d' = map fst d
    /\ forall key, key <> "expiry" -> dict_get key d' = dict_get key d.
Proof.
  destruct item as [| | | | | | | | | entries]; try discriminate.
  unfold normalize_item, parse_expiry. cbn [get bind setitem].
  assert (forall x v0, dict_get "expiry" entries = Some v0 ->
            exists d d' : dict,
              PDict entries = PDict d
              /\ PDict (dict_set "expiry" x entries) = PDict d'
              /\ map fst d' = map fst d
              /\ (forall key, key <> "expiry" -> dict_get key d' = dict_get key d))
    as Hset.
  { intros x v0 Hv0. exists entries, (dict_set "expiry" x entries).
    repeat split; [exact (dict_set_keys _ x v0 _ Hv0) |].
    intros key Hkey. now apply dict_get_set_other. }
  assert (exists d d' : dict,
             PDict entries = PDict d /\ PDict entries = PDict d'
             /\ map fst d' = map fst d
             /\ (forall key, key <> "expiry" -> dict_get key d' = dict_get key d))
    as Hsame by (exists entries, entries; repeat split).
  destruct (dict_get "expiry" entries) as [exp |] eqn:E.
  - destruct exp as [| b | z | x | s | d | t | | items | kvs];
      try (intros H; injection H as <-; exact Hsame).
    + destruct (Date.fromisoformat s) as [d |]; cbn [bind].
      * intros H. injection H as <-. now apply (Hset _ (PStr s)).
      * destruct (to_datetime s) as [[t |] | e]; cbn [bind date_of];
          unfold Timestamp_date; try destruct (Date.valid (ts_date t));
          cbn [bind]; try discriminate; intros H; injection H as <-;
          now apply (Hset _ (PStr s)).
    + unfold Timestamp_date. destruct (Date.valid (ts_date t)); cbn [bind];
        [| discriminate].
      intros H. injection H as <-. now apply (Hset _ (PTimestamp t)).
  - intros H. injection H as <-. exact Hsame.
Qed.

(** X6: loading keeps the number and the order of the records that the
    file holds, and in each record the keys, their order and every value
    but that of the expiry. *)
Theorem load_keeps_other_fields :
  forall (bytes : string) (items loaded : list pyval),
    json_loads bytes = Return (PList items) ->
    load_inventory (Some bytes) = Return (PList loaded) ->
    List.length loaded = List.length items
    /\ forall (i : nat) (item item' : pyval),
         nth_error items i = Some item ->
         nth_error loaded i = Some item' ->
         exists d d',
           item = PDict d /\ item' = PDict d'
           /\ map fst d' = map fst d
           /\ forall key, key <> "expiry" -> dict_get key d' = dict_get key d.
Proof.
  intros bytes items loaded Hraw Hload.
  destruct bytes as [| c r]; [discriminate Hraw |].
  unfold load_inventory in Hload.
  simpl (String.length _ =? 0)%nat in Hload. cbv iota in Hload.
  unfold read_text in Hload.
  destruct (Utf8.valid (String c r)); cbn [bind] in Hload; [| discriminate].
  rewrite Hraw in Hload. cbn [bind normalize_all] in Hload.
  destruct (for_each normalize_item items) as [ys |] eqn:E;
    cbn [bind] in Hload; [| discriminate].
  injection Hload as ->. split; [exact (for_each_length _ _ _ E) |].
  intros i item item' Hi Hi'.
  destruct (for_each_nth _ _ _ _ _ E Hi) as (y & Hy & Hbody).
  rewrite Hy in Hi'. injection Hi' as <-.
  now apply normalize_item_frame.
Qed.

(** *** What the decoder builds *)

Lemma existsb_key_set (key k0 : string) (v : pyval) (d : dict) :
  existsb (fun kv => String.eqb (fst kv) k0) (dict_set key v d)
  = existsb (fun kv => String.eqb (fst kv) k0) d || String.eqb key k0.
Proof.
  induction d as [| [k x] rest IH]; cbn [dict_set existsb fst].
  - now rewrite orb_false_r.
  - destruct (String.eqb k key) eqn:E; cbn [existsb fst].
    + apply String.eqb_eq in E. subst k.
      destruct (String.eqb key k0); [reflexivity | now rewrite orb_false_r].
    + rewrite IH. now rewrite orb_assoc.
Qed.

Lemma keys_unique_set (key : string) (v : pyval) (d : dict) :
  keys_unique d = true -> keys_unique (dict_set key v d) = true.
Proof.
  induction d as [| [k x] rest IH]; cbn [dict_set keys_unique]; [reflexivity |].
  intros H. apply andb_true_iff in H as [Hk Hrest].
  destruct (String.eqb k key) eqn:E; cbn [keys_unique].
  - now rewrite Hk, Hrest.
  - rewrite existsb_key_set, (IH Hrest), andb_true_r.
    apply negb_true_iff in Hk. rewrite Hk. cbn [orb].
    rewrite String.eqb_sym, E. reflexivity.
Qed.

Lemma forallb_set (P : string * pyval -> bool) (key : string) (v : pyval)
      (d : dict) :
  (forall k k', P (k, v) = P (k', v)) ->
  forallb P d = true -> P (key, v) = true -> forallb P (dict_set key v d) = true.
Proof.
  intros Hkey. induction d as [| [k x] rest IH]; cbn [dict_set forallb].
  - intros _ ->. reflexivity.
  - intros H Hv. apply andb_true_iff in H as [Hx Hrest].
    destruct (String.eqb k key); cbn [forallb].
    + now rewrite (Hkey k key), Hv, Hrest.
    + now rewrite Hx, (IH Hrest Hv).
Qed.

Lemma dict_of_pairs_plain (pairs : list (string * pyval)) :
  forallb (fun kv => plain_json (snd kv)) pairs = true ->
  plain_json (PDict (dict_of_pairs pairs)) = true.
Proof.
  unfold dict_of_pairs.
  assert (forall acc : dict,
             plain_json (PDict acc) = true ->
             forallb (fun kv => plain_json (snd kv)) pairs = true ->
             plain_json (PDict (fold_left
                                  (fun d kv => dict_set (fst kv) (snd kv) d)
                                  pairs acc)) = true) as H.
  { induction pairs as [| [k v] rest IH]; intros acc Hacc Hall;
      cbn [fold_left]; [exact Hacc |].
    cbn [forallb snd] in Hall. apply andb_true_iff in Hall as [Hv Hrest].
    apply IH; [| exact Hrest].
    cbn [plain_json] in Hacc |- *. apply andb_true_iff in Hacc as [Hu Hp].
    cbn [fst snd]. rewrite (keys_unique_set k v acc Hu). cbn [andb].
    apply forallb_set; [reflexivity | exact Hp | exact Hv]. }
  intros Hall. now apply H.
Qed.

Lemma scan_constant_plain (s r : string) (v : pyval) :
  scan_constant s = Return (v, r) -> plain_json v = true.
Proof.
  unfold scan_constant.
  repeat match goal with
         | |- context [if Str.starts ?p s then _ else _] =>
             destruct (Str.starts p s);
             [intros H; injection H as <- _; reflexivity |]
         end.
  destruct (scan_number s) as [[[text [|]] rest] |]; try discriminate.
  - intros H. injection H as <- _. reflexivity.
  - destruct (within_limit text); [| discriminate].
    intros H. injection H as <- _. reflexivity.
Qed.

Ltac split_match H :=
  match type of H with
  | context [match ?x with _ => _ end] => destruct x eqn:?; try discriminate H
  end.

(** The three readers build plain values only. *)
Lemma scan_plain (fuel : nat) :
  (forall s v r, scan_once fuel s = Return (v, r) -> plain_json v = true)
  /\ (forall s vs r, parse_elements fuel s = Return (vs, r) ->
                     forallb plain_json vs = true)
  /\ (forall s kvs r, parse_members fuel s = Return (kvs, r) ->
                      forallb (fun kv => plain_json (snd kv)) kvs = true).
Proof.
  induction fuel as [| fuel (IHv & IHe & IHm)];
    [repeat split; intros; discriminate |].
  repeat split.
  - intros s v r H. cbn [scan_once] in H.
    destruct s as [| c s']; [discriminate |].
    destruct (Ascii.eqb c Str.dquote).
    { split_match H. split_match H. injection H as <- _. reflexivity. }
    destruct (Ascii.eqb c "{").
    { split_match H. destruct (Ascii.eqb a "}").
      - injection H as <- _. reflexivity.
      - split_match H. split_match H. injection H as <- _.
        apply dict_of_pairs_plain. eapply IHm. eassumption. }
    destruct (Ascii.eqb c "[").
    { split_match H. destruct (Ascii.eqb a "]").
      - injection H as <- _. reflexivity.
      - split_match H. split_match H. injection H as <- _.
        cbn [plain_json]. eapply IHe. eassumption. }
    now apply scan_constant_plain in H.
  - intros s vs r H. cbn [parse_elements] in H.
    destruct (scan_once fuel s) as [[v r0] |] eqn:Ev; [| discriminate].
    split_match H. destruct (Ascii.eqb a "]").
    + injection H as <- _. cbn [forallb]. now rewrite (IHv _ _ _ Ev).
    + destruct (Ascii.eqb a ","); [| discriminate].
      split_match H. split_match H. injection H as <- _.
      cbn [forallb]. rewrite (IHv _ _ _ Ev). eapply IHe. eassumption.
  - intros s kvs r H. cbn [parse_members] in H.
    destruct s as [| q r0]; [discriminate |].
    destruct (Ascii.eqb q Str.dquote); [| discriminate].
    split_match H. split_match H. split_match H.
    destruct (Ascii.eqb a ":"); [| discriminate].
    destruct (scan_once fuel (skip_ws s1)) as [[v r2] |] eqn:Ev; [| discriminate].
    split_match H. destruct (Ascii.eqb a0 "}").
    + injection H as <- _. cbn [forallb snd]. now rewrite (IHv _ _ _ Ev).
    + destruct (Ascii.eqb a0 ","); [| discriminate].
      split_match H. split_match H. injection H as <- _.
      cbn [forallb snd]. rewrite (IHv _ _ _ Ev). eapply IHm. eassumption.
Qed.

Lemma dict_get_forallb (P : pyval -> bool) (key : string) (d : dict) (v : pyval) :
  forallb (fun kv => P (snd kv)) d = true -> dict_get key d = Some v ->
  P v = true.
Proof.
  induction d as [| [k x] rest IH]; cbn [forallb dict_get snd]; [discriminate |].
  intros H. apply andb_true_iff in H as [Hx Hrest].
  destruct (String.eqb k key); [intros E; now injection E as <- | now apply IH].
Qed.

(** X8: what [json.loads] returns holds [None], [bool], [int], [float],
    [str], [list] and [dict] values only, and no key twice in a [dict]; so
    no record that comes from the backing file has a [Timestamp], a
    [date] or [NaT] as expiry before the loop of [load_inventory] runs,
    and the [Timestamp] branch of that loop is never taken. *)
Theorem json_loads_plain :
  forall (text : string) (raw : pyval),
    json_loads text = Return raw ->
    plain_json raw = true
    /\ forall (items : list pyval) (d : dict) (t : Timestamp),
         raw = PList items -> In (PDict d) items ->
         dict_get "expiry" d <> Some (PTimestamp t).
Proof.
  intros text raw H. unfold json_loads in H.
  destruct (scan_once _ _) as [[v r] |] eqn:E; [| discriminate].
  destruct (Str.is_empty (skip_ws r)); [| discriminate].
  injection H as <-.
  pose proof (proj1 (scan_plain _) _ _ _ E) as Hplain.
  split; [exact Hplain |].
  intros items d t -> Hin Hget.
  cbn [plain_json] in Hplain. rewrite forallb_forall in Hplain.
  specialize (Hplain _ Hin). cbn [plain_json] in Hplain.
  apply andb_true_iff in Hplain as [_ Hd].
  pose proof (dict_get_forallb plain_json _ _ _ Hd Hget) as Hexp.
  discriminate Hexp.
Qed.

(** *** Saving *)

(** X1: saving is idempotent, and a save that succeeds overwrites: the
    file it leaves depends on the inventory alone, so saving the same
    inventory again, or over another file, leaves the same bytes. *)
Theorem save_inventory_idempotent :
  forall (inv : pyval) (f : file),
    save_inventory inv (fst (save_inventory inv f)) = save_inventory inv f
    /\ forall f' : file,
         snd (save_inventory inv f) = Return tt ->
         save_inventory inv f' = save_inventory inv f.
Proof.
  intros inv f. unfold save_inventory, write_text.
  destruct (json_dumps inv) as [text | e]; cbn [fst snd].
  - destruct (Utf8.valid text); cbn [fst snd]; split; try reflexivity;
      intros; reflexivity.
  - split; [reflexivity | discriminate].
Qed.



Lemma escape_verbatim (s : string) : verbatim s = true -> escape s = s.
Proof.
  unfold verbatim. induction s as [| c s IH]; [reflexivity |].
  cbn [Str.all_chars escape]. intros H. apply andb_true_iff in H as [Hc Hs].
  rewrite (IH Hs). apply negb_true_iff in Hc.
  apply orb_false_iff in Hc as [Hc Hlow]. apply orb_false_iff in Hc as [Hq Hb].
  unfold escape_char. rewrite Hq, Hb.
  assert (forall n, (n <? 32)%N = true -> (Str.code c =? n)%N = false) as Hn.
  { intros n Hlt. apply N.eqb_neq. intros E. rewrite E in Hlow. congruence. }
  rewrite !Hn by reflexivity. rewrite Hlow. reflexivity.
Qed.

Lemma iterencode_written (v : pyval) (shown : string) (level : nat) :
  written v = Some shown -> iterencode level v = shown.
Proof.
  destruct v as [| | | | s | day | | | |]; try discriminate; cbn [written].
  - destruct (verbatim s) eqn:E; [| discriminate]. intros H. injection H as <-.
    cbn [iterencode]. unfold encode_basestring, in_quotes.
    now rewrite (escape_verbatim s E).
  - intros H. injection H as <-. cbn [iterencode py_text].
    unfold encode_basestring, in_quotes. rewrite escape_verbatim; [reflexivity |].
    unfold verbatim, Date.isoformat.
    rewrite !all_chars_append.
    assert (forall w n, Str.all_chars
                          (fun c => negb (Ascii.eqb c Str.dquote
                                          || Ascii.eqb c Str.backslash
                                          || (Str.code c <? 32)%N))
                          (Date.zero_padded w n) = true) as Hpad.
    { induction w as [| w IH]; intros n; cbn [Date.zero_padded]; [reflexivity |].
      rewrite all_chars_append, IH. cbn [Str.all_chars andb].
      rewrite andb_true_r.
      assert (0 <= n mod 10 < 10) as Hd by (apply Z.mod_pos_bound; lia).
      destruct (digit_char_is_digit _ Hd) as [Hdig _].
      unfold Str.is_digit in Hdig. apply andb_true_iff in Hdig as [Hlo Hhi].
      apply N.leb_le in Hlo, Hhi. apply negb_true_iff.
      apply orb_false_iff. split; [apply orb_false_iff; split |].
      - apply Ascii.eqb_neq. intros E. rewrite E in Hlo.
        change (Str.code Str.dquote) with 34%N in Hlo. lia.
      - apply Ascii.eqb_neq. intros E. rewrite E in Hhi.
        change (Str.code Str.backslash) with 92%N in Hhi. lia.
      - apply N.ltb_ge. lia. }
    rewrite !Hpad. reflexivity.
Qed.

Lemma occurs_trans (a b c : string) :
  Str.occurs a b -> Str.occurs b c -> Str.occurs a c.
Proof.
  intros (l1 & r1 & ->) (l2 & r2 & ->).
  exists (l2 ++ l1), (r1 ++ r2). now rewrite !append_assoc.
Qed.

Lemma occurs_self (a : string) : Str.occurs a a.
Proof. exists EmptyString, EmptyString. now rewrite append_nil_r. Qed.

Lemma occurs_in_join (sep p : string) (parts : list string) :
  In p parts -> Str.occurs p (Str.join sep parts).
Proof.
  induction parts as [| q rest IH]; [intros [] |].
  intros [-> | Hin].
  - destruct rest; cbn [Str.join]; [apply occurs_self |].
    apply occurs_append_l, occurs_self.
  - destruct rest as [| q' rest']; [destruct Hin |].
    change (Str.join sep (q :: q' :: rest'))
      with (q ++ sep ++ Str.join sep (q' :: rest')).
    apply occurs_append_r, occurs_append_r. now apply IH.
Qed.

Lemma occurs_item (level : nat) (items : list pyval) (x : pyval) :
  In x items ->
  Str.occurs (iterencode (S level) x) (iterencode level (PList items)).
Proof.
  intros Hin. destruct items as [| y ys]; [destruct Hin |].
  change (iterencode level (PList (y :: ys)))
    with ("[" ++ newline_indent (S level)
          ++ Str.join ("," ++ newline_indent (S level))
                      (map (iterencode (S level)) (y :: ys))
          ++ newline_indent level ++ "]").
  apply occurs_append_r, occurs_append_r, occurs_append_l.
  apply occurs_in_join. now apply in_map.
Qed.

Lemma occurs_entry (level : nat) (d : dict) (kv : string * pyval) :
  In kv d ->
  Str.occurs (encode_entry level kv) (iterencode level (PDict d)).
Proof.
  intros Hin. destruct d as [| y ys]; [destruct Hin |].
  change (iterencode level (PDict (y :: ys)))
    with ("{" ++ newline_indent (S level)
          ++ Str.join ("," ++ newline_indent (S level))
                      (map (encode_entry level) (y :: ys))
          ++ newline_indent level ++ "}").
  apply occurs_append_r, occurs_append_r, occurs_append_l.
  apply occurs_in_join. now apply in_map.
Qed.

(** What a save that succeeded wrote. *)
Lemma save_inventory_text (inv : pyval) (f : file) (text : string) :
  save_inventory inv f = (Some text, Return tt) -> text = iterencode 0 inv.
Proof.
  unfold save_inventory, json_dumps, write_text.
  destruct (convertible inv); [| discriminate].
  destruct (Utf8.valid (iterencode 0 inv)); [| discriminate].
  intros H. now injection H as <-.
Qed.

(** X3: the file that a save wrote shows the texts and the dates of the
    records as they are: for a field whose key and text hold no quote,
    backslash or control character it holds the key and the text between
    quotes byte for byte, whatever the alphabet, and for a date the text
    [YYYY-MM-DD] between quotes. *)
Theorem saved_file_shows_fields :
  forall (items : list pyval) (f : file) (text : string)
         (d : dict) (k : string) (v : pyval) (shown : string),
    save_inventory (PList items) f = (Some text, Return tt) ->
    In (PDict d) items ->
    In (k, v) d ->
    verbatim k = true ->
    written v = Some shown ->
    Str.occurs (in_quotes k ++ ": " ++ shown) text.
Proof.
  intros items f text d k v shown Hsave Hitem Hfield Hk Hv.
  rewrite (save_inventory_text _ _ _ Hsave).
  apply (occurs_trans _ (iterencode 1 (PDict d))); [| now apply occurs_item].
  apply (occurs_trans _ (encode_entry 1 (k, v))); [| now apply occurs_entry].
  unfold encode_entry. cbn [fst snd].
  rewrite (iterencode_written v shown 2 Hv).
  unfold encode_basestring, in_quotes. rewrite (escape_verbatim k Hk).
  apply occurs_self.
Qed.

(** *** Saving and loading records with fields of any name *)

(** Saving and loading, from what the two do record by record. *)
Lemma round_trip_by_records (items : list pyval) (f : file) :
  (forall r, In r items ->
             json_native (stored_record r) = true
             /\ normalize_item (stored_record r) = Return r) ->
  save_inventory (PList items) f
  = (Some (iterencode 0 (PList items)), Return tt)
  /\ load_inventory (Some (iterencode 0 (PList items))) = Return (PList items).
Proof.
  intros Hrec.
  assert (json_native (PList (map stored_record items)) = true) as Hnative.
  { cbn [json_native]. apply forallb_forall. intros r Hr.
    apply in_map_iff in Hr as (x & <- & Hx). now apply Hrec. }
  assert (Utf8.valid (iterencode 0 (PList items)) = true) as Hutf.
  { rewrite <- iterencode_stored. now apply valid_iterencode. }
  split.
  - unfold save_inventory, json_dumps, write_text.
    now rewrite <- convertible_stored, (native_convertible _ Hnative), Hutf.
  - rewrite (load_inventory_decoded _ (PList (map stored_record items))).
    + cbn [normalize_all].
      assert (for_each normalize_item (map stored_record items) = Return items)
        as Hloop.
      { clear Hnative Hutf. induction items as [| x xs IH]; [reflexivity |].
        cbn [map for_each].
        rewrite (proj2 (Hrec x (or_introl eq_refl))). cbn [bind].
        rewrite IH by (intros y Hy; apply Hrec; now right). reflexivity. }
      now rewrite Hloop.
    + destruct (iterencode_head (PList items) 0) as (c & r & E & _).
      rewrite E. discriminate.
    + exact Hutf.
    + rewrite <- iterencode_stored. now apply json_loads_dumps.
Qed.

Lemma native_stored_value (v : pyval) :
  json_native v = true -> stored_value v = v.
Proof. destruct v; try reflexivity; discriminate. Qed.

(** A field that is saved comes back as what [stored_value] says, and
    that is the field itself unless it is a date. *)
Lemma field_storable_cases (k : string) (v : pyval) :
  field_storable (k, v) = true ->
  Utf8.valid k = true
  /\ json_native (stored_value v) = true
  /\ (String.eqb k "expiry" = false -> stored_value v = v)
  /\ (String.eqb k "expiry" = true ->
      (exists day, v = PDate day /\ Date.valid day = true)
      \/ (stored_value v = v /\ other_expiry (PDict [(k, v)]) = true)).
Proof.
  unfold field_storable. cbn [fst snd]. intros H.
  apply andb_true_iff in H as [Hk H]. split; [exact Hk |].
  destruct (String.eqb k "expiry") eqn:E.
  - destruct v as [| b | z | x | s | day | t | | items | kvs];
      try discriminate H;
      try (split; [exact H | split; [discriminate |]];
           intros _; right; split; [reflexivity |];
           cbn [other_expiry dict_get]; now rewrite E).
    split; [| split; [discriminate | intros _; left; now exists day]].
    cbn [stored_value json_native]. apply valid_ascii, isoformat_ascii.
  - rewrite (native_stored_value v H).
    split; [exact H | split; [reflexivity | discriminate]].
Qed.

Lemma dict_get_absent (key : string) (d : dict) :
  existsb (fun kv => String.eqb (fst kv) key) d = false -> dict_get key d = None.
Proof.
  induction d as [| [k v] rest IH]; cbn [existsb dict_get fst]; [reflexivity |].
  intros H. apply orb_false_iff in H as [-> H]. now apply IH.
Qed.

Lemma stored_fields_without_expiry (d : dict) :
  forallb field_storable d = true ->
  existsb (fun kv => String.eqb (fst kv) "expiry") d = false ->
  map store_entry d = d.
Proof.
  induction d as [| [k v] rest IH]; intros Hf He; [reflexivity |].
  cbn [forallb] in Hf. apply andb_true_iff in Hf as [Hkv Hf].
  cbn [existsb fst] in He. apply orb_false_iff in He as [Hk He].
  destruct (field_storable_cases k v Hkv) as (_ & _ & Hsame & _).
  change (map store_entry ((k, v) :: rest))
    with ((k, stored_value v) :: map store_entry rest).
  now rewrite (Hsame Hk), (IH Hf He).
Qed.

Lemma normalize_stored_fields (d : dict) :
  keys_unique d = true -> forallb field_storable d = true ->
  normalize_item (PDict (map store_entry d)) = Return (PDict d).
Proof.
  induction d as [| [k v] rest IH]; intros Hu Hf; [reflexivity |].
  cbn [keys_unique] in Hu. apply andb_true_iff in Hu as [Hfresh Hu].
  apply negb_true_iff in Hfresh.
  cbn [forallb] in Hf. apply andb_true_iff in Hf as [Hkv Hf].
  destruct (field_storable_cases k v Hkv) as (_ & _ & Hsame & Hexp).
  change (map store_entry ((k, v) :: rest))
    with ((k, stored_value v) :: map store_entry rest).
  destruct (String.eqb k "expiry") eqn:E.
  - apply String.eqb_eq in E. subst k.
    rewrite (stored_fields_without_expiry rest Hf Hfresh).
    destruct (Hexp eq_refl) as [(day & -> & Hday) | [Hv Hother]].
    + unfold normalize_item, parse_expiry. cbn [get dict_get bind stored_value].
      rewrite String.eqb_refl, (fromisoformat_isoformat day Hday).
      cbn [bind setitem dict_set]. now rewrite String.eqb_refl.
    + rewrite Hv. apply normalize_item_other.
      cbn [other_expiry dict_get] in Hother |- *.
      now rewrite String.eqb_refl in Hother |- *.
  - rewrite (Hsame eq_refl).
    specialize (IH Hu Hf). unfold normalize_item in IH |- *.
    cbn [get dict_get bind] in IH |- *. rewrite E.
    destruct (dict_get "expiry" (map store_entry rest)) as [exp |];
      [| injection IH as ->; reflexivity].
    destruct exp as [| b | z | x | s | day | t | | items | kvs];
      try (injection IH as ->; reflexivity).
    + destruct (parse_expiry s) as [day |]; cbn [bind setitem] in IH |- *;
        [| discriminate].
      injection IH as IH. cbn [dict_set]. now rewrite E, IH.
    + destruct (Timestamp_date t) as [day |]; cbn [bind setitem] in IH |- *;
        [| discriminate].
      injection IH as IH. cbn [dict_set]. now rewrite E, IH.
Qed.

Lemma storable_record_stored (r : pyval) :
  storable_record r = true ->
  json_native (stored_record r) = true
  /\ normalize_item (stored_record r) = Return r.
Proof.
  destruct r as [| | | | | | | | | d]; try discriminate.
  cbn [storable_record]. intros H. apply andb_true_iff in H as [Hu Hf].
  change (stored_record (PDict d)) with (PDict (map store_entry d)).
  split; [| now apply normalize_stored_fields].
  cbn [json_native]. rewrite keys_unique_stored, Hu. cbn [andb].
  rewrite forallb_forall in Hf |- *. intros kv Hin.
  apply in_map_iff in Hin as ([k v] & <- & Hin).
  destruct (field_storable_cases k v (Hf _ Hin)) as (Hk & Hv & _).
  cbn [store_entry fst snd]. now rewrite Hk, Hv.
Qed.

(** X9: saving and loading returns the inventory that was saved for
    records with fields of any name and number, as long as the values are
    ones that JSON has a form for, with well-formed text and distinct
    keys; the expiry, where there is one, may be a date and must not be
    text. *)
Theorem load_save_storable :
  forall (items : list pyval) (f : file),
    forallb storable_record items = true ->
    snd (save_inventory (PList items) f) = Return tt
    /\ load_inventory (fst (save_inventory (PList items) f))
       = Return (PList items).
Proof.
  intros items f Hall. rewrite forallb_forall in Hall.
  destruct (round_trip_by_records items f) as [Hsave Hload].
  { intros r Hr. now apply storable_record_stored, Hall. }
  rewrite Hsave. cbn [fst snd]. split; [reflexivity | exact Hload].
Qed.

(** *** The add form *)

Lemma space2_not_space1 (b1 b2 : ascii) :
  Str.space2 b1 b2 = true -> Str.space1 b1 = false.
Proof.
  unfold Str.space2, Str.space1, Str.in_range. intros H.
  apply andb_true_iff in H as [H _]. apply N.eqb_eq in H. rewrite H. reflexivity.
Qed.

Lemma space3_not_shorter (b1 b2 b3 : ascii) :
  Str.space3 b1 b2 b3 = true ->
  Str.space1 b1 = false /\ Str.space2 b1 b2 = false.
Proof.
  unfold Str.space3, Str.space2, Str.space1, Str.in_range. intros H.
  assert (Str.code b1 = 225 \/ Str.code b1 = 226 \/ Str.code b1 = 227)%N as Hb.
  { repeat (apply orb_true_iff in H as [H | H]);
      repeat (apply andb_true_iff in H as [H ?]);
      apply N.eqb_eq in H; auto. }
  destruct Hb as [-> | [-> | ->]]; split; reflexivity.
Qed.

Lemma lstrip_blank (s : string) : blank s -> Str.lstrip s = EmptyString.
Proof.
  induction 1 as [| b1 r H1 _ IH | b1 b2 r H2 _ IH | b1 b2 b3 r H3 _ IH].
  - reflexivity.
  - cbn [Str.lstrip]. now rewrite H1.
  - cbn [Str.lstrip]. now rewrite (space2_not_space1 _ _ H2), H2.
  - destruct (space3_not_shorter _ _ _ H3) as [E1 E2].
    cbn [Str.lstrip]. now rewrite E1, E2, H3.
Qed.

Lemma strip_blank (s : string) : blank s -> Str.strip s = EmptyString.
Proof. intros H. unfold Str.strip. now rewrite (lstrip_blank s H). Qed.

(** X12: every name that is not empty and is made of white space alone
    (blanks, tabs, line ends, no-break and ideographic spaces, ...) passes
    the test of the form: the record is appended, with the empty text as
    its name. *)
Theorem add_ingredient_blank_names :
  forall (form : add_form) (items : list pyval) (key : option string) (f : file),
    submitted form = true ->
    form_name form <> EmptyString ->
    blank (form_name form) ->
    inventory (fst (add_ingredient form (mkworld (PList items) key f)))
    = PList (items ++ [PDict [ ("name", PStr EmptyString);
                               ("quantity", PFloat (Finite (form_qty form)));
                               ("unit", PStr (form_unit form));
                               ("expiry", PDate (form_expiry form));
                               ("category", PStr (form_category form)) ]]).
Proof.
  intros form items key f Hsub Hne Hblank.
  unfold add_ingredient. rewrite Hsub.
  destruct (form_name form) as [| c r] eqn:E; [congruence |].
  cbn [Str.is_empty negb andb inventory data_file].
  destruct (save_inventory _ f) as [f' saved]. cbn [fst inventory].
  unfold new_record. now rewrite E, (strip_blank _ Hblank).
Qed.

(** X10: a form that is submitted with a name appends exactly one
    record, at the end, and keeps the key.  The record is in the session
    before the save: when the save succeeds the file holds the new
    inventory and the script reruns; when it raises, the session holds a
    record that the file does not, the file being left as it was or
    empty. *)
Theorem add_ingredient_accepted :
  forall (form : add_form) (w : world) (items : list pyval),
    submitted form = true ->
    form_name form <> EmptyString ->
    inventory w = PList items ->
    let after := add_ingredient form w in
    let inv := PList (items ++ [new_record form]) in
    inventory (fst after) = inv
    /\ api_key (fst after) = api_key w
    /\ ((snd after = Return Rerun
         /\ data_file (fst after) = Some (iterencode 0 inv))
        \/ (exists e, snd after = Raise e
                      /\ (data_file (fst after) = data_file w
                          \/ data_file (fst after) = Some EmptyString))).
Proof.
  intros form w items Hsub Hne Hinv after inv. subst after inv.
  unfold add_ingredient. rewrite Hsub, Hinv.
  destruct (form_name form) as [| c r] eqn:E; [congruence |].
  cbn [Str.is_empty negb andb].
  unfold save_inventory, json_dumps, write_text.
  destruct (convertible _).
  - destruct (Utf8.valid _); cbn [fst snd inventory api_key data_file bind].
    + repeat split. left. now split.
    + repeat split. right. eexists. split; [reflexivity | now right].
  - cbn [fst snd inventory api_key data_file bind].
    repeat split. right. eexists. split; [reflexivity | now left].
Qed.

(** X11: a name, a unit and a category of well-formed text and a real
    date, added to an inventory whose records come back from the file as
    they are saved, give a file from which a session that starts anew
    loads exactly the inventory of the running session. *)
Theorem add_then_new_session :
  forall (form : add_form) (w : world) (items : list pyval),
    inventory w = PList items ->
    forallb storable_record items = true ->
    submitted form = true ->
    form_name form <> EmptyString ->
    Utf8.valid (Str.strip (form_name form)) = true ->
    Utf8.valid (form_unit form) = true ->
    Utf8.valid (form_category form) = true ->
    Date.valid (form_expiry form) = true ->
    let after := add_ingredient form w in
    snd after = Return Rerun
    /\ inventory (fst after) = PList (items ++ [new_record form])
    /\ new_session (data_file (fst after))
       = Return (mkworld (inventory (fst after)) None (data_file (fst after))).
Proof.
  intros form w items Hinv Hall Hsub Hne Hname Hunit Hcat Hday after.
  subst after.
  assert (storable_record (new_record form) = true) as Hnew.
  { unfold new_record, storable_record, field_storable.
    cbn [keys_unique existsb forallb fst snd String.eqb Ascii.eqb Bool.eqb
         negb orb andb json_native].
    now rewrite Hname, Hunit, Hcat, Hday. }
  unfold add_ingredient. rewrite Hsub, Hinv.
  destruct (form_name form) as [| c r] eqn:E; [congruence |].
  cbn [Str.is_empty negb andb].
  destruct (round_trip_by_records (items ++ [new_record form]) (data_file w))
    as [Hsave Hload].
  { intros x Hx. apply storable_record_stored.
    apply in_app_or in Hx as [Hx | [<- | []]]; [| exact Hnew].
    rewrite forallb_forall in Hall. now apply Hall. }
  rewrite Hsave. cbn [fst snd bind inventory data_file].
  repeat split. unfold new_session. now rewrite Hload.
Qed.

(** *** The key and the click *)

(** X13: [ensure_key] takes the environment variable as the key when it
    is not empty, and then does not read the secrets.  Otherwise it reads
    them: when that raises (the app has no secrets file), [ensure_key]
    raises the same exception and leaves the session as it was; when they
    can be read, the key is the first text that is not empty among the
    secret, the secret of the section [api] and what was typed, in this
    order.  The key is stored in the session and nothing else is touched;
    the script is stopped exactly when there is no such text, the session
    left as it was. *)
Theorem ensure_key_first_nonempty :
  forall (getenv : option string) (secrets : result secrets_file)
         (typed : string) (w : world),
    ensure_key getenv secrets typed w
    = match first_nonempty [getenv], secrets with
      | Some key, _ =>
          (mkworld (inventory w) (Some key) (data_file w), Return Continue)
      | None, Raise e => (w, Raise e)
      | None, Return s =>
          match first_nonempty [secret_key s; api_secret s; Some typed] with
          | Some key =>
              (mkworld (inventory w) (Some key) (data_file w), Return Continue)
          | None => (w, Return Stop)
          end
      end.
Proof.
  intros getenv secrets typed w.
  unfold ensure_key, load_api_key, or_else, truthy.
  destruct getenv as [[| c1 r1] |]; cbn [first_nonempty]; try reflexivity;
    (destruct secrets as [s | e]; cbn [bind]; [| reflexivity]);
    destruct (secret_key s) as [[| c2 r2] |];
    destruct (api_secret s) as [[| c3 r3] |]; destruct typed as [| c4 r4];
    reflexivity.
Qed.

Lemma ensure_key_continue (getenv : option string)
      (secrets : result secrets_file) (typed : string) (w w' : world) :
  ensure_key getenv secrets typed w = (w', Return Continue) ->
  exists key, key <> EmptyString /\ api_key w' = Some key
              /\ inventory w' = inventory w /\ data_file w' = data_file w.
Proof.
  unfold ensure_key.
  destruct (load_api_key getenv secrets) as [loaded | e]; [| discriminate].
  destruct (truthy loaded) eqn:E1.
  - rewrite E1. intros H. injection H as <-.
    destruct loaded as [[| c r] |]; try discriminate.
    exists (String c r). repeat split. discriminate.
  - destruct (truthy (Some typed)) eqn:E2; [| discriminate].
    intros H. injection H as <-.
    destruct typed as [| c r]; [discriminate |].
    exists (String c r). repeat split. discriminate.
Qed.

(** The form, when it lets the run go on, has changed nothing. *)
Lemma add_ingredient_continue (form : add_form) (w w' : world) :
  add_ingredient form w = (w', Return Continue) -> w' = w.
Proof.
  unfold add_ingredient.
  destruct (submitted form && negb (Str.is_empty (form_name form))).
  - destruct (inventory w); try discriminate.
    destruct (save_inventory _ (data_file w)) as [f [[] | e]]; discriminate.
  - intros H. now injection H as <-.
Qed.

(** The pass over the rows of the editor keeps the key of the session. *)
Lemma reconcile_keeps_key (rows : list pyval) (w w' : world) (r : result unit) :
  reconcile rows w = (w', r) -> api_key w' = api_key w.
Proof.
  unfold reconcile. destruct (for_each normalize_row rows) as [updated | e].
  - destruct (save_inventory _ (data_file w)) as [f saved].
    intros H. now injection H as <- _.
  - intros H. now injection H as <- _.
Qed.

(** X14: in a run of the script the key that the click on the button
    uses is the one that [ensure_key] stored at the start of this same
    run.  When [ensure_key] lets the run go on, the form adds nothing and
    the pass over the rows of the editor ends, a click never fails for
    want of a key: if the prompt can be built the request is made with
    that key, which is not empty, the click ends with the answer or with
    an error message, and the session is left as the editor's pass left
    it. *)
Theorem generate_after_ensure_key :
  forall (getenv : option string) (secrets : result secrets_file)
         (typed : string) (form : add_form) (rows : list pyval)
         (w w1 w2 w3 : world) (days : Z) (strict : bool) (text : string),
    ensure_key getenv secrets typed w = (w1, Return Continue) ->
    add_ingredient form w1 = (w2, Return Continue) ->
    reconcile rows w2 = (w3, Return tt) ->
    build_prompt (inventory w3) days strict = Return text ->
    exists key,
      api_key w1 = Some key /\ key <> EmptyString
      /\ generate getenv days strict w3
         = (w3, Return (request_plan key text)).
Proof.
  intros getenv secrets typed form rows w w1 w2 w3 days strict text
         Hkey Hadd Hrows Htext.
  destruct (ensure_key_continue _ _ _ _ _ Hkey) as (key & Hne & Hk & _ & _).
  apply add_ingredient_continue in Hadd. subst w2.
  apply reconcile_keeps_key in Hrows.
  exists key. split; [exact Hk | split; [exact Hne |]].
  unfold generate, client_key. now rewrite Htext, Hrows, Hk.
Qed.

(** *** Building the prompt *)

Ltac pick_key := cbn [In]; repeat (first [left; reflexivity | right]).

Lemma item_line_missing (d : dict) (earlier later : list string) (key : string) :
  ["name"; "quantity"; "unit"; "category"; "expiry"]
  = (earlier ++ key :: later)%list ->
  (forall k, In k earlier ->
             exists v, dict_get k d = Some v /\ convertible v = true) ->
  dict_get key d = None ->
  item_line (PDict d) = Raise (KeyError key).
Proof.
  intros Hsplit Hearlier Hkey.
  assert (forall k, In k earlier ->
            bind (subscript (PDict d) k) py_str
            = match dict_get k d with
              | Some v => Return (py_text v)
              | None => Raise (KeyError k)
              end) as Hread.
  { intros k Hk. destruct (Hearlier k Hk) as (v & Hv & Hc).
    cbn [subscript]. rewrite Hv. cbn [bind]. unfold py_str. now rewrite Hc. }
  assert (bind (subscript (PDict d) key) py_str = Raise (KeyError key)) as Hmiss.
  { cbn [subscript]. now rewrite Hkey. }
  unfold item_line.
  destruct earlier as [| k1 [| k2 [| k3 [| k4 [| k5 rest]]]]];
    cbn [app] in Hsplit; inversion Hsplit; subst.
  - now rewrite Hmiss.
  - rewrite (Hread _ (or_introl eq_refl)).
    destruct (Hearlier _ (or_introl eq_refl)) as (v1 & -> & _). cbn [bind].
    now rewrite Hmiss.
  - rewrite (Hread "name") by pick_key.
    destruct (Hearlier "name") as (v1 & -> & _); [pick_key |]. cbn [bind].
    rewrite (Hread "quantity") by pick_key.
    destruct (Hearlier "quantity") as (v2 & -> & _); [pick_key |]. cbn [bind].
    now rewrite Hmiss.
  - rewrite (Hread "name") by pick_key.
    destruct (Hearlier "name") as (v1 & -> & _); [pick_key |]. cbn [bind].
    rewrite (Hread "quantity") by pick_key.
    destruct (Hearlier "quantity") as (v2 & -> & _); [pick_key |]. cbn [bind].
    rewrite (Hread "unit") by pick_key.
    destruct (Hearlier "unit") as (v3 & -> & _); [pick_key |]. cbn [bind].
    now rewrite Hmiss.
  - rewrite (Hread "name") by pick_key.
    destruct (Hearlier "name") as (v1 & -> & _); [pick_key |]. cbn [bind].
    rewrite (Hread "quantity") by pick_key.
    destruct (Hearlier "quantity") as (v2 & -> & _); [pick_key |]. cbn [bind].
    rewrite (Hread "unit") by pick_key.
    destruct (Hearlier "unit") as (v3 & -> & _); [pick_key |]. cbn [bind].
    rewrite (Hread "category") by pick_key.
    destruct (Hearlier "category") as (v4 & -> & _); [pick_key |]. cbn [bind].
    now rewrite Hmiss.
  - destruct rest; discriminate.
Qed.

Lemma dict_get_in (key : string) (d : dict) (v : pyval) :
  dict_get key d = Some v -> In (key, v) d.
Proof.
  induction d as [| [k x] rest IH]; cbn [dict_get]; [discriminate |].
  destruct (String.eqb k key) eqn:E.
  - apply String.eqb_eq in E. subst k. intros H. injection H as <-. now left.
  - intros H. right. now apply IH.
Qed.

Lemma days_within_limit (days : Z) :
  1 <= days <= 14 -> within_limit (int_str days) = true.
Proof.
  intros H.
  assert (days = 1 \/ days = 2 \/ days = 3 \/ days = 4 \/ days = 5 \/ days = 6
          \/ days = 7 \/ days = 8 \/ days = 9 \/ days = 10 \/ days = 11
          \/ days = 12 \/ days = 13 \/ days = 14) as Hc by lia.
  repeat (destruct Hc as [-> | Hc]; [reflexivity |]). now subst.
Qed.

(** The five fields of a valid record, as texts. *)
Lemma valid_record_fields (r : pyval) :
  valid_record r = true ->
  listable r = true
  /\ forall line, rendered r line -> Utf8.valid line = true.
Proof.
  destruct r as [| | | | | | | | | d]; try discriminate.
  cbn [valid_record]. intros H.
  apply andb_true_iff in H as [H Hhas]. apply andb_true_iff in H as [_ Hok].
  rewrite forallb_forall in Hok.
  cbn [has_fields forallb] in Hhas.
  destruct (dict_get "name" d) as [n |] eqn:En; [| discriminate].
  destruct (dict_get "quantity" d) as [q |] eqn:Eq; [| discriminate].
  destruct (dict_get "unit" d) as [u |] eqn:Eu; [| discriminate].
  destruct (dict_get "category" d) as [c |] eqn:Ec; [| discriminate].
  destruct (dict_get "expiry" d) as [e |] eqn:Ee; [| discriminate].
  pose proof (Hok _ (dict_get_in _ _ _ En)) as Hn.
  pose proof (Hok _ (dict_get_in _ _ _ Eq)) as Hq.
  pose proof (Hok _ (dict_get_in _ _ _ Eu)) as Hu.
  pose proof (Hok _ (dict_get_in _ _ _ Ec)) as Hc.
  pose proof (Hok _ (dict_get_in _ _ _ Ee)) as He.
  cbn [field_ok String.eqb Ascii.eqb Bool.eqb] in Hn, Hq, Hu, Hc, He.
  destruct n as [| | | | n | | | | |]; try discriminate Hn.
  destruct u as [| | | | u | | | | |]; try discriminate Hu.
  destruct c as [| | | | c | | | | |]; try discriminate Hc.
  destruct e as [| | | | | day | | | |]; try discriminate He.
  apply andb_true_iff in Hn as [_ Hn].
  assert (convertible q = true /\ Utf8.valid (py_text q) = true) as [Hq1 Hq2].
  { destruct q as [| | z | [x | | |] | | | | | |]; try discriminate Hq.
    - split; [exact Hq |]. apply valid_ascii, int_str_ascii.
    - split; [reflexivity |]. apply valid_ascii.
      apply (scan_number_ascii _ _ _ _ (float_repr_number x)). }
  split.
  - cbn [listable forallb]. rewrite En, Eq, Eu, Ec, Ee. cbn [convertible].
    now rewrite Hq1.
  - intros line (n' & q' & u' & c' & e' & H1 & H2 & H3 & H4 & H5 & ->).
    cbn [subscript] in H1, H2, H3, H4, H5.
    rewrite En in H1. rewrite Eq in H2. rewrite Eu in H3. rewrite Ec in H4.
    rewrite Ee in H5.
    injection H1 as <-. injection H2 as <-. injection H3 as <-.
    injection H4 as <-. injection H5 as <-. cbn [py_text].
    apply valid_append; [reflexivity |].
    apply valid_append; [exact Hn |].
    apply valid_append; [reflexivity |].
    apply valid_append; [exact Hq2 |].
    apply valid_append; [apply (member_valid u UNITS Hu); reflexivity |].
    apply valid_append; [reflexivity |].
    apply valid_append; [apply (member_valid c CATEGORIES Hc); reflexivity |].
    apply valid_append; [reflexivity |].
    apply valid_append; [apply valid_ascii, isoformat_ascii | reflexivity].
Qed.

Lemma valid_prompt (days : Z) (strict : bool) (listing : string) :
  Utf8.valid listing = true -> Utf8.valid (prompt days strict listing) = true.
Proof.
  intros H. unfold prompt.
  apply valid_append; [reflexivity |].
  apply valid_append; [apply valid_ascii, int_str_ascii |].
  apply valid_append; [reflexivity |].
  apply valid_append; [destruct strict; reflexivity |].
  apply valid_append; [reflexivity | exact H].
Qed.

(** X16: for an inventory of valid records and a number of days that the
    page offers (1 to 14), the prompt is always built: no field is missing
    and none fails to render; it is well-formed text, and its listing has
    one piece per record. *)
Theorem build_prompt_valid_inventory :
  forall (items : list pyval) (days : Z) (strict : bool),
    forallb valid_record items = true ->
    1 <= days <= 14 ->
    exists lines,
      build_prompt (PList items) days strict
      = Return (prompt days strict (Str.join NL lines))
      /\ List.length lines = List.length items
      /\ Utf8.valid (prompt days strict (Str.join NL lines)) = true.
Proof.
  intros items days strict Hvalid Hdays. rewrite forallb_forall in Hvalid.
  destruct (listing_lines items) as (lines & Hlines & Hrendered).
  { intros i Hi. now apply valid_record_fields, Hvalid. }
  exists lines. split; [| split].
  - unfold build_prompt, inv_text. cbn [iterate bind]. rewrite Hlines.
    cbn [bind]. now rewrite (days_within_limit days Hdays).
  - symmetry. exact (Forall2_length Hrendered).
  - apply valid_prompt. apply valid_join; [reflexivity |].
    clear Hlines. induction Hrendered as [| i line rest ls Hr _ IH]; constructor.
    + apply (proj2 (valid_record_fields i (Hvalid i (or_introl eq_refl)))).
      exact Hr.
    + apply IH. intros x Hx. apply Hvalid. now right.
Qed.

(** *** The rows of the table editor *)

Lemma dict_set_same (key : string) (v : pyval) (d : dict) :
  dict_get key d = Some v -> dict_set key v d = d.
Proof.
  induction d as [| [k x] rest IH]; cbn [dict_get dict_set]; [discriminate |].
  destruct (String.eqb k key).
  - intros H. now injection H as <-.
  - intros H. now rewrite (IH H).
Qed.

Lemma normalize_row_present (d : dict) (exp : pyval) :
  dict_get "expiry" d = Some exp ->
  normalize_row (PDict d) = normalize_item (PDict d).
Proof.
  intros H. unfold normalize_row, normalize_item. cbn [subscript get bind].
  rewrite H. cbn [bind].
  destruct exp; cbn [bind setitem]; try reflexivity;
    now rewrite (dict_set_same _ _ _ H).
Qed.

(** X17: on a row that has an expiry the loop of the editor does what
    the loop of the loader does, so one rule brings the dates of both to
    [date] values; on a row without that key it raises [KeyError], where
    the loader returns the record as it is. *)
Theorem normalize_row_agrees :
  forall d : dict,
    (forall exp, dict_get "expiry" d = Some exp ->
                 normalize_row (PDict d) = normalize_item (PDict d))
    /\ (dict_get "expiry" d = None ->
        normalize_row (PDict d) = Raise (KeyError "expiry")
        /\ normalize_item (PDict d) = Return (PDict d)).
Proof.
  intros d. split.
  - intros exp. apply normalize_row_present.
  - intros H. unfold normalize_row, normalize_item. cbn [subscript get bind].
    now rewrite H.
Qed.

(** *** A table that lacks a column *)

Lemma dict_get_column (key : string) (d : dict) :
  In key (map fst d) -> exists v, dict_get key d = Some v.
Proof.
  induction d as [| [k x] rest IH]; cbn [map fst In dict_get]; [intros [] |].
  destruct (String.eqb k key) eqn:E; [intros _; now exists x |].
  intros [H | H]; [| now apply IH].
  subst k. now rewrite String.eqb_refl in E.
Qed.

Lemma dict_get_no_column (key : string) (d : dict) :
  ~ In key (map fst d) -> dict_get key d = None.
Proof.
  intros H. destruct (dict_get key d) as [v |] eqn:E; [| reflexivity].
  exfalso. apply H. apply dict_get_in in E.
  now apply (in_map fst) in E.
Qed.

(** X15: when the table of the editor has the columns of the category
    and of the expiry, by which it is sorted, but no column for another of
    the five fields, so that no row has it, and the pass over the rows
    ends, the click on the button raises [KeyError] for the first of the
    five fields that is missing: the prompt is put together before the
    [try], so the exception is not turned into an error message.  Such a
    table comes from a backing file whose records all lack the field,
    which the loader lets through. *)
Theorem generate_missing_field_raises :
  forall (getenv : option string) (days : Z) (strict : bool) (w w' : world)
         (rows : list pyval) (columns earlier later : list string)
         (key : string),
    rows <> [] ->
    (forall row, In row rows -> exists d, row = PDict d /\ map fst d = columns) ->
    In "category" columns ->
    In "expiry" columns ->
    reconcile rows w = (w', Return tt) ->
    ["name"; "quantity"; "unit"; "category"; "expiry"]
    = (earlier ++ key :: later)%list ->
    (forall k, In k earlier -> In k columns) ->
    ~ In key columns ->
    build_prompt (inventory w') days strict = Raise (KeyError key)
    /\ generate getenv days strict w' = (w', Raise (KeyError key)).
Proof.
  intros getenv days strict w w' rows columns earlier later key
         Hrows Hcols _ _ Hpass Hsplit Hearlier Hkey.
  assert (build_prompt (inventory w') days strict = Raise (KeyError key)) as H;
    [| split; [exact H | unfold generate; now rewrite H]].
  unfold reconcile in Hpass.
  destruct (for_each normalize_row rows) as [updated | e] eqn:Eloop;
    [| injection Hpass as _ Hpass; discriminate Hpass].
  unfold save_inventory, json_dumps in Hpass.
  destruct (convertible (PList updated)) eqn:Hconv;
    [| injection Hpass as _ Hpass; discriminate Hpass].
  destruct (write_text _ (data_file w)) as [f saved].
  injection Hpass as <- _. cbn [inventory].
  destruct rows as [| row rest]; [congruence |].
  destruct (Hcols row (or_introl eq_refl)) as (d & -> & Hd).
  cbn [for_each] in Eloop.
  destruct (normalize_row (PDict d)) as [u |] eqn:Erow; [| discriminate].
  destruct (for_each normalize_row rest) as [us |]; [| discriminate].
  cbn [bind] in Eloop. injection Eloop as <-.
  destruct (dict_get "expiry" d) as [exp |] eqn:Eexp.
  2:{ unfold normalize_row in Erow. cbn [subscript bind] in Erow.
      rewrite Eexp in Erow. discriminate. }
  rewrite (normalize_row_present d exp Eexp) in Erow.
  destruct (normalize_item_frame _ _ Erow) as (d0 & d' & Hd0 & -> & Hkeys & _).
  injection Hd0 as <-.
  cbn [convertible forallb] in Hconv. apply andb_true_iff in Hconv as [Hu _].
  unfold build_prompt, inv_text. cbn [iterate bind for_each].
  rewrite (item_line_missing d' earlier later key Hsplit); [reflexivity | |].
  - intros k Hk.
    destruct (dict_get_column k d') as [v Hv];
      [rewrite Hkeys, Hd; now apply Hearlier |].
    exists v. split; [exact Hv |].
    exact (dict_get_forallb convertible k d' v Hu Hv).
  - apply dict_get_no_column. now rewrite Hkeys, Hd.
Qed.

(** A record with an expiry that the file gives back as it was saved goes
    through the loop of the editor unchanged. *)
Lemma normalize_row_storable (r : pyval) :
  storable_record r = true ->
  (exists d exp, r = PDict d /\ dict_get "expiry" d = Some exp) ->
  normalize_row r = Return r.
Proof.
  intros Hst (d & exp & -> & Hexp).
  rewrite (normalize_row_present d exp Hexp). apply normalize_item_other.
  cbn [other_expiry]. rewrite Hexp.
  cbn [storable_record] in Hst. apply andb_true_iff in Hst as [_ Hf].
  rewrite forallb_forall in Hf.
  specialize (Hf _ (dict_get_in _ _ _ Hexp)).
  unfold field_storable in Hf. cbn [fst snd String.eqb Ascii.eqb Bool.eqb] in Hf.
  apply andb_true_iff in Hf as [_ Hf].
  destruct exp; try reflexivity; discriminate Hf.
Qed.

(** X18: the pass over the rows of the editor is all or nothing for the
    session: when a row raises, the inventory and the file are left as
    they were; when no row does, the inventory is replaced by as many
    records as there are rows, none of which keeps a text or a
    [Timestamp] as expiry, and the key is kept. *)
Theorem reconcile_all_or_nothing :
  forall (rows : list pyval) (w : world),
    (forall e, for_each normalize_row rows = Raise e ->
               reconcile rows w = (w, Raise e))
    /\ (forall updated,
           for_each normalize_row rows = Return updated ->
           inventory (fst (reconcile rows w)) = PList updated
           /\ api_key (fst (reconcile rows w)) = api_key w
           /\ List.length updated = List.length rows
           /\ forallb other_expiry updated = true).
Proof.
  intros rows w. split.
  - intros e H. unfold reconcile. now rewrite H.
  - intros updated H. unfold reconcile. rewrite H.
    destruct (save_inventory _ _) as [f saved]. cbn [fst inventory api_key].
    repeat split; [exact (for_each_length _ _ _ H) |].
    apply (for_each_post normalize_row other_expiry rows updated); [| exact H].
    intros x y Hx. destruct x as [| | | | | | | | | d]; try discriminate Hx.
    destruct (dict_get "expiry" d) as [exp |] eqn:E.
    + rewrite (normalize_row_present d exp E) in Hx.
      now apply normalize_item_post in Hx.
    + unfold normalize_row in Hx. cbn [subscript bind] in Hx.
      rewrite E in Hx. discriminate Hx.
Qed.

(** X19: rows that are records with an expiry, of the kind that the file
    gives back as it was saved, are taken as they are: the inventory of
    the session becomes these rows, the save succeeds, and the file that
    is written loads back as these rows. *)
Theorem reconcile_dated_rows :
  forall (rows : list pyval) (w : world),
    forallb storable_record rows = true ->
    (forall r, In r rows ->
               exists d exp, r = PDict d /\ dict_get "expiry" d = Some exp) ->
    reconcile rows w
    = (mkworld (PList rows) (api_key w) (Some (iterencode 0 (PList rows))),
       Return tt)
    /\ load_inventory (Some (iterencode 0 (PList rows))) = Return (PList rows).
Proof.
  intros rows w Hst Hexp. rewrite forallb_forall in Hst.
  assert (for_each normalize_row rows = Return rows) as Hloop.
  { apply for_each_identity. intros r Hr.
    apply normalize_row_storable; [now apply Hst | now apply Hexp]. }
  destruct (round_trip_by_records rows (data_file w)) as [Hsave Hload].
  { intros r Hr. now apply storable_record_stored, Hst. }
  unfold reconcile. rewrite Hloop, Hsave. split; [reflexivity | exact Hload].
Qed.

(** *** What can be saved *)

Lemma time_str_ascii (ns : Z) : Str.all_chars Str.is_ascii (time_str ns) = true.
Proof.
  unfold time_str. rewrite !all_chars_append, !zero_padded_ascii. cbn [andb].
  destruct (_ =? 0); [reflexivity |].
  destruct (_ =? 0); rewrite all_chars_append, zero_padded_ascii; reflexivity.
Qed.

(** The text of any value whose texts are well formed is well formed. *)
Lemma valid_iterencode_any (v : pyval) :
  well_formed v = true -> forall level, Utf8.valid (iterencode level v) = true.
Proof.
  induction v as [| b | z | f | s | d | t | | items IH | entries IH]
    using pyval_induction; intros Hwf level.
  - reflexivity.
  - destruct b; reflexivity.
  - apply valid_ascii. apply int_str_ascii.
  - destruct f as [x | | |]; try reflexivity.
    apply valid_ascii. apply (scan_number_ascii _ _ _ _ (float_repr_number x)).
  - now apply valid_encode_basestring.
  - cbn [iterencode py_text]. apply valid_encode_basestring.
    apply valid_ascii, isoformat_ascii.
  - cbn [iterencode py_text]. apply valid_encode_basestring.
    apply valid_ascii. unfold Timestamp_str.
    rewrite !all_chars_append, isoformat_ascii, time_str_ascii. reflexivity.
  - reflexivity.
  - destruct items as [| x xs]; [reflexivity |].
    change (iterencode level (PList (x :: xs)))
      with ("[" ++ newline_indent (S level)
            ++ Str.join ("," ++ newline_indent (S level))
                        (map (iterencode (S level)) (x :: xs))
            ++ newline_indent level ++ "]").
    cbn [well_formed] in Hwf. rewrite forallb_forall in Hwf.
    rewrite (valid_ascii_app "[") by reflexivity.
    rewrite valid_newline_indent.
    apply valid_append; [| now rewrite valid_newline_indent].
    apply valid_join; [apply valid_separator |].
    rewrite Forall_forall in IH |- *. intros p Hp.
    apply in_map_iff in Hp as (y & <- & Hy). apply IH; [exact Hy |].
    now apply Hwf.
  - destruct entries as [| kv kvs]; [reflexivity |].
    change (iterencode level (PDict (kv :: kvs)))
      with ("{" ++ newline_indent (S level)
            ++ Str.join ("," ++ newline_indent (S level))
                        (map (encode_entry level) (kv :: kvs))
            ++ newline_indent level ++ "}").
    cbn [well_formed] in Hwf. rewrite forallb_forall in Hwf.
    rewrite (valid_ascii_app "{") by reflexivity.
    rewrite valid_newline_indent.
    apply valid_append; [| now rewrite valid_newline_indent].
    apply valid_join; [apply valid_separator |].
    rewrite Forall_forall in IH |- *. intros p Hp.
    apply in_map_iff in Hp as (y & <- & Hy).
    specialize (Hwf y Hy). apply andb_true_iff in Hwf as [Hk Hv].
    unfold encode_entry.
    apply valid_append; [now apply valid_encode_basestring |].
    rewrite (valid_ascii_app ": ") by reflexivity.
    now apply IH.
Qed.



(** X21: after every add and every pass over the rows of the editor
    that ends without an exception, the backing file holds the JSON text
    of the inventory that the session holds. *)
Theorem file_mirrors_session :
  (forall (form : add_form) (w : world),
      snd (add_ingredient form w) = Return Rerun ->
      data_file (fst (add_ingredient form w))
      = Some (iterencode 0 (inventory (fst (add_ingredient form w)))))
  /\ (forall (rows : list pyval) (w : world),
         snd (reconcile rows w) = Return tt ->
         data_file (fst (reconcile rows w))
         = Some (iterencode 0 (inventory (fst (reconcile rows w))))).
Proof.
  assert (forall inv f,
             snd (save_inventory inv f) = Return tt ->
             fst (save_inventory inv f) = Some (iterencode 0 inv)) as Hsave.
  { intros inv f. unfold save_inventory, json_dumps, write_text.
    destruct (convertible inv); [| discriminate].
    destruct (Utf8.valid (iterencode 0 inv)); [reflexivity | discriminate]. }
  split.
  - intros form w. unfold add_ingredient.
    destruct (submitted form && negb (Str.is_empty (form_name form)));
      [| discriminate].
    destruct (inventory w) as [| | | | | | | | items |]; try discriminate.
    specialize (Hsave (PList (items ++ [new_record form])) (data_file w)).
    destruct (save_inventory _ (data_file w)) as [f [[] | e]];
      cbn [fst snd bind inventory data_file] in *; [| discriminate].
    intros _. now apply Hsave.
  - intros rows w. unfold reconcile.
    destruct (for_each normalize_row rows) as [updated | e]; [| discriminate].
    specialize (Hsave (PList updated) (data_file w)).
    destruct (save_inventory _ (data_file w)) as [f saved];
      cbn [fst snd inventory data_file] in *.
    exact Hsave.
Qed.

(** *** Text that cannot be encoded *)

Lemma not_continuation_range (lo hi : N) (c : ascii) :
  (128 <= lo)%N -> (hi <= 191)%N ->
  Utf8.continuation c = false -> Str.in_range lo hi c = false.
Proof.
  unfold Utf8.continuation, Str.in_range. intros Hlo Hhi H.
  apply andb_false_iff in H. apply andb_false_iff.
  destruct H as [H | H]; [left | right];
    apply N.leb_gt in H; apply N.leb_gt; lia.
Qed.

Lemma ascii_not_continuation (c : ascii) :
  Str.is_ascii c = true -> Utf8.continuation c = false.
Proof.
  unfold Str.is_ascii, Utf8.continuation, Str.in_range. intros H.
  apply N.ltb_lt in H. apply andb_false_iff. left. apply N.leb_gt. lia.
Qed.

Ltac no_continuation Hr H :=
  unfold Utf8.continuation in H; rewrite ?Hr in H by lia;
  repeat match type of H with
         | context [if ?x then _ else _] => destruct x
         end;
  cbn [andb] in H; try discriminate H.

(** A text that is well formed up to a byte that does not continue a
    character is well formed before that byte. *)
Lemma valid_prefix_bounded (c : ascii) (b : string) :
  Utf8.continuation c = false ->
  forall n a, (String.length a <= n)%nat ->
              Utf8.valid (a ++ String c b) = true ->
              Utf8.valid a = true /\ Utf8.valid (String c b) = true.
Proof.
  intros Hc.
  assert (forall lo hi, (128 <= lo)%N -> (hi <= 191)%N ->
                        Str.in_range lo hi c = false) as Hr
      by (intros; now apply not_continuation_range).
  induction n as [| n IH]; intros a Hlen H.
  - destruct a; [split; [reflexivity | exact H] | simpl in Hlen; lia].
  - destruct a as [| b1 r1]; [split; [reflexivity | exact H] |].
    cbn [String.length] in Hlen. cbn [append] in H.
    cbn [Utf8.valid] in H |- *.
    destruct (Str.code b1 <? 128)%N; [apply IH; [lia | exact H] |].
    destruct r1 as [| b2 r2]; cbn [append String.length] in H, Hlen |- *.
    { exfalso. destruct (Str.in_range 194 223 b1); [no_continuation Hr H |].
      destruct b as [| b3 r3]; [discriminate H |].
      destruct (Str.in_range 224 239 b1); [no_continuation Hr H |].
      destruct r3 as [| b4 r4]; [discriminate H |].
      destruct (Str.in_range 240 244 b1); [| discriminate H].
      no_continuation Hr H. }
    destruct (Str.in_range 194 223 b1).
    { apply andb_true_iff in H as [H1 H2]. rewrite H1. apply IH; [lia | exact H2]. }
    destruct r2 as [| b3 r3]; cbn [append String.length] in H, Hlen |- *.
    { exfalso. destruct (Str.in_range 224 239 b1).
      - apply andb_true_iff in H as [H _]. apply andb_true_iff in H as [_ H].
        no_continuation Hr H.
      - destruct b as [| b4 r4]; [discriminate H |].
        apply andb_true_iff in H as [H _]. apply andb_true_iff in H as [H _].
        apply andb_true_iff in H as [_ H]. no_continuation Hr H. }
    destruct (Str.in_range 224 239 b1).
    { apply andb_true_iff in H as [H1 H2]. rewrite H1. apply IH; [lia | exact H2]. }
    destruct r3 as [| b4 r4]; cbn [append String.length] in H, Hlen |- *.
    { exfalso. apply andb_true_iff in H as [H _].
      apply andb_true_iff in H as [_ H]. no_continuation Hr H. }
    apply andb_true_iff in H as [H1 H2]. rewrite H1. apply IH; [lia | exact H2].
Qed.

Lemma valid_prefix (a b : string) (c : ascii) :
  Utf8.continuation c = false ->
  Utf8.valid (a ++ String c b) = true ->
  Utf8.valid a = true /\ Utf8.valid (String c b) = true.
Proof.
  intros Hc. now apply (valid_prefix_bounded c b Hc (String.length a) a).
Qed.

Lemma escape_char_head (c : ascii) :
  Str.is_ascii c = true ->
  exists c' t, escape_char c = String c' t /\ Str.is_ascii c' = true.
Proof.
  destruct c as [[|] [|] [|] [|] [|] [|] [|] [|]]; intros H;
    try discriminate H; eexists; eexists; split; reflexivity.
Qed.

(** A character that an ASCII byte cuts short stays cut short when the
    text is escaped. *)
Lemma valid_interrupted (a rest : string) (c : ascii) :
  Str.is_ascii c = true -> Utf8.valid a = false ->
  Utf8.valid (a ++ escape (String c rest)) = false.
Proof.
  intros Hc Ha. cbn [escape].
  destruct (escape_char_head c Hc) as (c' & t & -> & Hc'). cbn [append].
  destruct (Utf8.valid (a ++ String c' (t ++ escape rest))) eqn:E;
    [| reflexivity].
  apply valid_prefix in E as [E _]; [congruence |].
  now apply ascii_not_continuation.
Qed.

Lemma valid_escape_inv :
  forall n s, (String.length s <= n)%nat ->
              Utf8.valid (escape s) = true -> Utf8.valid s = true.
Proof.
  induction n as [| n IH]; intros s Hlen H.
  - destruct s; [reflexivity | simpl in Hlen; lia].
  - destruct s as [| b1 r1]; [reflexivity |]. cbn [String.length] in Hlen.
    destruct (Str.is_ascii b1) eqn:A1.
    { cbn [escape] in H.
      rewrite valid_ascii_app in H by (now rewrite escape_char_ascii).
      rewrite (valid_ascii_cons b1 _ A1). apply IH; [lia | exact H]. }
    rewrite (escape_high b1 r1 A1) in H.
    assert ((Str.code b1 <? 128)%N = false) as A1' by exact A1.
    destruct r1 as [| b2 r2]; [exact H |]. cbn [String.length] in Hlen.
    destruct (Str.is_ascii b2) eqn:A2.
    { exfalso.
      pose proof (valid_interrupted (String b1 EmptyString) r2 b2 A2) as Hi.
      cbn [append] in Hi. rewrite Hi in H; [discriminate |].
      cbn [Utf8.valid]. now rewrite A1'. }
    rewrite (escape_high b2 r2 A2) in H.
    destruct (Str.in_range 194 223 b1) eqn:E2.
    { cbn [Utf8.valid] in H |- *. rewrite A1', E2 in H |- *.
      apply andb_true_iff in H as [H1 H2]. rewrite H1. apply IH; [lia | exact H2]. }
    destruct r2 as [| b3 r3]; [exact H |]. cbn [String.length] in Hlen.
    destruct (Str.is_ascii b3) eqn:A3.
    { exfalso.
      pose proof (valid_interrupted (String b1 (String b2 EmptyString)) r3 b3 A3)
        as Hi.
      cbn [append] in Hi. rewrite Hi in H; [discriminate |].
      cbn [Utf8.valid]. now rewrite A1', E2. }
    rewrite (escape_high b3 r3 A3) in H.
    destruct (Str.in_range 224 239 b1) eqn:E3.
    { cbn [Utf8.valid] in H |- *. rewrite A1', E2, E3 in H |- *.
      apply andb_true_iff in H as [H1 H2]. rewrite H1. apply IH; [lia | exact H2]. }
    destruct r3 as [| b4 r4]; [exact H |]. cbn [String.length] in Hlen.
    destruct (Str.is_ascii b4) eqn:A4.
    { exfalso.
      pose proof (valid_interrupted
                    (String b1 (String b2 (String b3 EmptyString))) r4 b4 A4)
        as Hi.
      cbn [append] in Hi. rewrite Hi in H; [discriminate |].
      cbn [Utf8.valid]. now rewrite A1', E2, E3. }
    rewrite (escape_high b4 r4 A4) in H.
    cbn [Utf8.valid] in H |- *. rewrite A1', E2, E3 in H |- *.
    apply andb_true_iff in H as [H1 H2]. rewrite H1. apply IH; [lia | exact H2].
Qed.

Lemma valid_encode_basestring_inv (s tail : string) :
  Utf8.valid (encode_basestring s ++ tail) = true ->
  Utf8.valid s = true /\ Utf8.valid tail = true.
Proof.
  unfold encode_basestring. cbn [append]. rewrite append_assoc. cbn [append].
  rewrite valid_ascii_cons by reflexivity. intros H.
  apply valid_prefix in H as [Hs Ht]; [| reflexivity].
  rewrite valid_ascii_cons in Ht by reflexivity.
  split; [| exact Ht]. now apply (valid_escape_inv (String.length s) s).
Qed.

Lemma valid_join_inv (level : nat) (parts : list string) :
  Utf8.valid (Str.join ("," ++ newline_indent level) parts) = true ->
  Forall (fun p => Utf8.valid p = true) parts.
Proof.
  induction parts as [| p rest IH]; [constructor |].
  destruct rest as [| q rest'].
  - cbn [Str.join]. intros H. now repeat constructor.
  - change (Str.join ("," ++ newline_indent level) (p :: q :: rest'))
      with (p ++ String "," (newline_indent level
                             ++ Str.join ("," ++ newline_indent level)
                                         (q :: rest'))).
    intros H. apply valid_prefix in H as [Hp Hrest]; [| reflexivity].
    rewrite valid_ascii_cons, valid_newline_indent in Hrest by reflexivity.
    constructor; [exact Hp | now apply IH].
Qed.

Lemma valid_before_newline (level : nat) (body closing : string) :
  Utf8.valid (body ++ newline_indent level ++ closing) = true ->
  Utf8.valid body = true.
Proof.
  unfold newline_indent, Str.NL. cbn [append]. intros H.
  now apply valid_prefix in H as [H _].
Qed.

(** A value whose text is well formed has well-formed texts and keys. *)
Lemma valid_iterencode_inv (v : pyval) :
  forall level, Utf8.valid (iterencode level v) = true -> well_formed v = true.
Proof.
  induction v as [| b | z | f | s | d | t | | items IH | entries IH]
    using pyval_induction; intros level H; try reflexivity.
  - cbn [iterencode] in H. rewrite <- (append_nil_r (encode_basestring s)) in H.
    now apply valid_encode_basestring_inv in H as [H _].
  - destruct items as [| x xs]; [reflexivity |].
    change (iterencode level (PList (x :: xs)))
      with ("[" ++ newline_indent (S level)
            ++ Str.join ("," ++ newline_indent (S level))
                        (map (iterencode (S level)) (x :: xs))
            ++ newline_indent level ++ "]") in H.
    rewrite (valid_ascii_app "[") in H by reflexivity.
    rewrite valid_newline_indent in H.
    apply valid_before_newline, valid_join_inv in H.
    cbn [well_formed]. apply forallb_forall. intros y Hy.
    rewrite Forall_forall in IH, H.
    apply (IH y Hy (S level)). apply H. now apply in_map.
  - destruct entries as [| kv kvs]; [reflexivity |].
    change (iterencode level (PDict (kv :: kvs)))
      with ("{" ++ newline_indent (S level)
            ++ Str.join ("," ++ newline_indent (S level))
                        (map (encode_entry level) (kv :: kvs))
            ++ newline_indent level ++ "}") in H.
    rewrite (valid_ascii_app "{") in H by reflexivity.
    rewrite valid_newline_indent in H.
    apply valid_before_newline, valid_join_inv in H.
    cbn [well_formed]. apply forallb_forall. intros y Hy.
    rewrite Forall_forall in IH, H.
    specialize (H (encode_entry level y) (in_map _ _ _ Hy)).
    unfold encode_entry in H.
    apply valid_encode_basestring_inv in H as [Hk Hv].
    rewrite (valid_ascii_app ": ") in Hv by reflexivity.
    rewrite Hk. cbn [andb]. now apply (IH y Hy (S level)).
Qed.

(** *** What a save does, case by case *)

(** X20: what a save does depends on two things only.  When some [int]
    of the inventory is beyond the limit of the conversion to text,
    nothing is written and the file stays as it was; otherwise, when some
    text or key is not well formed, the file is left empty and the
    encoder's error is raised; otherwise the save succeeds, whatever else
    the records hold (dates, [Timestamp]s, [NaT], floats that are not
    finite, lists and dictionaries inside one another). *)
Theorem save_inventory_outcome :
  forall (inv : pyval) (f : file),
    save_inventory inv f
    = if convertible inv then
        if well_formed inv then (Some (iterencode 0 inv), Return tt)
        else (Some EmptyString, Raise UnicodeEncodeError)
      else (f, Raise conversion_limit).
Proof.
  intros inv f. unfold save_inventory, json_dumps, write_text.
  destruct (convertible inv); [| reflexivity].
  destruct (well_formed inv) eqn:Hwf.
  - now rewrite (valid_iterencode_any inv Hwf 0).
  - destruct (Utf8.valid (iterencode 0 inv)) eqn:E; [| reflexivity].
    apply valid_iterencode_inv in E. congruence.
Qed.

(** X2: an inventory that holds a text or a key that is not well formed
    (a surrogate that stands alone) cannot be saved, and the attempt
    costs the file: it was opened for writing before the text was
    encoded, so it is left empty, whatever it held, and the next load
    returns the empty inventory. *)
Theorem failed_write_empties_file :
  forall (inv : pyval) (f : file),
    convertible inv = true ->
    well_formed inv = false ->
    save_inventory inv f = (Some EmptyString, Raise UnicodeEncodeError)
    /\ load_inventory (fst (save_inventory inv f)) = Return (PList []).
Proof.
  intros inv f Hconv Hbad.
  assert (save_inventory inv f = (Some EmptyString, Raise UnicodeEncodeError))
    as H.
  { unfold save_inventory, json_dumps, write_text. rewrite Hconv.
    destruct (Utf8.valid (iterencode 0 inv)) eqn:E; [| reflexivity].
    apply valid_iterencode_inv in E. congruence. }
  rewrite H. split; reflexivity.
Qed.

End Program.














(** ** The program on concrete values *)

Module Example.

(** A sample of the floats, enough to run the program: one half and three
    hundred, with the text [repr] gives each. *)
Inductive sample : Type :=
  | Half
  | ThreeHundred.

Definition sample_repr (f : sample) : string :=
  match f with
  | Half => "0.5"
  | ThreeHundred => "300.0"
  end.

Definition sample_of_literal (s : string) : pyfloat sample :=
  if String.eqb s "0.5" then Finite sample Half
  else if String.eqb s "300.0" then Finite sample ThreeHundred
  else NaN sample.

(** [repr] of a text without quotes or escapes. *)
Definition quoted (s : string) : string := "'" ++ s ++ "'".

(** A best-effort parser that knows one way of writing a date. *)
Definition sample_to_datetime (s : string) : result datetime_like :=
  if String.eqb s "June 1, 2025"
  then Return (Stamp (mkTimestamp (Date.mkdate 2025 6 1) 0))
  else Raise (ValueError "Unknown datetime string format").

(** A service that accepts one key. *)
Definition sample_service (key : string) (req : chat_request)
  : result chat_response :=
  if String.eqb key "sk-valid"
  then Return (mkresponse [Some " **Day 1** "])
  else Raise (ServiceError "Incorrect API key provided").

Definition chicken : pyval sample :=
  PDict sample
    [ ("name", PStr sample "鸡胸肉"); ("quantity", PFloat sample (Finite sample ThreeHundred));
      ("unit", PStr sample "g");
      ("expiry", PDate sample (Date.mkdate 2025 6 1));
      ("category", PStr sample "肉") ].

Definition rice : pyval sample :=
  PDict sample
    [ ("name", PStr sample "米饭"); ("quantity", PInt sample 1000);
      ("unit", PStr sample "g");
      ("expiry", PDate sample (Date.mkdate 2024 2 29));
      ("category", PStr sample "主食") ].

Definition pantry : pyval sample := PList sample [chicken; rice].

Lemma sample_repr_number :
  forall f, scan_number (sample_repr f) = Some (sample_repr f, true, EmptyString).
Proof. intros []; reflexivity. Qed.

Lemma sample_of_repr :
  forall f, sample_of_literal (sample_repr f) = Finite sample f.
Proof. intros []; reflexivity. Qed.

(** C1 on the pantry, saved where no file was. *)
Lemma load_save_round_trip_witness :
  valid_inventory sample pantry = true
  /\ snd (save_inventory sample sample_repr quoted pantry None) = Return tt
  /\ load_inventory sample sample_of_literal sample_to_datetime
       (fst (save_inventory sample sample_repr quoted pantry None))
     = Return pantry.
Proof.
  split; [reflexivity |].
  apply (load_save_round_trip sample sample_repr sample_of_literal quoted
           sample_to_datetime sample_repr_number sample_of_repr pantry None).
  reflexivity.
Defined.

Definition june_first : Date.date := Date.mkdate 2025 6 1.


(** A backing file whose second record has an expiry that nothing reads. *)
Definition spoiled : dict sample :=
  [ ("name", PStr sample "yoghurt"); ("expiry", PStr sample "soon") ].

Definition spoiled_items : list (pyval sample) :=
  [ stored_record sample chicken; PDict sample spoiled ].

Definition spoiled_file : string :=
  iterencode sample sample_repr quoted 0 (PList sample spoiled_items).







(** A backing file with a record without expiry, one whose expiry is
    [null] and one whose expiry is a number. *)
Definition odd_items : list (pyval sample) :=
  [ PDict sample [("name", PStr sample "salt")];
    PDict sample [("name", PStr sample "rice"); ("expiry", PNone sample)];
    PDict sample [("name", PStr sample "milk"); ("expiry", PInt sample 20250601)] ].

Definition odd_file : string :=
  iterencode sample sample_repr quoted 0 (PList sample odd_items).

(** C10 on that file. *)
Lemma load_keeps_other_expiry_witness :
  load_inventory sample sample_of_literal sample_to_datetime (Some odd_file)
  = Return (PList sample odd_items).
Proof.
  refine (proj1 (proj2 (load_keeps_other_expiry sample sample_of_literal
                          sample_to_datetime odd_file odd_items _ eq_refl eq_refl))
                eq_refl).
  vm_compute. discriminate.
Defined.

Definition scenario_line : string := "- 鸡胸肉 (300g, 肉, expiring 2025-06-01)".

(** C5, amended, on the inventory of the scenario with [strict] false. *)
Lemma strictness_rule_selected_witness :
  build_prompt sample sample_repr quoted (scenario sample) 3 false
  = Return (prompt 3 false scenario_line)
  /\ exists listing,
      inv_text sample sample_repr quoted (scenario sample) = Return listing
      /\ prompt 3 false scenario_line = prompt 3 false EmptyString ++ listing
      /\ (Str.occurs strict_instruction (prompt 3 false EmptyString)
          <-> false = true)
      /\ (Str.occurs lenient_instruction (prompt 3 false EmptyString)
          <-> false = false)
      /\ (~ Str.occurs strict_instruction listing ->
          ~ Str.occurs lenient_instruction listing ->
          (Str.occurs strict_instruction (prompt 3 false scenario_line)
           <-> false = true)
          /\ (Str.occurs lenient_instruction (prompt 3 false scenario_line)
              <-> false = false)).
Proof.
  split; [reflexivity |].
  apply (strictness_rule_selected sample sample_repr quoted
           (scenario sample) 3 false (prompt 3 false scenario_line)).
  reflexivity.
Defined.

(** C5 as it is stated fails: the add form accepts a food whose name is
    the text of the rule about the additional ingredients, and the prompt
    then holds that text although [strict] is true. *)
Lemma strictness_counterexample :
  let form := mkform sample true lenient_instruction Half "g" june_first "肉" in
  let w := fst (add_ingredient sample sample_repr quoted form
                  (mkworld sample (PList sample []) None None)) in
  exists text,
    build_prompt sample sample_repr quoted (inventory sample w) 1 true = Return text
    /\ Str.occurs lenient_instruction text
    /\ ~ (Str.occurs lenient_instruction text <-> true = false).
Proof.
  intros form w.
  assert (exists text,
             build_prompt sample sample_repr quoted (inventory sample w) 1 true
             = Return text /\ Str.contains lenient_instruction text = true)
    as (text & Htext & Hin).
  { eexists. split; [vm_compute; reflexivity | vm_compute; reflexivity]. }
  exists text. apply contains_spec in Hin.
  repeat split; [exact Htext | exact Hin |].
  intros [H _]. specialize (H Hin). discriminate.
Qed.

(** C6 on the pantry. *)
Lemma listing_one_line_per_item_witness :
  exists (text : string) (head rows : list string),
    build_prompt sample sample_repr quoted pantry 7 false = Return text
    /\ Forall2 (rendered sample sample_repr quoted) [chicken; rice] rows
    /\ Forall (fun row => Str.has_char Str.nl row = false) rows
    /\ Str.lines (prompt 7 false EmptyString)
       = (head ++ ["=== 冰箱库存 ==="; EmptyString])%list
    /\ Str.lines text = (head ++ "=== 冰箱库存 ===" :: rows)%list.
Proof.
  apply (proj2 (listing_one_line_per_item sample sample_repr quoted)
               [chicken; rice] 7 false).
  - intros i [<- | [<- | []]]; reflexivity.
  - intros i [<- | [<- | []]]; reflexivity.
  - reflexivity.
Defined.

(** A record that is valid, with a line feed in its name. *)
Definition skinless : pyval sample :=
  PDict sample
    [ ("name", PStr sample ("鸡胸肉" ++ NL ++ "去皮")); ("quantity", PInt sample 300);
      ("unit", PStr sample "g"); ("category", PStr sample "肉");
      ("expiry", PDate sample (Date.mkdate 2025 6 1)) ].

(** C6 as it is stated fails: the inventory of that one record is valid,
    and its listing takes two lines of the prompt. *)
Lemma listing_counterexample :
  valid_inventory sample (PList sample [skinless]) = true
  /\ exists (text : string) (head : list string),
       build_prompt sample sample_repr quoted (PList sample [skinless]) 1 true
       = Return text
       /\ Str.lines (prompt 1 true EmptyString)
          = (head ++ ["=== 冰箱库存 ==="; EmptyString])%list
       /\ Str.lines text
          = (head ++ [ "=== 冰箱库存 ===";
                       "- 鸡胸肉";
                       "去皮 (300g, 肉, expiring 2025-06-01)" ])%list.
Proof.
  split; [reflexivity |].
  eexists.
  exists (removelast (removelast (Str.lines (prompt 1 true EmptyString)))).
  split; [vm_compute; reflexivity |].
  split; vm_compute; reflexivity.
Qed.


(** A quantity that the add form stored is a [float]: its text in the
    listing is that of [repr], which has a fraction. *)
Lemma listing_float_quantity :
  inv_text sample sample_repr quoted (PList sample [chicken])
  = Return "- 鸡胸肉 (300.0g, 肉, expiring 2025-06-01)".
Proof. reflexivity. Qed.

(** C7 on two sessions that share the pantry and nothing else. *)
Lemma build_prompt_deterministic_witness :
  build_prompt sample sample_repr quoted
    (inventory sample (mkworld sample pantry (Some "sk-valid") None)) 2 true
  = build_prompt sample sample_repr quoted
      (inventory sample (mkworld sample pantry None (Some spoiled_file))) 2 true.
Proof.
  apply (build_prompt_deterministic sample sample_repr quoted
           (mkworld sample pantry (Some "sk-valid") None)
           (mkworld sample pantry None (Some spoiled_file)) 2 2 true true);
    reflexivity.
Defined.

Definition session : world sample :=
  mkworld sample (scenario sample) (Some "sk-wrong") (Some odd_file).

(** C9 on a session whose key the service refuses. *)
Lemma generate_failure_is_reported_witness :
  snd (generate sample sample_repr quoted sample_service None 1 true session)
  = Return (Error ("OpenAI 调用失败：" ++ "Incorrect API key provided"))
  /\ fst (generate sample sample_repr quoted sample_service None 1 true session)
     = session
  /\ inventory sample
       (fst (generate sample sample_repr quoted sample_service None 1 true session))
     = scenario sample.
Proof.
  apply (generate_failure_is_reported sample sample_repr quoted sample_service
           None 1 true session (prompt 1 true scenario_line) "sk-wrong"
           (ServiceError "Incorrect API key provided"));
    reflexivity.
Defined.

(** *** The further properties on concrete values *)

Definition quote : string := String Str.dquote EmptyString.

(** A file whose one record has, as name, the escape of a surrogate that
    stands alone; the name that the decoder makes of it cannot be
    encoded. *)
Definition escaped_file : string :=
  "[{" ++ quote ++ "name" ++ quote ++ ": " ++ quote ++ "\ud800" ++ quote ++ "}]".

Definition unwritable : pyval sample :=
  PList sample [PDict sample [("name", PStr sample (Utf8.encode 55296))]].



Definition pantry_file : string := iterencode sample sample_repr quoted 0 pantry.

(** X3 on the pantry: the name of the chicken breast is in the file in
    its own characters. *)
Lemma saved_file_shows_fields_witness :
  Str.occurs (in_quotes "name" ++ ": " ++ in_quotes "鸡胸肉") pantry_file.
Proof.
  eapply (saved_file_shows_fields sample sample_repr quoted [chicken; rice] None
            pantry_file _ "name" (PStr sample "鸡胸肉") (in_quotes "鸡胸肉")).
  - vm_compute; reflexivity.
  - left. reflexivity.
  - left. reflexivity.
  - reflexivity.
  - reflexivity.
Defined.

(** X4 on a file of one blank and one line end. *)
Lemma load_blank_file_raises_witness :
  load_inventory sample sample_of_literal sample_to_datetime (Some (" " ++ NL))
  = Raise JSONDecodeError.
Proof.
  apply (load_blank_file_raises sample sample_of_literal sample_to_datetime
           (" " ++ NL)); [discriminate | reflexivity].
Defined.

(** X5 on the file of the three odd records. *)
Lemma load_inventory_postcondition_witness :
  (exists items, PList sample odd_items = PList sample items
                 /\ forallb (other_expiry sample) items = true)
  \/ PList sample odd_items = PDict sample []
  \/ PList sample odd_items = PStr sample EmptyString.
Proof.
  apply (load_inventory_postcondition sample sample_of_literal sample_to_datetime
           (Some odd_file) (PList sample odd_items)).
  vm_compute; reflexivity.
Defined.

(** X6 on the file of the pantry, whose expiries are text. *)
Lemma load_keeps_other_fields_witness :
  List.length [chicken; rice]
  = List.length (map (stored_record sample) [chicken; rice])
  /\ forall (i : nat) (item item' : pyval sample),
       nth_error (map (stored_record sample) [chicken; rice]) i = Some item ->
       nth_error [chicken; rice] i = Some item' ->
       exists d d',
         item = PDict sample d /\ item' = PDict sample d'
         /\ map fst d' = map fst d
         /\ forall key, key <> "expiry" ->
                        dict_get sample key d' = dict_get sample key d.
Proof.
  apply (load_keeps_other_fields sample sample_of_literal sample_to_datetime
           pantry_file (map (stored_record sample) [chicken; rice])
           [chicken; rice]);
    vm_compute; reflexivity.
Defined.

(** X7 on what the loop makes of the pantry as it is read. *)
Lemma normalize_all_idempotent_witness :
  normalize_all sample sample_to_datetime pantry = Return pantry.
Proof.
  apply (normalize_all_idempotent sample sample_to_datetime
           (PList sample (map (stored_record sample) [chicken; rice])) pantry).
  vm_compute; reflexivity.
Defined.

(** X8 on the file of the three odd records. *)
Lemma json_loads_plain_witness :
  plain_json sample (PList sample odd_items) = true
  /\ forall (items : list (pyval sample)) (d : dict sample) (t : Timestamp),
       PList sample odd_items = PList sample items ->
       In (PDict sample d) items ->
       dict_get sample "expiry" d <> Some (PTimestamp sample t).
Proof.
  apply (json_loads_plain sample sample_of_literal odd_file
           (PList sample odd_items)).
  vm_compute; reflexivity.
Defined.

(** A record with fields of its own and no expiry. *)
Definition salt : pyval sample :=
  PDict sample
    [ ("name", PStr sample "salt"); ("note", PStr sample "海盐");
      ("opened", PBool sample true); ("shelf", PInt sample 3);
      ("expiry", PNone sample) ].

(** X9 on the salt and the chicken breast. *)
Lemma load_save_storable_witness :
  snd (save_inventory sample sample_repr quoted (PList sample [salt; chicken])
         None) = Return tt
  /\ load_inventory sample sample_of_literal sample_to_datetime
       (fst (save_inventory sample sample_repr quoted
               (PList sample [salt; chicken]) None))
     = Return (PList sample [salt; chicken]).
Proof.
  apply (load_save_storable sample sample_repr sample_of_literal quoted
           sample_to_datetime sample_repr_number sample_of_repr
           [salt; chicken] None).
  reflexivity.
Defined.

(** Half a litre of milk, typed with blanks around the name. *)
Definition milk_form : add_form sample :=
  mkform sample true "  milk " Half "L" june_first "饮料".

Definition kitchen : world sample := mkworld sample pantry (Some "sk-valid") None.

(** X10 on the milk, added to the pantry. *)
Lemma add_ingredient_accepted_witness :
  let after := add_ingredient sample sample_repr quoted milk_form kitchen in
  let inv := PList sample ([chicken; rice] ++ [new_record sample milk_form]) in
  inventory sample (fst after) = inv
  /\ api_key sample (fst after) = api_key sample kitchen
  /\ ((snd after = Return Rerun
       /\ data_file sample (fst after)
          = Some (iterencode sample sample_repr quoted 0 inv))
      \/ (exists e, snd after = Raise e
                    /\ (data_file sample (fst after) = data_file sample kitchen
                        \/ data_file sample (fst after) = Some EmptyString))).
Proof.
  apply (add_ingredient_accepted sample sample_repr quoted milk_form kitchen
           [chicken; rice]); [reflexivity | discriminate | reflexivity].
Defined.

(** X11 on the same. *)
Lemma add_then_new_session_witness :
  let after := add_ingredient sample sample_repr quoted milk_form kitchen in
  snd after = Return Rerun
  /\ inventory sample (fst after)
     = PList sample ([chicken; rice] ++ [new_record sample milk_form])
  /\ new_session sample sample_of_literal sample_to_datetime
       (data_file sample (fst after))
     = Return (mkworld sample (inventory sample (fst after)) None
                 (data_file sample (fst after))).
Proof.
  apply (add_then_new_session sample sample_repr sample_of_literal quoted
           sample_to_datetime sample_repr_number sample_of_repr
           milk_form kitchen [chicken; rice]);
    try reflexivity; discriminate.
Defined.

(** X12 on a name of an ideographic space, a blank and a tab. *)
Lemma add_ingredient_blank_names_witness :
  inventory sample
    (fst (add_ingredient sample sample_repr quoted
            (mkform sample true ("　 " ++ String "009"%char EmptyString) Half "g"
               june_first "肉")
            (mkworld sample (PList sample []) None None)))
  = PList sample
      [PDict sample [ ("name", PStr sample EmptyString);
                      ("quantity", PFloat sample (Finite sample Half));
                      ("unit", PStr sample "g");
                      ("expiry", PDate sample june_first);
                      ("category", PStr sample "肉") ]].
Proof.
  apply (add_ingredient_blank_names sample sample_repr quoted
           (mkform sample true ("　 " ++ String "009"%char EmptyString) Half "g"
              june_first "肉")
           [] None None); [reflexivity | discriminate |].
  apply blank_three; [reflexivity |].
  apply blank_one; [reflexivity |].
  apply blank_one; [reflexivity |]. apply blank_empty.
Defined.

(** The key in the section [api] of the secrets, and a form that was not
    submitted. *)
Definition api_secrets : result secrets_file :=
  Return (mksecrets None (Some (Some "sk-valid"))).

Definition idle_form : add_form sample :=
  mkform sample false EmptyString Half "g" june_first "肉".

Definition kitchen_saved : world sample :=
  mkworld sample pantry (Some "sk-valid") (Some pantry_file).

Definition pantry_listing : string :=
  "- 鸡胸肉 (300.0g, 肉, expiring 2025-06-01)" ++ NL
  ++ "- 米饭 (1000g, 主食, expiring 2024-02-29)".

(** Without a secrets file and without the environment variable the
    script ends in [ensure_key], whatever was typed. *)
Lemma ensure_key_without_secrets :
  ensure_key sample None (Raise (FileNotFoundError "No secrets files found."))
    "sk-typed" kitchen
  = (kitchen, Raise (FileNotFoundError "No secrets files found.")).
Proof. reflexivity. Qed.

(** X14 on a run that starts without a key in the session or in the
    environment, and with the rows of the pantry. *)
Lemma generate_after_ensure_key_witness :
  exists key,
    api_key sample kitchen = Some key
    /\ key <> EmptyString
    /\ generate sample sample_repr quoted sample_service None 7 false
         kitchen_saved
       = (kitchen_saved,
          Return (request_plan quoted sample_service key
                    (prompt 7 false pantry_listing))).
Proof.
  apply (generate_after_ensure_key sample sample_repr quoted sample_to_datetime
           sample_service None api_secrets EmptyString idle_form [chicken; rice]
           (mkworld sample pantry None None) kitchen kitchen kitchen_saved
           7 false (prompt 7 false pantry_listing));
    reflexivity.
Defined.


(** The rows of a table without the column of the unit. *)
Definition unitless : list (pyval sample) :=
  [ PDict sample [ ("name", PStr sample "鸡胸肉"); ("quantity", PInt sample 300);
                   ("expiry", PDate sample (Date.mkdate 2025 6 1));
                   ("category", PStr sample "肉") ];
    PDict sample [ ("name", PStr sample "米饭"); ("quantity", PInt sample 1000);
                   ("expiry", PDate sample (Date.mkdate 2024 2 29));
                   ("category", PStr sample "主食") ] ].

Definition unitless_kitchen : world sample :=
  mkworld sample (PList sample unitless) (Some "sk-valid")
    (Some (iterencode sample sample_repr quoted 0 (PList sample unitless))).

(** X15 on those rows. *)
Lemma generate_missing_field_raises_witness :
  build_prompt sample sample_repr quoted
    (inventory sample unitless_kitchen) 3 false
  = Raise (KeyError "unit")
  /\ generate sample sample_repr quoted sample_service None 3 false
       unitless_kitchen
     = (unitless_kitchen, Raise (KeyError "unit")).
Proof.
  apply (generate_missing_field_raises sample sample_repr quoted
           sample_to_datetime sample_service None 3 false kitchen
           unitless_kitchen unitless
           ["name"; "quantity"; "expiry"; "category"]
           ["name"; "quantity"] ["category"; "expiry"] "unit").
  - discriminate.
  - intros row [<- | [<- | []]]; eexists; split; reflexivity.
  - cbn [In]. right. right. right. left. reflexivity.
  - cbn [In]. right. right. left. reflexivity.
  - reflexivity.
  - reflexivity.
  - intros k [<- | [<- | []]]; cbn [In]; [left | right; left]; reflexivity.
  - cbn [In]. intros [H | [H | [H | [H | []]]]]; discriminate H.
Defined.


(** X16 on the pantry, for a week. *)
Lemma build_prompt_valid_inventory_witness :
  exists lines,
    build_prompt sample sample_repr quoted (PList sample [chicken; rice]) 7 true
    = Return (prompt 7 true (Str.join NL lines))
    /\ List.length lines = List.length [chicken; rice]
    /\ Utf8.valid (prompt 7 true (Str.join NL lines)) = true.
Proof.
  apply (build_prompt_valid_inventory sample sample_repr quoted
           sample_repr_number [chicken; rice] 7 true); [reflexivity | lia].
Defined.

(** X19 on the rows of the pantry, left as they are. *)
Lemma reconcile_dated_rows_witness :
  reconcile sample sample_repr quoted sample_to_datetime [chicken; rice] kitchen
  = (mkworld sample (PList sample [chicken; rice]) (api_key sample kitchen)
       (Some (iterencode sample sample_repr quoted 0
                (PList sample [chicken; rice]))),
     Return tt)
  /\ load_inventory sample sample_of_literal sample_to_datetime
       (Some (iterencode sample sample_repr quoted 0
                (PList sample [chicken; rice])))
     = Return (PList sample [chicken; rice]).
Proof.
  apply (reconcile_dated_rows sample sample_repr sample_of_literal quoted
           sample_to_datetime sample_repr_number sample_of_repr
           [chicken; rice] kitchen); [reflexivity |].
  intros r [<- | [<- | []]]; eexists; eexists; split; reflexivity.
Defined.

(** An inventory of values that JSON has no form for. *)
Definition curios : pyval sample :=
  PList sample
    [PDict sample
       [ ("expiry", PTimestamp sample (mkTimestamp june_first 43200000000000));
         ("opened", PNaT sample);
         ("quantity", PFloat sample (NaN sample));
         ("bought", PDate sample june_first);
         ("tags", PList sample [PStr sample "冷冻"; PNone sample]) ]].



(** X2 on the inventory that the file with the escape loads as. *)
Lemma failed_write_empties_file_witness :
  load_inventory sample sample_of_literal sample_to_datetime (Some escaped_file)
  = Return unwritable
  /\ save_inventory sample sample_repr quoted unwritable (Some escaped_file)
     = (Some EmptyString, Raise UnicodeEncodeError)
  /\ load_inventory sample sample_of_literal sample_to_datetime
       (fst (save_inventory sample sample_repr quoted unwritable
               (Some escaped_file)))
     = Return (PList sample []).
Proof.
  split; [vm_compute; reflexivity |].
  apply (failed_write_empties_file sample sample_repr sample_of_literal quoted
           sample_to_datetime unwritable (Some escaped_file));
    vm_compute; reflexivity.
Defined.

(** X20 on the curios, which can be saved. *)
Lemma save_inventory_outcome_witness :
  save_inventory sample sample_repr quoted curios None
  = (Some (iterencode sample sample_repr quoted 0 curios), Return tt).
Proof.
  exact (save_inventory_outcome sample sample_repr quoted sample_repr_number
           curios None).
Defined.

End Example.
